(** * ClaudeCopy-Backend: provider adapters, conversation store, chat gateway

    A shallow embedding of the JavaScript sources

    - [utils/conversationManager.js]  (class [ConversationManager])
    - [services/anthropicService.js], [services/openaiService.js],
      [services/mistralService.js], [services/cohereService.js],
      [services/geminiService.js]   (the provider adapters)
    - [server.js]                     (the [/api/chat] handler, the
      streaming, conversation and comparison routes)
    - [middleware/validation.js]      ([validateChatRequest])

    followed by the properties of the specification that were checked
    against them and by further properties of the code.

    Conventions of the embedding.

    - A JavaScript string is a [string]; one character stands for one
      UTF-16 code unit, restricted to the range 0..255.
    - Values that come from outside the program (vendor responses, stream
      events, parsed JSON) are untyped and modelled by [JS.Value]; objects
      built by the program itself are records.
    - A number is an exact decimal [m * 10^e]; the rounding of IEEE doubles
      is not modelled.
    - An exception is the [Throw] case of [JS.outcome]; [try/catch] is a
      match on it.
    - The conversation directory is modelled by its documents: one log per
      file name [<id>.json] and the shared index [metadata.json] (a plain
      object used as a map from ids to records: its own properties are a
      [gmap], what it inherits from [Object.prototype] is observed by the
      call that looks an id up).  Paths are those of a POSIX, case-sensitive
      file system; an id stands for its own file only when
      [ConversationManager.namesOwnFile] holds of it, and the properties
      that depend on this say so.
    - Clock readings, random numbers, I/O failures and the state of
      [Object.prototype] are inputs of the operation that observes them. *)

From Stdlib Require Import ZArith List String Ascii Bool Lia DecimalString.
From stdpp Require Import base option list gmap strings.

Set Warnings "-register-all".
Open Scope string_scope.

(* ================================================================== *)
(** * JavaScript values and string primitives *)
(* ================================================================== *)

Module JS.

(** ** Exceptions *)

Inductive outcome (A : Type) : Type :=
| Ok (a : A)
| Throw (message : string).
Arguments Ok {A} a.
Arguments Throw {A} message.

Definition bind {A B : Type} (x : outcome A) (k : A -> outcome B) : outcome B :=
  match x with
  | Ok a => k a
  | Throw e => Throw e
  end.

#[global] Instance outcome_bind : MBind outcome := fun A B k x => bind x k.
#[global] Instance outcome_ret : MRet outcome := fun A a => Ok a.

Definition threw {A : Type} (x : outcome A) : bool :=
  match x with Ok _ => false | Throw _ => true end.

(** ** Characters *)

Definition code (c : ascii) : nat := nat_of_ascii c.

(** The double quote. *)
Definition dquote : ascii := ascii_of_nat 34.

(** [\s] of a regular expression, which is also what [String.prototype.trim]
    removes: TAB, LF, VT, FF, CR, SPACE and NBSP in the 8-bit range. *)
Definition is_space (c : ascii) : bool :=
  let n := code c in
  (((9 <=? n) && (n <=? 13)) || (n =? 32) || (n =? 160))%nat.

(** [\w]: ASCII letters, digits and the underscore. *)
Definition is_word (c : ascii) : bool :=
  let n := code c in
  (((48 <=? n) && (n <=? 57)) || ((65 <=? n) && (n <=? 90))
   || ((97 <=? n) && (n <=? 122)) || (n =? 95))%nat.

Definition is_digit (c : ascii) : bool :=
  let n := code c in ((48 <=? n) && (n <=? 57))%nat.

(** ** Strings *)

Fixpoint filter_chars (keep : ascii -> bool) (s : string) : string :=
  match s with
  | EmptyString => EmptyString
  | String c s' =>
      if keep c then String c (filter_chars keep s') else filter_chars keep s'
  end.

Fixpoint trimStart (s : string) : string :=
  match s with
  | EmptyString => EmptyString
  | String c s' => if is_space c then trimStart s' else s
  end.

Definition trimEnd (s : string) : string :=
  String.rev (trimStart (String.rev s)).

(** [s.trim()] *)
Definition trim (s : string) : string := trimEnd (trimStart s).

(** [s.split(sep)] for a separator of one character. *)
Fixpoint split (sep : ascii) (s : string) : list string :=
  match s with
  | EmptyString => [EmptyString]
  | String c s' =>
      if Ascii.eqb c sep then EmptyString :: split sep s'
      else match split sep s' with
           | w :: ws => String c w :: ws
           | [] => [String c EmptyString]
           end
  end.

(** [xs.join(sep)] on an array of strings. *)
Definition join (sep : string) (xs : list string) : string :=
  String.concat sep xs.

(** [s.startsWith(p)] *)
Definition startsWith (p s : string) : bool := String.prefix p s.

(** [s.slice(n)] for [n >= 0]. *)
Fixpoint slice_from (n : nat) (s : string) : string :=
  match n, s with
  | O, _ => s
  | S n', EmptyString => EmptyString
  | S n', String _ s' => slice_from n' s'
  end.

(** [s.substring(0, n)] *)
Definition substring_to (n : nat) (s : string) : string :=
  String.substring 0 n s.

(** [xs.slice(-n)] on an array: the last [n] elements. *)
Definition slice_last {A : Type} (n : nat) (xs : list A) : list A :=
  drop (length xs - n) xs.

(** [xs.slice(0, n)] on an array. *)
Definition slice_first {A : Type} (n : nat) (xs : list A) : list A :=
  take n xs.

(** ** Values *)

Inductive Value : Type :=
| VUndefined
| VNull
| VBool (b : bool)
| VNum (m e : Z)          (* the number m * 10^e *)
| VNaN
| VStr (s : string)
| VArr (items : list Value)
| VObj (fields : list (string * Value)).

Definition VInt (n : Z) : Value := VNum n 0.

(** Normal form of a decimal: [e <= 0], and no trailing zero digit in [m]
    when [e < 0].  [fuel] bounds the number of digits removed. *)
Fixpoint strip_zeros (fuel : nat) (m e : Z) : Z * Z :=
  match fuel with
  | O => (m, e)
  | S fuel' =>
      if (e <? 0)%Z && (m mod 10 =? 0)%Z && negb (m =? 0)%Z
      then strip_zeros fuel' (m / 10)%Z (e + 1)%Z
      else (m, e)
  end.

Definition normalize (m e : Z) : Z * Z :=
  if (m =? 0)%Z then (0%Z, 0%Z)
  else if (0 <=? e)%Z then ((m * 10 ^ e)%Z, 0%Z)
  else strip_zeros (Z.to_nat (- e)) m e.

Definition mkNum (m e : Z) : Value :=
  let '(m', e') := normalize m e in VNum m' e'.

Definition num_add (m1 e1 m2 e2 : Z) : Value :=
  let e := Z.min e1 e2 in
  mkNum (m1 * 10 ^ (e1 - e) + m2 * 10 ^ (e2 - e))%Z e.

(** Truthiness, as tested by [if (v)], [!v] and [v || d]. *)
Definition truthy (v : Value) : bool :=
  match v with
  | VUndefined | VNull | VNaN => false
  | VBool b => b
  | VNum m _ => negb (m =? 0)%Z
  | VStr s => negb (String.eqb s EmptyString)
  | VArr _ | VObj _ => true
  end.

(** [a || b] *)
Definition or_else (a b : Value) : Value := if truthy a then a else b.

Definition digits_of (n : Z) : string :=
  NilZero.string_of_int (Z.to_int n).

Fixpoint zeros (n : nat) : string :=
  match n with O => EmptyString | S n' => String "0" (zeros n') end.

(** Decimal rendering of [m * 10^e] for a normalized pair, in positional
    notation whatever the magnitude. *)
Definition num_to_string (m e : Z) : string :=
  if (0 <=? e)%Z then digits_of (m * 10 ^ e)%Z
  else
    let k := Z.to_nat (- e) in
    let a := digits_of (Z.abs m) in
    let padded := zeros (S k - String.length a) ++ a in
    let n := String.length padded in
    (if (m <? 0)%Z then "-" else EmptyString)
      ++ String.substring 0 (n - k) padded ++ "." ++ slice_from (n - k) padded.

(** [String(v)], the conversion applied by [s + v] and [s += v] when [s] is
    a string.  An array joins its items with commas, [null] and [undefined]
    items rendering as nothing. *)
Fixpoint to_str (v : Value) : string :=
  match v with
  | VUndefined => "undefined"
  | VNull => "null"
  | VBool true => "true"
  | VBool false => "false"
  | VNum m e => num_to_string m e
  | VNaN => "NaN"
  | VStr s => s
  | VArr items =>
      String.concat ","
        (List.map (fun x => match x with
                            | VUndefined | VNull => EmptyString
                            | _ => to_str x
                            end) items)
  | VObj _ => "[object Object]"
  end.

(** [s + v] for a string [s]. *)
Definition str_plus (s : string) (v : Value) : string := s ++ to_str v.

(** [a + b] on the values the adapters add: numbers, and the values
    [ToNumber] maps to a number; a string, array or object operand makes
    it a concatenation. *)
Definition is_stringy (v : Value) : bool :=
  match v with VStr _ | VArr _ | VObj _ => true | _ => false end.

Definition to_number (v : Value) : Value :=
  match v with
  | VNum m e => VNum m e
  | VNull | VBool false => VInt 0
  | VBool true => VInt 1
  | _ => VNaN
  end.

Definition plus (a b : Value) : Value :=
  if is_stringy a || is_stringy b then VStr (to_str a ++ to_str b)
  else match to_number a, to_number b with
       | VNum m1 e1, VNum m2 e2 => num_add m1 e1 m2 e2
       | _, _ => VNaN
       end.

(** ** Property access *)

Fixpoint assoc (k : string) (fields : list (string * Value)) : option Value :=
  match fields with
  | [] => None
  | (k', v) :: rest =>
      match assoc k rest with
      | Some v' => Some v'          (* a later duplicate key wins *)
      | None => if String.eqb k k' then Some v else None
      end
  end.

(** The array index denoted by a property name, for the names used by the
    program ("0"). *)
Definition index_of_key (k : string) : option nat :=
  if String.eqb k "0" then Some 0 else None.

(** [v[k]] or [v.k] on a value that is neither [undefined] nor [null].
    The names the adapters read ([choices], [delta], [content], [usage],
    ...) are not properties of a built-in prototype: the own properties,
    the indices and [length] are all there is to find. *)
Definition own (v : Value) (k : string) : Value :=
  match v with
  | VObj fields => match assoc k fields with Some x => x | None => VUndefined end
  | VArr items =>
      if String.eqb k "length" then VInt (Z.of_nat (length items))
      else match index_of_key k with
           | Some i => nth i items VUndefined
           | None => VUndefined
           end
  | VStr s =>
      if String.eqb k "length" then VInt (Z.of_nat (String.length s))
      else match index_of_key k with
           | Some i => match String.get i s with
                       | Some c => VStr (String c EmptyString)
                       | None => VUndefined
                       end
           | None => VUndefined
           end
  | _ => VUndefined
  end.

Definition nullish (v : Value) : bool :=
  match v with VUndefined | VNull => true | _ => false end.

(** [v.k]: a [TypeError] when [v] is [undefined] or [null]. *)
Definition get (v : Value) (k : string) : outcome Value :=
  match v with
  | VUndefined =>
      Throw ("Cannot read properties of undefined (reading '" ++ k ++ "')")
  | VNull =>
      Throw ("Cannot read properties of null (reading '" ++ k ++ "')")
  | _ => Ok (own v k)
  end.

(** [v?.k] *)
Definition get_opt (v : Value) (k : string) : Value :=
  if nullish v then VUndefined else own v k.

End JS.

Import JS.

(* ================================================================== *)
(** * Canonical message model *)
(* ================================================================== *)

(** The three-field usage object every adapter returns:
    [{prompt_tokens, completion_tokens, total_tokens}]. *)
Definition usageObject (prompt completion total : Value) : Value :=
  VObj [("prompt_tokens", prompt); ("completion_tokens", completion);
        ("total_tokens", total)].

(** [{role, content, timestamp}], with the [model] and [usage] the gateway
    adds to an assistant turn. *)
Record Message : Type := mkMessage {
  msg_role : string;
  msg_content : string;
  msg_timestamp : string;
  msg_model : option Value;
  msg_usage : option Value
}.

Definition userMessage (content timestamp : string) : Message :=
  mkMessage "user" content timestamp None None.

(* ================================================================== *)
(** * utils/conversationManager.js *)
(* ================================================================== *)

Module ConversationManager.

(** An element of a conversation log: the message spread into a new object
    together with the [id] and [createdAt] that [saveMessage] adds.  An
    imported element is stored as supplied, possibly without them. *)
Record Entry : Type := mkEntry {
  entry_message : Message;
  entry_id : option Value;
  entry_createdAt : option string
}.

Record LastMessage : Type := mkLastMessage {
  lm_role : string;
  lm_content : string;
  lm_timestamp : string
}.

(** One record of [metadata.json]. *)
Record Metadata : Type := mkMetadata {
  createdAt : string;
  messageCount : Z;
  title : string;
  lastUpdated : string;
  lastMessage : LastMessage
}.

(** The directory [data/conversations]: [logs !! id] is the content of
    [<id>.json] when that file exists, [index] the content of
    [metadata.json] when it exists. *)
Record Store : Type := mkStore {
  logs : gmap string (list Entry);
  index : option (gmap string Metadata)
}.

Definition emptyStore : Store := mkStore ∅ None.

(** [path.join(this.conversationsDir, `${conversationId}.json`)] is the
    file [<id>.json] of the directory, and a file other than
    [metadata.json], when the id has no path separator and is not
    [metadata].  Any other id reaches the file of another id ([./a] that of
    [a]), the index itself or a file outside the directory: the keys of
    [logs] do not stand for such ids. *)
Fixpoint hasSeparator (s : string) : bool :=
  match s with
  | EmptyString => false
  | String c s' => Ascii.eqb c "/"%char || hasSeparator s'
  end.

Definition namesOwnFile (conversationId : string) : bool :=
  negb (hasSeparator conversationId) && negb (String.eqb conversationId "metadata").

(** What [metadata[conversationId]] finds when the index has no own
    property of that name: nothing (or a falsy value, which the assignment
    of a record shadows), an object or a function of [Object.prototype], or
    a truthy primitive. *)
Inductive Inherited : Type :=
  | NotInherited
  | InheritedObject
  | InheritedPrimitive.

(** The properties of [Object.prototype] as the language defines it: each
    one a function or an object. *)
Definition prototypeNames : list string :=
  ["constructor"; "__proto__"; "hasOwnProperty"; "isPrototypeOf";
   "propertyIsEnumerable"; "toLocaleString"; "toString"; "valueOf";
   "__defineGetter__"; "__defineSetter__"; "__lookupGetter__";
   "__lookupSetter__"].

Definition objectPrototype (name : string) : Inherited :=
  if existsb (String.eqb name) prototypeNames then InheritedObject else NotInherited.

(** What one call observes of its environment: the clock, the random
    number generator, the failures of the file system and what a plain
    object inherits. *)
Record Env : Type := mkEnv {
  now_id : Value;               (* Date.now() + Math.random() *)
  now_entry : string;           (* new Date().toISOString(), saveMessage *)
  now_created : string;         (* ... when a metadata record is created *)
  now_updated : string;         (* ... when lastUpdated is assigned *)
  now_millis : string;          (* Date.now().toString() *)
  read_log_fails : bool;        (* readFile(<id>.json) rejects *)
  write_log_fails : bool;       (* writeFile(<id>.json) rejects *)
  unlink_fails : bool;          (* unlink(<id>.json) rejects on a present file *)
  read_index_fails : bool;      (* readFile(metadata.json) rejects *)
  write_index_fails : bool;     (* writeFile(metadata.json) rejects *)
  inherits : string -> Inherited   (* metadata[name], name not an own property *)
}.

(** An environment without I/O failures, [Object.prototype] being as the
    language defines it. *)
Definition calm (id : Value) (t_entry t_created t_updated t_millis : string) : Env :=
  mkEnv id t_entry t_created t_updated t_millis false false false false false
        objectPrototype.

Definition io_ok (env : Env) : bool :=
  negb (read_log_fails env || write_log_fails env || unlink_fails env
        || read_index_fails env || write_index_fails env).

(** [generateTitle(content)]:
    [content.replace(/[^\w\s]/gi, '').trim()], then
    [.split(' ').slice(0, 5)], then [.join(' ') || 'New Conversation']. *)
Definition generateTitle (content : string) : string :=
  let cleanContent := trim (filter_chars (fun c => is_word c || is_space c) content) in
  let words := slice_first 5 (split " " cleanContent) in
  let joined := join " " words in
  if String.eqb joined EmptyString then "New Conversation" else joined.

(** The title in the words of the specification: punctuation stripped,
    then the first five whitespace-delimited tokens joined, a fixed
    placeholder when there is no token. *)
Definition is_punctuation (c : ascii) : bool :=
  let n := code c in
  (((33 <=? n) && (n <=? 47)) || ((58 <=? n) && (n <=? 64))
   || ((91 <=? n) && (n <=? 96)) || ((123 <=? n) && (n <=? 126)))%nat.

Fixpoint splitWhen (sep : ascii -> bool) (s : string) : list string :=
  match s with
  | EmptyString => [EmptyString]
  | String c s' =>
      if sep c then EmptyString :: splitWhen sep s'
      else match splitWhen sep s' with
           | w :: ws => String c w :: ws
           | [] => [String c EmptyString]
           end
  end.

Definition tokens (s : string) : list string :=
  List.filter (fun w => negb (String.eqb w EmptyString)) (splitWhen is_space s).

Definition specTitle (content : string) : string :=
  match slice_first 5 (tokens (filter_chars (fun c => negb (is_punctuation c)) content)) with
  | [] => "New Conversation"
  | words => join " " words
  end.

(** [content.substring(0, 100) + (content.length > 100 ? '...' : '')] *)
Definition preview (content : string) : string :=
  substring_to 100 content
    ++ (if (100 <? String.length content)%nat then "..." else EmptyString).

(** [fs.readFile(metadataPath)] followed by [JSON.parse], inside
    [try { } catch { }] with [metadata = {}] as the initial value. *)
Definition readIndexOrEmpty (env : Env) (st : Store) : gmap string Metadata :=
  if read_index_fails env then ∅
  else match index st with
       | Some metadata => metadata
       | None => ∅
       end.

(** The record created for an id the index does not know:
    [{createdAt, messageCount: 0, title}].  Its [lastUpdated] and
    [lastMessage] are assigned right after. *)
Definition freshRecord (env : Env) (last : Message) : Metadata :=
  mkMetadata (now_created env) 0 (generateTitle (msg_content last))
             EmptyString (mkLastMessage EmptyString EmptyString EmptyString).

(** The three assignments to [metadata[conversationId]]. *)
Definition touch (env : Env) (record : Metadata) (last : Message) : Metadata :=
  mkMetadata (createdAt record)
             (messageCount record + 1)
             (title record)
             (now_updated env)
             (mkLastMessage (msg_role last) (preview (msg_content last))
                            (msg_timestamp last)).

(** [updateConversationMetadata(conversationId, lastMessage)].  Every
    exception is caught and logged; the method itself never throws.

    [if (!metadata[conversationId])] looks the id up on a plain object: an
    own record is found; without one, an inherited object or function is
    found in its place, no record is created, the three assignments go to
    that inherited object and the index is written as it was read; an
    inherited truthy primitive makes the first assignment throw (the class
    body is strict code) before anything is written. *)
Definition updateConversationMetadata (env : Env) (st : Store)
    (conversationId : string) (last : Message) : Store :=
  let metadata := readIndexOrEmpty env st in
  let write (updated : gmap string Metadata) : Store :=
    if write_index_fails env then st else mkStore (logs st) (Some updated) in
  match metadata !! conversationId with
  | Some record => write (<[conversationId := touch env record last]> metadata)
  | None =>
      match inherits env conversationId with
      | NotInherited =>
          write (<[conversationId := touch env (freshRecord env last) last]> metadata)
      | InheritedObject => write metadata
      | InheritedPrimitive => st
      end
  end.

(** The element pushed by [saveMessage]:
    [{...message, id: Date.now() + Math.random(), createdAt}]. *)
Definition newEntry (env : Env) (message : Message) : Entry :=
  mkEntry message (Some (now_id env)) (Some (now_entry env)).

(** [saveMessage(conversationId, message)] *)
Definition saveMessage (env : Env) (st : Store)
    (conversationId : string) (message : Message) : Store * outcome unit :=
  let existing :=
    if read_log_fails env then []
    else match logs st !! conversationId with
         | Some conversation => conversation
         | None => []
         end in
  let pushed := (existing ++ [newEntry env message])%list in
  let conversation :=
    if (50 <? length pushed)%nat then slice_last 50 pushed else pushed in
  if write_log_fails env then (st, Throw "EIO: write failed")
  else
    let st1 := mkStore (<[conversationId := conversation]> (logs st)) (index st) in
    (updateConversationMetadata env st1 conversationId message, Ok tt).

(** [getConversation(conversationId)] *)
Definition getConversation (env : Env) (st : Store)
    (conversationId : string) : outcome (list Entry) :=
  match logs st !! conversationId with
  | None => Ok []                                  (* error.code === 'ENOENT' *)
  | Some conversation =>
      if read_log_fails env then Throw "EIO: read failed" else Ok conversation
  end.

(** [deleteConversation(conversationId)].  The [unlink] is outside the inner
    [try]; its rejection reaches the outer [catch], which logs and rethrows. *)
Definition deleteConversation (env : Env) (st : Store)
    (conversationId : string) : Store * outcome unit :=
  match logs st !! conversationId with
  | None => (st, Throw "ENOENT: no such file or directory")
  | Some _ =>
      if unlink_fails env then (st, Throw "EIO: unlink failed")
      else
        let st1 := mkStore (delete conversationId (logs st)) (index st) in
        let st2 :=
          if read_index_fails env then st1
          else match index st1 with
               | None => st1                       (* Metadata file might not exist *)
               | Some metadata =>
                   if write_index_fails env then st1
                   else mkStore (logs st1) (Some (delete conversationId metadata))
               end in
        (st2, Ok tt)
  end.




(** [importConversation(conversationData, conversationId)] *)
Definition importConversation (env : Env) (st : Store)
    (conversationData : list Entry) (conversationId : option string)
    : Store * outcome string :=
  let id :=
    match conversationId with
    | Some s => if String.eqb s EmptyString then now_millis env else s
    | None => now_millis env
    end in
  if write_log_fails env then (st, Throw "EIO: write failed")
  else
    let st1 := mkStore (<[id := conversationData]> (logs st)) (index st) in
    let st2 :=
      match last conversationData with
      | Some final => updateConversationMetadata env st1 id (entry_message final)
      | None => st1
      end in
    (st2, Ok id).

(** The record of an id in the index, when the index exists and has one. *)
Definition metadataOf (st : Store) (conversationId : string) : option Metadata :=
  match index st with
  | Some metadata => metadata !! conversationId
  | None => None
  end.

(** The log of an id, empty when it has none. *)
Definition logOf (st : Store) (conversationId : string) : list Entry :=
  match logs st !! conversationId with
  | Some conversation => conversation
  | None => []
  end.

(** The index an update works on: the parsed file, or [{}]. *)
Definition indexOf (st : Store) : gmap string Metadata :=
  match index st with
  | Some metadata => metadata
  | None => ∅
  end.

(** The record an update of the index starts from, for an id that finds
    its own record or nothing. *)
Definition recordBefore (env : Env) (st : Store) (conversationId : string)
    (last : Message) : Metadata :=
  match metadataOf st conversationId with
  | Some r => r
  | None => freshRecord env last
  end.

(** The record after a run of updates, each with its environment. *)
Definition touchAll (record : Metadata) (calls : list (Env * Message)) : Metadata :=
  fold_left (fun r call => touch (fst call) r (snd call)) calls record.

(** A run of calls none of which meets an I/O failure. *)
Definition calm_run (calls : list (Env * Message)) : Prop :=
  Forall (fun call => io_ok (fst call) = true) calls.

(** A run of calls on an id for which the index inherits nothing. *)
Definition plain_run (conversationId : string) (calls : list (Env * Message)) : Prop :=
  Forall (fun call => inherits (fst call) conversationId = NotInherited) calls.

(** A run of calls on an id for which the index inherits an object. *)
Definition inherited_run (conversationId : string) (calls : list (Env * Message)) : Prop :=
  Forall (fun call => inherits (fst call) conversationId = InheritedObject) calls.

(** A run of [saveMessage] calls on one conversation id, each with the
    environment it observes; the run stops at the first call that throws. *)
Fixpoint saveAll (st : Store) (conversationId : string)
    (calls : list (Env * Message)) : Store * outcome unit :=
  match calls with
  | [] => (st, Ok tt)
  | (env, message) :: rest =>
      match saveMessage env st conversationId message with
      | (st', Ok _) => saveAll st' conversationId rest
      | (st', Throw e) => (st', Throw e)
      end
  end.

End ConversationManager.

(* ================================================================== *)
(** * Provider adapters: shared vocabulary *)
(* ================================================================== *)

(** The argument object of [generateResponse] and [streamResponse].  A
    field left out by the caller is [None]; the destructuring defaults of
    each method apply to it.  [streamResponse] destructures no [maxTokens]:
    a value supplied there is not read. *)
Record Request : Type := mkRequest {
  req_messages : list Message;
  req_model : option string;
  req_systemPrompt : option string;
  req_temperature : option Value;
  req_maxTokens : option Z
}.

(** [x = d] in a destructuring pattern. *)
Definition orDefault {A : Type} (x : option A) (d : A) : A :=
  match x with Some a => a | None => d end.

(** The default [temperature = 0.7]. *)
Definition defaultTemperature : Value := VNum 7 (-1).

(** [if (systemPrompt)]: present and not the empty string. *)
Definition hasSystemPrompt (systemPrompt : option string) : option string :=
  match systemPrompt with
  | Some s => if String.eqb s EmptyString then None else Some s
  | None => None
  end.

(** A role-tagged turn as sent to a vendor. *)
Record Turn : Type := mkTurn {
  turn_role : string;
  turn_content : string
}.

(** What [generateResponse] returns. *)
Record Result : Type := mkResult {
  res_content : Value;
  res_model : Value;
  res_usage : Value
}.

(** The invocations of the three callbacks of [streamResponse], in order.
    [OnComplete] carries the fields of its argument object, [OnError] the
    message of the error. *)
Inductive Callback : Type :=
| OnChunk (content : Value)
| OnComplete (content : string) (model : string) (usage : Value)
| OnError (message : string).

(** An incremental-event iterator handed out by a vendor client: the
    events it yields and, possibly, the error it ends with. *)
Record Stream : Type := mkStream {
  chunks : list Value;
  failure : option string
}.

(** [v === 'literal'] *)
Definition isString (v : Value) (literal : string) : bool :=
  match v with
  | VStr s => String.eqb s literal
  | _ => false
  end.

(** [for await (const chunk of stream) { body }]: [body] maps the loop
    state and a chunk to the new state and the callbacks invoked, or
    throws, which ends the loop. *)
Fixpoint forAwait {S : Type} (body : S -> Value -> outcome (S * list Callback))
    (st : S) (cs : list Value) : list Callback * outcome S :=
  match cs with
  | [] => ([], Ok st)
  | chunk :: rest =>
      match body st chunk with
      | Throw e => ([], Throw e)
      | Ok (st', called) =>
          let '(trace, r) := forAwait body st' rest in
          ((called ++ trace)%list, r)
      end
  end.

(** The payloads passed to [onChunk], in arrival order. *)
Fixpoint deltas (trace : list Callback) : list Value :=
  match trace with
  | [] => []
  | OnChunk v :: rest => v :: deltas rest
  | _ :: rest => deltas rest
  end.

(** Their concatenation, by the [+=] of the language on a string. *)
Definition concatDeltas (trace : list Callback) : string :=
  fold_left str_plus (deltas trace) EmptyString.

(** The contents handed to [onComplete]. *)
Fixpoint completions (trace : list Callback) : list string :=
  match trace with
  | [] => []
  | OnComplete c _ _ :: rest => c :: completions rest
  | _ :: rest => completions rest
  end.

(** A loop body that appends to [fullContent] exactly what it passes to
    [onChunk], and calls no other callback. *)
Definition accumulating
    (body : string * Value -> Value -> outcome ((string * Value) * list Callback))
    : Prop :=
  forall full u chunk full' u' called,
    body (full, u) chunk = Ok ((full', u'), called) ->
    full' = fold_left str_plus (deltas called) full /\ completions called = [].

(** The canned reply of a deterministic provider stub: the text, cut into
    the pieces a streaming call delivers, and the accounting. *)
Record Reply : Type := mkReply {
  reply_pieces : list string;
  reply_model : string;
  reply_prompt_tokens : Z;
  reply_completion_tokens : Z
}.

Definition reply_text (r : Reply) : string :=
  String.concat EmptyString (reply_pieces r).

(* ================================================================== *)
(** * services/anthropicService.js *)
(* ================================================================== *)

Module AnthropicService.

(** The argument of [client.messages.create]. *)
Record Params : Type := mkParams {
  model : string;
  max_tokens : Z;
  temperature : Value;
  system : option string;
  messages : list Turn;
  stream : option bool
}.

(** [client.messages.create], without and with [stream: true]. *)
Record Client : Type := mkClient {
  create : Params -> outcome Value;
  createStream : Params -> outcome Stream
}.

Definition defaultModel : string := "claude-3-sonnet-20240229".

(** [formatMessages(messages)] *)
Definition formatMessages (msgs : list Message) : list Turn :=
  List.map
    (fun msg =>
       mkTurn (if String.eqb (msg_role msg) "assistant" then "assistant" else "user")
              (msg_content msg))
    (List.filter (fun msg => negb (String.eqb (msg_role msg) "system")) msgs).

(** The object [generateResponse] passes to [messages.create]. *)
Definition generateParams (req : Request) : Params :=
  mkParams (orDefault (req_model req) defaultModel)
           (orDefault (req_maxTokens req) 1000%Z)
           (orDefault (req_temperature req) defaultTemperature)
           (req_systemPrompt req)
           (formatMessages (req_messages req))
           None.

(** The object [streamResponse] passes to [messages.create]. *)
Definition streamParams (req : Request) : Params :=
  mkParams (orDefault (req_model req) defaultModel)
           1000%Z
           (orDefault (req_temperature req) defaultTemperature)
           (req_systemPrompt req)
           (formatMessages (req_messages req))
           (Some true).

(** The [return { content, model, usage }] of [generateResponse]. *)
Definition translate (response : Value) : outcome Result :=
  blocks ← get response "content";
  block ← get blocks "0";
  text ← get block "text";
  mdl ← get response "model";
  usage ← get response "usage";
  input ← get usage "input_tokens";
  output ← get usage "output_tokens";
  Ok (mkResult text mdl (usageObject input output (plus input output))).

Definition wrapError {A : Type} (x : outcome A) : outcome A :=
  match x with
  | Ok a => Ok a
  | Throw e => Throw ("Anthropic API error: " ++ e)
  end.

(** [generateResponse({messages, model, systemPrompt, temperature, maxTokens})] *)
Definition generateResponse (client : Client) (req : Request) : outcome Result :=
  wrapError (response ← create client (generateParams req); translate response).

(** The body of the [for await] loop; the state is [(fullContent, usage)]. *)
Definition onEvent (st : string * Value) (chunk : Value)
    : outcome ((string * Value) * list Callback) :=
  let '(fullContent, usage) := st in
  type ← get chunk "type";
  if isString type "content_block_delta" then
    delta ← get chunk "delta";
    content ← get delta "text";
    Ok ((str_plus fullContent content, usage), [OnChunk content])
  else if isString type "message_delta" then
    Ok ((fullContent, own chunk "usage"), [])
  else Ok ((fullContent, usage), []).

(** The [usage] field of the argument of [onComplete]. *)
Definition finalUsage (usage : Value) : Value :=
  if truthy usage then
    usageObject (own usage "input_tokens") (own usage "output_tokens")
                (plus (own usage "input_tokens") (own usage "output_tokens"))
  else VNull.

(** [streamResponse({messages, model, systemPrompt, temperature, onChunk,
    onComplete, onError})], as the sequence of callbacks it invokes. *)
Definition streamResponse (client : Client) (req : Request) : list Callback :=
  let mdl := orDefault (req_model req) defaultModel in
  match createStream client (streamParams req) with
  | Throw e => [OnError e]
  | Ok events =>
      match forAwait onEvent (EmptyString, VNull) (chunks events) with
      | (trace, Throw e) => (trace ++ [OnError e])%list
      | (trace, Ok (fullContent, usage)) =>
          match failure events with
          | Some e => (trace ++ [OnError e])%list
          | None => (trace ++ [OnComplete fullContent mdl (finalUsage usage)])%list
          end
      end
  end.

(** *** A deterministic stub of the vendor client *)

Definition Stub : Type := Params -> Reply.

Definition stubResponse (r : Reply) : Value :=
  VObj [("type", VStr "message");
        ("role", VStr "assistant");
        ("content", VArr [VObj [("type", VStr "text"); ("text", VStr (reply_text r))]]);
        ("model", VStr (reply_model r));
        ("usage", VObj [("input_tokens", VInt (reply_prompt_tokens r));
                        ("output_tokens", VInt (reply_completion_tokens r))])].

Definition textDelta (piece : string) : Value :=
  VObj [("type", VStr "content_block_delta");
        ("index", VInt 0);
        ("delta", VObj [("type", VStr "text_delta"); ("text", VStr piece)])].

Definition stubEvents (r : Reply) : list Value :=
  ([VObj [("type", VStr "message_start")];
    VObj [("type", VStr "content_block_start"); ("index", VInt 0)]]
   ++ List.map textDelta (reply_pieces r)
   ++ [VObj [("type", VStr "content_block_stop"); ("index", VInt 0)];
       VObj [("type", VStr "message_delta");
             ("usage", VObj [("output_tokens", VInt (reply_completion_tokens r))])];
       VObj [("type", VStr "message_stop")]])%list.

Definition stubClient (stub : Stub) : Client :=
  mkClient (fun p => Ok (stubResponse (stub p)))
           (fun p => Ok (mkStream (stubEvents (stub p)) None)).

End AnthropicService.

(* ================================================================== *)
(** * services/openaiService.js *)
(* ================================================================== *)

Module OpenAIService.

(** The argument of [client.chat.completions.create]. *)
Record Params : Type := mkParams {
  model : string;
  messages : list Turn;
  temperature : Value;
  max_tokens : Z;
  top_p : option Z;
  frequency_penalty : option Z;
  presence_penalty : option Z;
  stream : option bool
}.

Record Client : Type := mkClient {
  create : Params -> outcome Value;
  createStream : Params -> outcome Stream
}.

Definition defaultModel : string := "gpt-4".

(** [formatMessages(messages, systemPrompt)] *)
Definition formatMessages (msgs : list Message) (systemPrompt : option string)
    : list Turn :=
  let formattedMessages :=
    List.map (fun msg => mkTurn (msg_role msg) (msg_content msg)) msgs in
  match hasSystemPrompt systemPrompt with
  | Some s => mkTurn "system" s :: formattedMessages
  | None => formattedMessages
  end.

Definition generateParams (req : Request) : Params :=
  mkParams (orDefault (req_model req) defaultModel)
           (formatMessages (req_messages req) (req_systemPrompt req))
           (orDefault (req_temperature req) defaultTemperature)
           (orDefault (req_maxTokens req) 1000%Z)
           (Some 1%Z) (Some 0%Z) (Some 0%Z)
           None.

Definition streamParams (req : Request) : Params :=
  mkParams (orDefault (req_model req) defaultModel)
           (formatMessages (req_messages req) (req_systemPrompt req))
           (orDefault (req_temperature req) defaultTemperature)
           1000%Z
           None None None
           (Some true).

(** The [return { content, model, usage }] of [generateResponse]. *)
Definition translate (response : Value) : outcome Result :=
  choices ← get response "choices";
  choice ← get choices "0";
  message ← get choice "message";
  content ← get message "content";
  mdl ← get response "model";
  usage ← get response "usage";
  prompt ← get usage "prompt_tokens";
  completion ← get usage "completion_tokens";
  total ← get usage "total_tokens";
  Ok (mkResult content mdl (usageObject prompt completion total)).

Definition wrapError {A : Type} (x : outcome A) : outcome A :=
  match x with
  | Ok a => Ok a
  | Throw e => Throw ("OpenAI API error: " ++ e)
  end.

Definition generateResponse (client : Client) (req : Request) : outcome Result :=
  wrapError (response ← create client (generateParams req); translate response).

(** The body of the [for await] loop; the state is [(fullContent, usage)]. *)
Definition onEvent (st : string * Value) (chunk : Value)
    : outcome ((string * Value) * list Callback) :=
  let '(fullContent, usage) := st in
  choices ← get chunk "choices";
  choice ← get choices "0";
  let content := or_else (get_opt (get_opt choice "delta") "content") (VStr EmptyString) in
  let '(fullContent', called) :=
    if truthy content then (str_plus fullContent content, [OnChunk content])
    else (fullContent, []) in
  let usage' :=
    if isString (get_opt choice "finish_reason") "stop" then own chunk "usage"
    else usage in
  Ok ((fullContent', usage'), called).

Definition streamResponse (client : Client) (req : Request) : list Callback :=
  let mdl := orDefault (req_model req) defaultModel in
  match createStream client (streamParams req) with
  | Throw e => [OnError e]
  | Ok events =>
      match forAwait onEvent (EmptyString, VNull) (chunks events) with
      | (trace, Throw e) => (trace ++ [OnError e])%list
      | (trace, Ok (fullContent, usage)) =>
          match failure events with
          | Some e => (trace ++ [OnError e])%list
          | None => (trace ++ [OnComplete fullContent mdl usage])%list
          end
      end
  end.

(** *** A deterministic stub of the vendor client *)

Definition Stub : Type := Params -> Reply.

Definition stubUsage (r : Reply) : Value :=
  VObj [("prompt_tokens", VInt (reply_prompt_tokens r));
        ("completion_tokens", VInt (reply_completion_tokens r));
        ("total_tokens",
         VInt (reply_prompt_tokens r + reply_completion_tokens r))].

Definition stubResponse (r : Reply) : Value :=
  VObj [("object", VStr "chat.completion");
        ("model", VStr (reply_model r));
        ("choices",
         VArr [VObj [("index", VInt 0);
                     ("message", VObj [("role", VStr "assistant");
                                       ("content", VStr (reply_text r))]);
                     ("finish_reason", VStr "stop")]]);
        ("usage", stubUsage r)].

Definition contentDelta (piece : string) : Value :=
  VObj [("object", VStr "chat.completion.chunk");
        ("choices",
         VArr [VObj [("index", VInt 0);
                     ("delta", VObj [("content", VStr piece)]);
                     ("finish_reason", VNull)]])].

Definition stubEvents (r : Reply) : list Value :=
  ([VObj [("object", VStr "chat.completion.chunk");
          ("choices",
           VArr [VObj [("index", VInt 0);
                       ("delta", VObj [("role", VStr "assistant");
                                       ("content", VStr EmptyString)]);
                       ("finish_reason", VNull)]])]]
   ++ List.map contentDelta (reply_pieces r)
   ++ [VObj [("object", VStr "chat.completion.chunk");
             ("choices",
              VArr [VObj [("index", VInt 0);
                          ("delta", VObj []);
                          ("finish_reason", VStr "stop")]])]])%list.

Definition stubClient (stub : Stub) : Client :=
  mkClient (fun p => Ok (stubResponse (stub p)))
           (fun p => Ok (mkStream (stubEvents (stub p)) None)).

End OpenAIService.

(* ================================================================== *)
(** * [JSON.parse] *)
(* ================================================================== *)

Module JSON.

(** JSON white space: space, TAB, LF, CR. *)
Definition is_ws (c : ascii) : bool :=
  let n := code c in ((n =? 32) || (n =? 9) || (n =? 10) || (n =? 13))%nat.

Fixpoint skip_ws (s : string) : string :=
  match s with
  | String c s' => if is_ws c then skip_ws s' else s
  | EmptyString => EmptyString
  end.

Definition digit_value (c : ascii) : Z := Z.of_nat (code c - 48).

(** The longest prefix of decimal digits, read as a number after [acc];
    the count of digits read; the rest of the text. *)
Fixpoint read_digits (s : string) (acc : Z) (count : nat) : Z * nat * string :=
  match s with
  | String c s' =>
      if is_digit c then read_digits s' (acc * 10 + digit_value c)%Z (S count)
      else (acc, count, s)
  | EmptyString => (acc, count, s)
  end.

(** The integer part: [0], or a digit from 1 to 9 followed by digits. *)
Definition read_int (s : string) : option (Z * string) :=
  match s with
  | String "0" s' => Some (0%Z, s')
  | String c _ =>
      if is_digit c then
        let '(n, _, rest) := read_digits s 0%Z 0 in Some (n, rest)
      else None
  | EmptyString => None
  end.

(** An optional fraction: the digits as a number and their count. *)
Definition read_frac (s : string) : option (Z * nat * string) :=
  match s with
  | String "." s' =>
      match read_digits s' 0%Z 0 with
      | (_, O, _) => None
      | (f, n, rest) => Some (f, n, rest)
      end
  | _ => Some (0%Z, 0, s)
  end.

(** An optional exponent. *)
Definition read_exp (s : string) : option (Z * string) :=
  let digits_after (negative : bool) (s' : string) :=
    match read_digits s' 0%Z 0 with
    | (_, O, _) => None
    | (x, _, rest) => Some (if negative then (- x)%Z else x, rest)
    end in
  match s with
  | String c s' =>
      if Ascii.eqb c "e" || Ascii.eqb c "E" then
        match s' with
        | String "+" s'' => digits_after false s''
        | String "-" s'' => digits_after true s''
        | _ => digits_after false s'
        end
      else Some (0%Z, s)
  | EmptyString => Some (0%Z, s)
  end.

(** A number literal at the head of the text. *)
Definition read_number (s : string) : option (Value * string) :=
  let '(negative, s1) :=
    match s with
    | String "-" s' => (true, s')
    | _ => (false, s)
    end in
  match read_int s1 with
  | None => None
  | Some (i, s2) =>
      match read_frac s2 with
      | None => None
      | Some (f, nf, s3) =>
          match read_exp s3 with
          | None => None
          | Some (x, s4) =>
              let m := (i * 10 ^ Z.of_nat nf + f)%Z in
              Some (mkNum (if negative then (- m)%Z else m) (x - Z.of_nat nf)%Z, s4)
          end
      end
  end.

Definition hex_value (c : ascii) : option nat :=
  let n := code c in
  if ((48 <=? n) && (n <=? 57))%nat then Some (n - 48)
  else if ((65 <=? n) && (n <=? 70))%nat then Some (n - 55)
  else if ((97 <=? n) && (n <=? 102))%nat then Some (n - 87)
  else None.

(** The characters of a string literal after its opening quote, up to and
    without the closing quote.  A [\uXXXX] escape denotes the code unit
    [XXXX]; the embedding keeps its low eight bits. *)
Fixpoint read_string (s : string) : option (string * string) :=
  match s with
  | EmptyString => None
  | String c s' =>
      let cons (x : ascii) (tail : string) :=
        match read_string tail with
        | Some (body, rest) => Some (String x body, rest)
        | None => None
        end in
      if Ascii.eqb c dquote then Some (EmptyString, s')
      else if Ascii.eqb c "\" then
        match s' with
        | EmptyString => None
        | String e s'' =>
            if Ascii.eqb e dquote then cons dquote s''
            else if Ascii.eqb e "\" then cons "\"%char s''
            else if Ascii.eqb e "/" then cons "/"%char s''
            else if Ascii.eqb e "b" then cons (ascii_of_nat 8) s''
            else if Ascii.eqb e "f" then cons (ascii_of_nat 12) s''
            else if Ascii.eqb e "n" then cons (ascii_of_nat 10) s''
            else if Ascii.eqb e "r" then cons (ascii_of_nat 13) s''
            else if Ascii.eqb e "t" then cons (ascii_of_nat 9) s''
            else if Ascii.eqb e "u" then
              match s'' with
              | String h1 (String h2 (String h3 (String h4 s3))) =>
                  match hex_value h1, hex_value h2, hex_value h3, hex_value h4 with
                  | Some _, Some _, Some a, Some b =>
                      cons (ascii_of_nat (16 * a + b)) s3
                  | _, _, _, _ => None
                  end
              | _ => None
              end
            else None
        end
      else if (code c <? 32)%nat then None
      else cons c s'
  end.

(** [expect "true" s]: the text after the literal, when [s] starts with it. *)
Definition expect (literal s : string) : option string :=
  if String.prefix literal s
  then Some (slice_from (String.length literal) s)
  else None.

(** A value at the head of the text, after white space, with the elements
    of an array and the members of an object read by two local loops.
    [fuel] bounds the depth of nesting and [n] the number of elements; each
    level and each element consumes a character, so the length of the text
    is enough for both. *)
Fixpoint read_value (fuel : nat) (s : string) : option (Value * string) :=
  match fuel with
  | O => None
  | S fuel' =>
      let fix read_items (n : nat) (acc : list Value) (s : string)
          : option (Value * string) :=
        match n with
        | O => None
        | S n' =>
            match read_value fuel' s with
            | None => None
            | Some (v, rest) =>
                match skip_ws rest with
                | String "," rest' => read_items n' (acc ++ [v])%list rest'
                | String "]" rest' => Some (VArr (acc ++ [v])%list, rest')
                | _ => None
                end
            end
        end in
      let fix read_members (n : nat) (acc : list (string * Value)) (s : string)
          : option (Value * string) :=
        match n with
        | O => None
        | S n' =>
            match skip_ws s with
            | String quote s1 =>
                if negb (Ascii.eqb quote dquote) then None else
                match read_string s1 with
                | None => None
                | Some (key, s2) =>
                    match skip_ws s2 with
                    | String ":" s3 =>
                        match read_value fuel' s3 with
                        | None => None
                        | Some (v, rest) =>
                            match skip_ws rest with
                            | String "," rest' =>
                                read_members n' (acc ++ [(key, v)])%list rest'
                            | String "}" rest' =>
                                Some (VObj (acc ++ [(key, v)])%list, rest')
                            | _ => None
                            end
                        end
                    | _ => None
                    end
                end
            | _ => None
            end
        end in
      match skip_ws s with
      | EmptyString => None
      | String c s' =>
          if Ascii.eqb c "{" then
            match skip_ws s' with
            | String "}" rest => Some (VObj [], rest)
            | _ => read_members (String.length s') [] s'
            end
          else if Ascii.eqb c "[" then
            match skip_ws s' with
            | String "]" rest => Some (VArr [], rest)
            | _ => read_items (String.length s') [] s'
            end
          else if Ascii.eqb c dquote then
            match read_string s' with
            | Some (body, rest) => Some (VStr body, rest)
            | None => None
            end
          else if Ascii.eqb c "t" then
            match expect "true" (String c s') with
            | Some rest => Some (VBool true, rest)
            | None => None
            end
          else if Ascii.eqb c "f" then
            match expect "false" (String c s') with
            | Some rest => Some (VBool false, rest)
            | None => None
            end
          else if Ascii.eqb c "n" then
            match expect "null" (String c s') with
            | Some rest => Some (VNull, rest)
            | None => None
            end
          else read_number (String c s')
      end
  end.

(** [JSON.parse(text)]: one value, surrounded by white space only, or a
    [SyntaxError]. *)
Definition parse (text : string) : outcome Value :=
  match read_value (S (String.length text)) text with
  | Some (v, rest) =>
      match skip_ws rest with
      | EmptyString => Ok v
      | _ => Throw "SyntaxError: Unexpected non-whitespace character after JSON"
      end
  | None => Throw "SyntaxError: Unexpected token or end of JSON input"
  end.

End JSON.

(* ================================================================== *)
(** * services/mistralService.js *)
(* ================================================================== *)

Module MistralService.

(** The body of the [axios.post] to [/chat/completions]. *)
Record Params : Type := mkParams {
  model : string;
  messages : list Turn;
  temperature : Value;
  max_tokens : Z;
  top_p : option Z;
  stream : bool
}.

(** The raw byte feed of a streaming response: the chunks delivered to the
    ['data'] listener, each already converted by [chunk.toString()], and
    the error delivered to the ['error'] listener, if any. *)
Record Feed : Type := mkFeed {
  reads : list string;
  feed_error : option string
}.

(** [axios.post]: [response.data] of a plain call, the feed of a call with
    [responseType: 'stream'].  A rejection carries the text the adapter
    reports for it. *)
Record Client : Type := mkClient {
  post : Params -> outcome Value;
  postStream : Params -> outcome Feed
}.

Definition defaultModel : string := "mistral-large-latest".

(** [formatMessages(messages, systemPrompt)] *)
Definition formatMessages (msgs : list Message) (systemPrompt : option string)
    : list Turn :=
  let formattedMessages :=
    List.map (fun msg => mkTurn (msg_role msg) (msg_content msg)) msgs in
  match hasSystemPrompt systemPrompt with
  | Some s => mkTurn "system" s :: formattedMessages
  | None => formattedMessages
  end.

Definition generateParams (req : Request) : Params :=
  mkParams (orDefault (req_model req) defaultModel)
           (formatMessages (req_messages req) (req_systemPrompt req))
           (orDefault (req_temperature req) defaultTemperature)
           (orDefault (req_maxTokens req) 1000%Z)
           (Some 1%Z)
           false.

Definition streamParams (req : Request) : Params :=
  mkParams (orDefault (req_model req) defaultModel)
           (formatMessages (req_messages req) (req_systemPrompt req))
           (orDefault (req_temperature req) defaultTemperature)
           1000%Z
           None
           true.

(** The [return { content, model, usage }] of [generateResponse]. *)
Definition translate (data : Value) : outcome Result :=
  choices ← get data "choices";
  choice ← get choices "0";
  message ← get choice "message";
  content ← get message "content";
  mdl ← get data "model";
  usage ← get data "usage";
  prompt ← get usage "prompt_tokens";
  completion ← get usage "completion_tokens";
  total ← get usage "total_tokens";
  Ok (mkResult content mdl (usageObject prompt completion total)).

Definition wrapError {A : Type} (x : outcome A) : outcome A :=
  match x with
  | Ok a => Ok a
  | Throw e => Throw ("Mistral API error: " ++ e)
  end.

Definition generateResponse (client : Client) (req : Request) : outcome Result :=
  wrapError (data ← post client (generateParams req); translate data).

(** The [try] block applied to the payload of one event line: the new
    [(fullContent, usage)] and the callbacks invoked, or the exception that
    the [catch] will discard. *)
Definition onPayload (st : string * Value) (data : string)
    : outcome ((string * Value) * list Callback) :=
  let '(fullContent, usage) := st in
  parsed ← JSON.parse data;
  choices ← get parsed "choices";
  choice ← get choices "0";
  let content := or_else (get_opt (get_opt choice "delta") "content") (VStr EmptyString) in
  let '(fullContent', called) :=
    if truthy content then (str_plus fullContent content, [OnChunk content])
    else (fullContent, []) in
  let usage' := if truthy (own parsed "usage") then own parsed "usage" else usage in
  Ok ((fullContent', usage'), called).

(** [for (const line of lines) { ... }] of the ['data'] listener.  The
    [return] on the sentinel leaves the listener: the remaining lines of
    this chunk are not looked at. *)
Fixpoint onLines (mdl : string) (st : string * Value) (lines : list string)
    : (string * Value) * list Callback :=
  match lines with
  | [] => (st, [])
  | line :: rest =>
      if startsWith "data: " line then
        let data := slice_from 6 line in
        if String.eqb data "[DONE]" then
          (st, [OnComplete (fst st) mdl (snd st)])
        else
          match onPayload st data with
          | Ok (st', called) =>
              let '(st'', trace) := onLines mdl st' rest in
              (st'', (called ++ trace)%list)
          | Throw _ => onLines mdl st rest      (* Ignore parsing errors *)
          end
      else onLines mdl st rest
  end.

(** The ['data'] listener:
    [chunk.toString().split('\n').filter(line => line.trim())], then the
    loop.  Nothing of [chunk] is kept for the next call. *)
Definition onData (mdl : string) (st : string * Value) (chunk : string)
    : (string * Value) * list Callback :=
  let lines :=
    List.filter (fun line => negb (String.eqb (trim line) EmptyString))
                (split (ascii_of_nat 10) chunk) in
  onLines mdl st lines.

(** The listener applied to the successive chunks of a feed. *)
Fixpoint onFeed (mdl : string) (st : string * Value) (feed : list string)
    : (string * Value) * list Callback :=
  match feed with
  | [] => (st, [])
  | chunk :: rest =>
      let '(st', called) := onData mdl st chunk in
      let '(st'', trace) := onFeed mdl st' rest in
      (st'', (called ++ trace)%list)
  end.

(** [streamResponse({messages, model, systemPrompt, temperature, onChunk,
    onComplete, onError})], as the sequence of callbacks it invokes. *)
Definition streamResponse (client : Client) (req : Request) : list Callback :=
  let mdl := orDefault (req_model req) defaultModel in
  match postStream client (streamParams req) with
  | Throw e => [OnError e]
  | Ok feed =>
      let '(_, trace) := onFeed mdl (EmptyString, VNull) (reads feed) in
      match feed_error feed with
      | Some e => (trace ++ [OnError e])%list
      | None => trace
      end
  end.

End MistralService.

(* ================================================================== *)
(** * services/cohereService.js *)
(* ================================================================== *)

Module CohereService.

Record ChatTurn : Type := mkChatTurn {
  role : string;
  message_text : string
}.

(** The argument of [client.chat] and [client.chatStream]. *)
Record Params : Type := mkParams {
  model : string;
  message : string;
  chatHistory : list ChatTurn;
  preamble : option string;
  temperature : Value;
  maxTokens : Z
}.

Record Client : Type := mkClient {
  chat : Params -> outcome Value;
  chatStream : Params -> outcome Stream
}.

Definition defaultModel : string := "command".

(** [formatMessages(messages)] *)
Definition formatMessages (msgs : list Message) : list ChatTurn :=
  List.map
    (fun msg =>
       mkChatTurn (if String.eqb (msg_role msg) "assistant" then "CHATBOT" else "USER")
                  (msg_content msg))
    msgs.

(** [messages[messages.length - 1].content] *)
Definition currentMessage (msgs : list Message) : outcome string :=
  match last msgs with
  | Some msg => Ok (msg_content msg)
  | None => Throw "Cannot read properties of undefined (reading 'content')"
  end.

(** [xs.slice(0, -1)] *)
Definition slice_init {A : Type} (xs : list A) : list A :=
  take (length xs - 1) xs.

Definition paramsWith (req : Request) (cap : Z) : outcome Params :=
  current ← currentMessage (req_messages req);
  Ok (mkParams (orDefault (req_model req) defaultModel)
               current
               (formatMessages (slice_init (req_messages req)))
               (req_systemPrompt req)
               (orDefault (req_temperature req) defaultTemperature)
               cap).

(** The object [generateResponse] passes to [client.chat]. *)
Definition generateParams (req : Request) : outcome Params :=
  paramsWith req (orDefault (req_maxTokens req) 1000%Z).

(** The object [streamResponse] passes to [client.chatStream]. *)
Definition streamParams (req : Request) : outcome Params :=
  paramsWith req 1000%Z.

(** [response.meta?.billedUnits?.<field> || 0] *)
Definition billed (response : Value) (field : string) : Value :=
  or_else (get_opt (get_opt (own response "meta") "billedUnits") field) (VInt 0).

(** The [return { content, model, usage }] of [generateResponse]. *)
Definition translate (mdl : string) (response : Value) : outcome Result :=
  text ← get response "text";
  Ok (mkResult text (VStr mdl)
        (usageObject (billed response "inputTokens")
                     (billed response "outputTokens")
                     (plus (billed response "inputTokens")
                           (billed response "outputTokens")))).

Definition wrapError {A : Type} (x : outcome A) : outcome A :=
  match x with
  | Ok a => Ok a
  | Throw e => Throw ("Cohere API error: " ++ e)
  end.

Definition generateResponse (client : Client) (req : Request) : outcome Result :=
  wrapError (params ← generateParams req;
             response ← chat client params;
             translate (orDefault (req_model req) defaultModel) response).

End CohereService.

(* ================================================================== *)
(** * services/geminiService.js *)
(* ================================================================== *)

Module GeminiService.

Record GenerationConfig : Type := mkGenerationConfig {
  temperature : Value;
  maxOutputTokens : Z
}.

(** One vendor exchange: the argument of [getGenerativeModel], the argument
    of [startChat] and the text given to [sendMessage] or
    [sendMessageStream]. *)
Record Params : Type := mkParams {
  model : string;
  generationConfig : GenerationConfig;
  history : list Turn;
  chatGenerationConfig : option GenerationConfig;
  text : string
}.

(** [await result.response]: what its method [text()] returns or throws,
    and its property [usageMetadata]. *)
Record Response : Type := mkResponse {
  response_text : outcome Value;
  usageMetadata : Value
}.

Record Client : Type := mkClient {
  sendMessage : Params -> outcome Response
}.

Definition defaultModel : string := "gemini-pro".

(** [formatMessages(messages, systemPrompt)]; a turn is
    [{role, parts: [{text}]}]. *)
Definition formatMessages (msgs : list Message) (systemPrompt : option string)
    : list Turn :=
  let converted :=
    List.map
      (fun msg =>
         mkTurn (if String.eqb (msg_role msg) "assistant" then "model" else "user")
                (msg_content msg))
      msgs in
  match hasSystemPrompt systemPrompt with
  | Some s => mkTurn "user" s :: mkTurn "model" "I understand." :: converted
  | None => converted
  end.

(** [lastMessage.parts[0].text] for the last formatted message. *)
Definition lastText (formatted : list Turn) : outcome string :=
  match last formatted with
  | Some turn => Ok (turn_content turn)
  | None => Throw "Cannot read properties of undefined (reading 'parts')"
  end.

(** The vendor exchange of [generateResponse]. *)
Definition generateParams (req : Request) : outcome Params :=
  let config :=
    mkGenerationConfig (orDefault (req_temperature req) defaultTemperature)
                       (orDefault (req_maxTokens req) 1000%Z) in
  let formatted := formatMessages (req_messages req) (req_systemPrompt req) in
  current ← lastText formatted;
  Ok (mkParams (orDefault (req_model req) defaultModel) config
               (CohereService.slice_init formatted) (Some config) current).

(** The vendor exchange of [streamResponse]. *)
Definition streamParams (req : Request) : outcome Params :=
  let config :=
    mkGenerationConfig (orDefault (req_temperature req) defaultTemperature)
                       1000%Z in
  let formatted := formatMessages (req_messages req) (req_systemPrompt req) in
  current ← lastText formatted;
  Ok (mkParams (orDefault (req_model req) defaultModel) config
               (CohereService.slice_init formatted) None current).

(** [response.usageMetadata?.<field> || 0] *)
Definition counted (response : Response) (field : string) : Value :=
  or_else (get_opt (usageMetadata response) field) (VInt 0).

(** The [return { content, model, usage }] of [generateResponse]. *)
Definition translate (mdl : string) (response : Response) : outcome Result :=
  content ← response_text response;
  Ok (mkResult content (VStr mdl)
        (usageObject (counted response "promptTokenCount")
                     (counted response "candidatesTokenCount")
                     (counted response "totalTokenCount"))).

Definition wrapError {A : Type} (x : outcome A) : outcome A :=
  match x with
  | Ok a => Ok a
  | Throw e => Throw ("Gemini API error: " ++ e)
  end.

Definition generateResponse (client : Client) (req : Request) : outcome Result :=
  wrapError (params ← generateParams req;
             response ← sendMessage client params;
             translate (orDefault (req_model req) defaultModel) response).

End GeminiService.

(* ================================================================== *)
(** * server.js: [POST /api/chat] *)
(* ================================================================== *)

Module Server.

Import ConversationManager.

(** [req.body], after [validateChatRequest]. *)
Record Body : Type := mkBody {
  message : string;
  provider : option string;
  model : option string;
  conversationId : option string;
  systemPrompt : option string;
  temperature : option Value;
  maxTokens : option Z;
  includeHistory : option bool
}.

Inductive Provider : Type := Anthropic | OpenAI | Gemini | Mistral | Cohere.

(** A successful [generateResponse], taken through the canonical contract:
    its [content] is text. *)
Record GenerationResult : Type := mkGenerationResult {
  content : string;
  result_model : Value;
  usage : Value
}.

(** The five imported services, by their [generateResponse]. *)
Definition Services : Type := Provider -> Request -> outcome GenerationResult.

(** What the handler observes of its environment. *)
Record HandlerEnv : Type := mkHandlerEnv {
  uuid : string;                (* uuidv4() *)
  now_user : string;            (* timestamp of userMessage *)
  now_assistant : string;       (* timestamp of assistantMessage *)
  now_reply : string;           (* timestamp of the JSON reply *)
  development : bool;           (* NODE_ENV === 'development' *)
  env_history : Env;            (* during getConversation *)
  env_user : Env;               (* during saveMessage(convId, userMessage) *)
  env_assistant : Env           (* during saveMessage(convId, assistantMessage) *)
}.

(** What the handler sends. *)
Inductive HttpResponse : Type :=
| Json200 (response conversationId : string) (model usage : Value) (timestamp : string)
| Json400 (error : string)
| Json500 (error : string) (details : option string).

Definition lower (c : ascii) : ascii :=
  let n := code c in
  if (((65 <=? n) && (n <=? 90))
      || ((192 <=? n) && (n <=? 222) && negb (n =? 215)))%nat
  then ascii_of_nat (n + 32) else c.

(** [s.toLowerCase()] *)
Fixpoint toLowerCase (s : string) : string :=
  match s with
  | EmptyString => EmptyString
  | String c s' => String (lower c) (toLowerCase s')
  end.

(** The [switch (provider.toLowerCase())]. *)
Definition selectService (name : string) : option Provider :=
  let p := toLowerCase name in
  if String.eqb p "anthropic" then Some Anthropic
  else if String.eqb p "openai" then Some OpenAI
  else if String.eqb p "gemini" then Some Gemini
  else if String.eqb p "mistral" then Some Mistral
  else if String.eqb p "cohere" then Some Cohere
  else None.

(** The [catch] of the handler. *)
Definition failed (env : HandlerEnv) (e : string) : HttpResponse :=
  Json500 "Failed to generate response" (if development env then Some e else None).

(** [conversationId || uuidv4()] *)
Definition resolveId (env : HandlerEnv) (body : Body) : string :=
  match conversationId body with
  | Some s => if String.eqb s EmptyString then uuid env else s
  | None => uuid env
  end.

Definition userTurn (env : HandlerEnv) (body : Body) : Message :=
  mkMessage "user" (message body) (now_user env) None None.

Definition assistantTurn (env : HandlerEnv) (aiResponse : GenerationResult) : Message :=
  mkMessage "assistant" (content aiResponse) (now_assistant env)
            (Some (result_model aiResponse)) (Some (usage aiResponse)).

(** The argument of [aiService.generateResponse]. *)
Definition buildRequest (env : HandlerEnv) (body : Body) (history : list Entry)
    : Request :=
  mkRequest (List.map entry_message history ++ [userTurn env body])%list
            (Some (orDefault (model body) "claude-3-sonnet"))
            (systemPrompt body)
            (Some (orDefault (temperature body) defaultTemperature))
            (Some (orDefault (maxTokens body) 1000%Z)).

(** [includeHistory ? await conversationManager.getConversation(convId) : []] *)
Definition loadHistory (env : HandlerEnv) (st : Store) (body : Body)
    : outcome (list Entry) :=
  if orDefault (includeHistory body) true
  then getConversation (env_history env) st (resolveId env body)
  else Ok [].

(** [app.post('/api/chat', validateChatRequest, async (req, res) => ...)] *)
Definition chat (services : Services) (env : HandlerEnv) (st : Store) (body : Body)
    : Store * HttpResponse :=
  let convId := resolveId env body in
  match loadHistory env st body with
  | Throw e => (st, failed env e)
  | Ok history =>
      match selectService (orDefault (provider body) "anthropic") with
      | None => (st, Json400 "Unsupported AI provider")
      | Some aiService =>
          match services aiService (buildRequest env body history) with
          | Throw e => (st, failed env e)
          | Ok aiResponse =>
              match saveMessage (env_user env) st convId (userTurn env body) with
              | (st1, Throw e) => (st1, failed env e)
              | (st1, Ok _) =>
                  match saveMessage (env_assistant env) st1 convId
                                    (assistantTurn env aiResponse) with
                  | (st2, Throw e) => (st2, failed env e)
                  | (st2, Ok _) =>
                      (st2, Json200 (content aiResponse) convId
                                    (result_model aiResponse) (usage aiResponse)
                                    (now_reply env))
                  end
              end
          end
      end
  end.

End Server.

(* ================================================================== *)
(** * Sample data *)
(* ================================================================== *)

Module Samples.

Import ConversationManager.

Definition newline : string := String (ascii_of_nat 10) EmptyString.

(** A text with each apostrophe replaced by a double quote. *)
Fixpoint quoted (s : string) : string :=
  match s with
  | EmptyString => EmptyString
  | String c s' => String (if Ascii.eqb c "'" then dquote else c) (quoted s')
  end.

(** An environment without failures, at a fixed instant. *)
Definition env0 : Env :=
  calm (VNum 17000000000005 (-1))
       "2024-01-01T10:00:00.000Z" "2024-01-01T10:00:00.001Z"
       "2024-01-01T10:00:00.002Z" "1704103200000".

(** The environment of the [n]-th call of a run. *)
Definition envAt (n : nat) : Env :=
  calm (VInt (Z.of_nat n)) ("entry-" ++ digits_of (Z.of_nat n))
       ("created-" ++ digits_of (Z.of_nat n))
       ("updated-" ++ digits_of (Z.of_nat n)) "1704103200000".

(** An environment in which the log cannot be written. *)
Definition diskFull : Env :=
  mkEnv (VInt 0) "t" "t" "t" "0" false true false false false
        ConversationManager.objectPrototype.

Definition hello : Message := userMessage "Hello there, friend" "2024-01-01T09:59:59.000Z".
Definition hi : Message :=
  mkMessage "assistant" "Hi!" "2024-01-01T10:00:01.000Z" None None.

(** Sixty numbered user messages, each with its environment. *)
Definition sixty : list (Env * Message) :=
  List.map (fun n => (envAt n, userMessage ("message " ++ digits_of (Z.of_nat n)) "ts"))
           (seq 1 60).

(** A message of 101 characters. *)
Definition longMessage : Message :=
  userMessage (String.concat EmptyString (List.repeat "x" 101)) "ts".

(** Sixty entries as a caller could supply them to an import. *)
Definition sixtyEntries : list Entry :=
  List.map (fun call => mkEntry (snd call) None None) sixty.

Definition unevenlySpaced : Message := userMessage "a  b c d e f" "ts".

(** A request that caps the answer at five tokens, and one that leaves the
    cap to its default. *)
Definition cappedRequest : Request :=
  mkRequest [hello] None (Some "Be brief.") None (Some 5%Z).

Definition plainRequest : Request :=
  mkRequest [hello] None (Some "Be brief.") None None.




(** A Mistral response whose [usage] has no [total_tokens], and one with
    no [usage] at all. *)
Definition mistralChoices : Value :=
  VArr [VObj [("index", VInt 0);
              ("message", VObj [("role", VStr "assistant"); ("content", VStr "Hi!")]);
              ("finish_reason", VStr "stop")]].

Definition mistralWithoutTotal : Value :=
  VObj [("model", VStr "mistral-large-latest");
        ("choices", mistralChoices);
        ("usage", VObj [("prompt_tokens", VInt 3); ("completion_tokens", VInt 4)])].

Definition mistralWithoutUsage : Value :=
  VObj [("model", VStr "mistral-large-latest"); ("choices", mistralChoices)].

Definition mistralAnswering (data : Value) : MistralService.Client :=
  MistralService.mkClient (fun _ => Ok data)
                          (fun _ => Ok (MistralService.mkFeed [] None)).

(** A Cohere response without [meta]. *)
Definition cohereWithoutMeta : Value := VObj [("text", VStr "Hi!")].

(** An OpenAI response without [usage]; an Anthropic response whose
    [usage] has no [input_tokens]; a Gemini response whose [usageMetadata]
    has no [totalTokenCount]. *)
Definition openaiWithoutUsage : Value :=
  VObj [("model", VStr "gpt-4"); ("choices", mistralChoices)].

Definition anthropicWithoutInput : Value :=
  VObj [("content", VArr [VObj [("type", VStr "text"); ("text", VStr "Hi!")]]);
        ("model", VStr "claude-3-sonnet-20240229");
        ("usage", VObj [("output_tokens", VInt 4)])].

Definition geminiWithoutTotal : GeminiService.Response :=
  GeminiService.mkResponse
    (Ok (VStr "Hi!"))
    (VObj [("promptTokenCount", VInt 3); ("candidatesTokenCount", VInt 4)]).

(** The two reads of the split event line, and a complete line in the
    shape the vendor sends. *)
Definition firstRead : string := quoted "data: {'delta':'He".
Definition secondRead : string := quoted "llo'}" ++ newline.
Definition wholeLine : string :=
  quoted "data: {'choices':[{'delta':{'content':'Hello'}}]}" ++ newline.
Definition vendorFirstRead : string :=
  quoted "data: {'choices':[{'delta':{'content':'He".
Definition vendorSecondRead : string := quoted "llo'}}]}" ++ newline.
Definition unshapedLine : string := quoted "data: {'delta':'Hello'}" ++ newline.

(** A chat request, services that answer it, services that fail, and
    three environments of the handler: calm, with a full disk, and with a
    disk that fills up between the two saves. *)
Definition chatBody : Server.Body :=
  Server.mkBody "Hello there, friend" (Some "Mistral") None (Some "c1")
                None None None None.

Definition answering : Server.Services :=
  fun _ _ => Ok (Server.mkGenerationResult "Hi!" (VStr "mistral-large-latest")
                   (usageObject (VInt 3) (VInt 1) (VInt 4))).

Definition unreachable : Server.Services :=
  fun _ _ => Throw "Mistral API error: connect ECONNREFUSED".

Definition handlerEnv : Server.HandlerEnv :=
  Server.mkHandlerEnv "7c9e6679-7425-40de-944b-e07fc1f90ae7"
    "2024-01-01T09:59:59.000Z" "2024-01-01T10:00:01.000Z" "2024-01-01T10:00:01.010Z"
    false env0 env0 env0.

Definition handlerEnvDiskFull : Server.HandlerEnv :=
  Server.mkHandlerEnv "7c9e6679-7425-40de-944b-e07fc1f90ae7"
    "2024-01-01T09:59:59.000Z" "2024-01-01T10:00:01.000Z" "2024-01-01T10:00:01.010Z"
    false env0 diskFull diskFull.

Definition handlerEnvDiskFills : Server.HandlerEnv :=
  Server.mkHandlerEnv "7c9e6679-7425-40de-944b-e07fc1f90ae7"
    "2024-01-01T09:59:59.000Z" "2024-01-01T10:00:01.000Z" "2024-01-01T10:00:01.010Z"
    true env0 env0 diskFull.

End Samples.

(* ================================================================== *)
(** * Callback traces *)
(* ================================================================== *)

Definition isChunk (called : Callback) : bool :=
  match called with OnChunk _ => true | _ => false end.

(** A trace made of [onChunk] calls followed by exactly one call of
    [onComplete] or [onError], which is its last element. *)
Fixpoint disciplined (trace : list Callback) : bool :=
  match trace with
  | [] => false
  | [called] => negb (isChunk called)
  | called :: rest => isChunk called && disciplined rest
  end.

(** Every [onComplete] of the trace is given the text [full] followed by
    the payloads [onChunk] was given before it. *)
Fixpoint completesWith (full : string) (trace : list Callback) : Prop :=
  match trace with
  | [] => True
  | OnChunk v :: rest => completesWith (str_plus full v) rest
  | OnComplete c _ _ :: rest => c = full /\ completesWith full rest
  | OnError _ :: rest => completesWith full rest
  end.

(** The messages handed to [onError]. *)
Fixpoint errors (trace : list Callback) : list string :=
  match trace with
  | [] => []
  | OnError e :: rest => e :: errors rest
  | _ :: rest => errors rest
  end.

(* ================================================================== *)
(** * services/cohereService.js: [streamResponse] *)
(* ================================================================== *)

Module CohereStream.

Import CohereService.

(** [chunk.response?.meta?.billedUnits?.<field> || 0] *)
Definition billedOf (chunk : Value) (field : string) : Value :=
  or_else
    (get_opt (get_opt (get_opt (own chunk "response") "meta") "billedUnits") field)
    (VInt 0).

(** The body of the [for await] loop; the state is [(fullContent, usage)]. *)
Definition onEvent (st : string * Value) (chunk : Value)
    : outcome ((string * Value) * list Callback) :=
  let '(fullContent, usage) := st in
  eventType ← get chunk "eventType";
  if isString eventType "text-generation" then
    let content := own chunk "text" in
    Ok ((str_plus fullContent content, usage), [OnChunk content])
  else if isString eventType "stream-end" then
    Ok ((fullContent,
         usageObject (billedOf chunk "inputTokens") (billedOf chunk "outputTokens")
                     (plus (billedOf chunk "inputTokens")
                           (billedOf chunk "outputTokens"))),
        [])
  else Ok ((fullContent, usage), []).

(** [streamResponse({messages, model, systemPrompt, temperature, onChunk,
    onComplete, onError})], as the sequence of callbacks it invokes. *)
Definition streamResponse (client : Client) (req : Request) : list Callback :=
  let mdl := orDefault (req_model req) defaultModel in
  match (params ← streamParams req; chatStream client params) with
  | Throw e => [OnError e]
  | Ok events =>
      match forAwait onEvent (EmptyString, VNull) (chunks events) with
      | (trace, Throw e) => (trace ++ [OnError e])%list
      | (trace, Ok (fullContent, usage)) =>
          match failure events with
          | Some e => (trace ++ [OnError e])%list
          | None => (trace ++ [OnComplete fullContent mdl usage])%list
          end
      end
  end.

End CohereStream.

(* ================================================================== *)
(** * services/geminiService.js: [streamResponse] *)
(* ================================================================== *)

Module GeminiStream.

Import GeminiService.

(** The result of [chat.sendMessageStream]: for each chunk of
    [result.stream] what its method [text()] returns or throws, the error
    the iteration ends with, if any, and [await result.response]. *)
Record StreamResult : Type := mkStreamResult {
  stream_texts : list (outcome Value);
  stream_failure : option string;
  final_response : outcome Response
}.

Record Client : Type := mkClient {
  sendMessageStream : Params -> outcome StreamResult
}.

(** [for await (const chunk of result.stream) { ... }] *)
Fixpoint forAwaitText (fullContent : string) (texts : list (outcome Value))
    : list Callback * outcome string :=
  match texts with
  | [] => ([], Ok fullContent)
  | Throw e :: _ => ([], Throw e)
  | Ok chunkText :: rest =>
      let '(trace, r) := forAwaitText (str_plus fullContent chunkText) rest in
      (OnChunk chunkText :: trace, r)
  end.

(** [streamResponse({messages, model, systemPrompt, temperature, onChunk,
    onComplete, onError})], as the sequence of callbacks it invokes. *)
Definition streamResponse (client : Client) (req : Request) : list Callback :=
  let mdl := orDefault (req_model req) defaultModel in
  match (params ← streamParams req; sendMessageStream client params) with
  | Throw e => [OnError e]
  | Ok result =>
      match forAwaitText EmptyString (stream_texts result) with
      | (trace, Throw e) => (trace ++ [OnError e])%list
      | (trace, Ok fullContent) =>
          match stream_failure result with
          | Some e => (trace ++ [OnError e])%list
          | None =>
              match final_response result with
              | Throw e => (trace ++ [OnError e])%list
              | Ok finalResult =>
                  (trace ++ [OnComplete fullContent mdl
                               (usageObject (counted finalResult "promptTokenCount")
                                            (counted finalResult "candidatesTokenCount")
                                            (counted finalResult "totalTokenCount"))])%list
              end
          end
      end
  end.

End GeminiStream.

(* ================================================================== *)
(** * utils/conversationManager.js: [searchConversations] *)
(* ================================================================== *)

Module ConversationSearch.

Import ConversationManager.

(** [hay.includes(needle)] *)
Fixpoint includes (needle hay : string) : bool :=
  String.prefix needle hay
  || match hay with
     | EmptyString => false
     | String _ hay' => includes needle hay'
     end.

(** [s.endsWith(suffix)] *)
Definition endsWith (suffix s : string) : bool :=
  String.prefix (String.rev suffix) (String.rev s).

(** [s.replace(pattern, '')] for a pattern that is a string: its first
    occurrence is removed. *)
Fixpoint removeFirst (pattern s : string) : string :=
  if String.prefix pattern s then slice_from (String.length pattern) s
  else match s with
       | EmptyString => EmptyString
       | String c s' => String c (removeFirst pattern s')
       end.

(** [{conversationId, matches, preview}] *)
Record SearchResult : Type := mkSearchResult {
  conversationId : string;
  matches : nat;
  preview : string
}.

(** [conversation.filter(msg =>
       msg.content.toLowerCase().includes(query.toLowerCase()))] *)
Definition matching (query : string) (conversation : list Entry) : list Entry :=
  List.filter
    (fun msg => includes (Server.toLowerCase query)
                         (Server.toLowerCase (msg_content (entry_message msg))))
    conversation.

(** The body of the loop up to the [push]: the result for one file, if its
    conversation has a matching message.  [env] is what the read of this
    file observes. *)
Definition examine (env : Env) (st : Store) (query file : string)
    : outcome (option SearchResult) :=
  let id := removeFirst ".json" file in
  conversation ← getConversation env st id;
  match matching query conversation with
  | [] => Ok None
  | (first :: _) as matchingMessages =>
      Ok (Some (mkSearchResult id (length matchingMessages)
                  (substring_to 200 (msg_content (entry_message first)) ++ "...")))
  end.

(** [for (const file of conversationFiles) { ...;
       if (results.length >= limit) break; }] *)
Fixpoint searchLoop (reading : string -> Env) (st : Store) (query : string)
    (limit : Z) (files : list string) (results : list SearchResult)
    : outcome (list SearchResult) :=
  match files with
  | [] => Ok results
  | file :: rest =>
      hit ← examine (reading file) st query file;
      let results' :=
        match hit with
        | Some r => (results ++ [r])%list
        | None => results
        end in
      if (limit <=? Z.of_nat (length results'))%Z then Ok results'
      else searchLoop reading st query limit rest results'
  end.

(** [results.sort((a, b) => b.matches - a.matches)]: the sort of the
    language is stable, so that results with equal counts keep their
    order. *)
Fixpoint insertByMatches (r : SearchResult) (sorted : list SearchResult)
    : list SearchResult :=
  match sorted with
  | [] => [r]
  | x :: rest =>
      if (matches x <=? matches r)%nat then r :: x :: rest
      else x :: insertByMatches r rest
  end.

Definition sortByMatches (results : list SearchResult) : list SearchResult :=
  fold_right insertByMatches [] results.

(** [files.filter(file => file.endsWith('.json') && file !== 'metadata.json')] *)
Definition conversationFiles (files : list string) : list string :=
  List.filter
    (fun file => endsWith ".json" file && negb (String.eqb file "metadata.json"))
    files.

(** [searchConversations(query, limit = 10)].  [readdir] is the listing of
    the directory, or the error of [fs.readdir]; [reading file] is what the
    read of [file] observes. *)
Definition searchConversations (reading : string -> Env) (st : Store)
    (readdir : outcome (list string)) (query : string) (limit : option Z)
    : outcome (list SearchResult) :=
  files ← readdir;
  results ← searchLoop reading st query (orDefault limit 10%Z)
                       (conversationFiles files) [];
  Ok (sortByMatches results).

(** The results of all the files of a listing, in its order. *)
Definition hits (reading : string -> Env) (st : Store) (query : string)
    (files : list string) : list SearchResult :=
  omap (fun file =>
          match examine (reading file) st query file with
          | Ok (Some r) => Some r
          | _ => None
          end)
       files.

(** In non-increasing order of [matches]. *)
Fixpoint ranked (results : list SearchResult) : Prop :=
  match results with
  | [] => True
  | r :: rest =>
      Forall (fun later => (matches later <= matches r)%nat) rest /\ ranked rest
  end.

End ConversationSearch.

(* ================================================================== *)
(** * middleware/validation.js: [validateChatRequest] *)
(* ================================================================== *)

Module Validation.

(** The fields of [req.body] the middleware reads, as parsed from the
    request: a field left out is [VUndefined]. *)
Record RawBody : Type := mkRawBody {
  message : Value;
  provider : Value;
  temperature : Value;
  maxTokens : Value;
  conversationId : Value;
  systemPrompt : Value
}.

(** What the middleware does with a request: it hands it on with
    [next()], answers with status 400, or throws. *)
Inductive Verdict : Type :=
| Next (body : RawBody)
| Status400 (error : string)
| Raised (message : string).

Definition andThen (v : Verdict) (k : RawBody -> Verdict) : Verdict :=
  match v with
  | Next body => k body
  | other => other
  end.

(** [a < b] on two decimals. *)
Definition num_ltb (m1 e1 m2 e2 : Z) : bool :=
  let e := Z.min e1 e2 in
  (m1 * 10 ^ (e1 - e) <? m2 * 10 ^ (e2 - e))%Z.

Definition providerNames : list string :=
  ["anthropic"; "openai"; "gemini"; "mistral"; "cohere"].

(** [names.includes(s)] *)
Definition listed (names : list string) (s : string) : bool :=
  existsb (String.eqb s) names.

Section ValidateChatRequest.

(** [parseFloat] and [parseInt] of the language, by the finite number they
    return; [None] stands for [NaN] and for an infinity, which the tests
    below refuse alike. *)
Variable parseFloat : Value -> option (Z * Z).
Variable parseInt : Value -> option Z.

Definition checkMessage (body : RawBody) : Verdict :=
  match message body with
  | VStr message =>
      if String.eqb message EmptyString
      then Status400 "Message is required and must be a string"
      else if (String.length (trim message) =? 0)%nat
      then Status400 "Message cannot be empty"
      else if (10000 <? Z.of_nat (String.length message))%Z
      then Status400 "Message is too long (max 10,000 characters)"
      else Next body
  | _ => Status400 "Message is required and must be a string"
  end.

Definition checkProvider (body : RawBody) : Verdict :=
  if truthy (provider body) then
    match provider body with
    | VStr provider =>
        if listed providerNames (Server.toLowerCase provider) then Next body
        else Status400 "Invalid AI provider specified"
    | _ => Raised "provider.toLowerCase is not a function"
    end
  else Next body.

Definition checkTemperature (body : RawBody) : Verdict :=
  match temperature body with
  | VUndefined => Next body
  | given =>
      match parseFloat given with
      | Some (m, e) =>
          if num_ltb m e 0 0 || num_ltb 2 0 m e
          then Status400 "Temperature must be a number between 0 and 2"
          else Next (mkRawBody (message body) (provider body) (mkNum m e)
                               (maxTokens body) (conversationId body)
                               (systemPrompt body))
      | None => Status400 "Temperature must be a number between 0 and 2"
      end
  end.

Definition checkMaxTokens (body : RawBody) : Verdict :=
  match maxTokens body with
  | VUndefined => Next body
  | given =>
      match parseInt given with
      | Some tokens =>
          if (tokens <? 1)%Z || (4000 <? tokens)%Z
          then Status400 "MaxTokens must be a number between 1 and 4000"
          else Next (mkRawBody (message body) (provider body) (temperature body)
                               (VInt tokens) (conversationId body)
                               (systemPrompt body))
      | None => Status400 "MaxTokens must be a number between 1 and 4000"
      end
  end.

Definition checkConversationId (body : RawBody) : Verdict :=
  match conversationId body with
  | VStr _ => Next body
  | given =>
      if truthy given then Status400 "ConversationId must be a string"
      else Next body
  end.

(** [req.body.message = message.trim()], and the same for a
    [systemPrompt] that is not falsy. *)
Definition sanitize (body : RawBody) : Verdict :=
  let trimmed :=
    match message body with
    | VStr message => VStr (trim message)
    | other => other
    end in
  if truthy (systemPrompt body) then
    match systemPrompt body with
    | VStr systemPrompt =>
        Next (mkRawBody trimmed (provider body) (temperature body)
                        (maxTokens body) (conversationId body)
                        (VStr (trim systemPrompt)))
    | _ => Raised "req.body.systemPrompt.trim is not a function"
    end
  else
    Next (mkRawBody trimmed (provider body) (temperature body)
                    (maxTokens body) (conversationId body) (systemPrompt body)).

(** [validateChatRequest(req, res, next)] *)
Definition validateChatRequest (body : RawBody) : Verdict :=
  andThen (checkMessage body) (fun body =>
  andThen (checkProvider body) (fun body =>
  andThen (checkTemperature body) (fun body =>
  andThen (checkMaxTokens body) (fun body =>
  andThen (checkConversationId body) sanitize)))).

End ValidateChatRequest.

End Validation.

(* ================================================================== *)
(** * server.js: the other routes *)
(* ================================================================== *)

Module Routes.

Import ConversationManager Server.

(** ** [POST /api/chat/stream] *)

(** One server-sent event, by the object it carries:
    [{content}], [{done: true, conversationId, usage}] or [{error}]. *)
Inductive Frame : Type :=
| ContentFrame (content : Value)
| DoneFrame (conversationId : string) (usage : Value)
| ErrorFrame (error : string).

(** The response: the events written and whether [res.end()] was called. *)
Record Sse : Type := mkSse {
  frames : list Frame;
  ended : bool
}.

(** The payloads of the [{content}] events, in the order they were
    written. *)
Fixpoint payloads (written : list Frame) : list Value :=
  match written with
  | [] => []
  | ContentFrame content :: rest => content :: payloads rest
  | _ :: rest => payloads rest
  end.

(** The two services the route streams from, by their vendor clients. *)
Record StreamClients : Type := mkStreamClients {
  anthropicClient : AnthropicService.Client;
  openaiClient : OpenAIService.Client
}.

(** [res.write(...)]; nothing is delivered once the response has ended. *)
Definition write (res : Sse) (frame : Frame) : Sse :=
  if ended res then res else mkSse (frames res ++ [frame])%list false.

(** [res.end()] *)
Definition finish (res : Sse) : Sse := mkSse (frames res) true.

(** The argument of [aiService.streamResponse], callbacks apart. *)
Definition streamRequest (env : HandlerEnv) (body : Body) (history : list Entry)
    : Request :=
  mkRequest (List.map entry_message history ++ [userTurn env body])%list
            (Some (orDefault (model body) "claude-3-sonnet"))
            (systemPrompt body)
            (Some (orDefault (temperature body) defaultTemperature))
            None.

(** The [assistantMessage] of [onComplete]: it has no [usage]. *)
Definition streamedTurn (env : HandlerEnv) (fullContent mdl : string) : Message :=
  mkMessage "assistant" fullContent (now_assistant env) (Some (VStr mdl)) None.

(** The effect of one callback.  [onComplete] is an [async] function
    nobody awaits: a [saveMessage] that throws ends it, after which nothing
    is written and the response is not ended. *)
Definition onCallback (env : HandlerEnv) (body : Body) (state : Store * Sse)
    (called : Callback) : Store * Sse :=
  let '(st, res) := state in
  match called with
  | OnChunk chunk => (st, write res (ContentFrame chunk))
  | OnComplete fullContent mdl usage =>
      let convId := resolveId env body in
      match saveMessage (env_user env) st convId (userTurn env body) with
      | (st1, Throw _) => (st1, res)
      | (st1, Ok _) =>
          match saveMessage (env_assistant env) st1 convId
                            (streamedTurn env fullContent mdl) with
          | (st2, Throw _) => (st2, res)
          | (st2, Ok _) => (st2, finish (write res (DoneFrame convId usage)))
          end
      end
  | OnError e => (st, finish (write res (ErrorFrame e)))
  end.

(** The [switch] of the route: the [streamResponse] of the service it
    selects, or nothing when it takes the [default] case. *)
Definition streamingService (clients : StreamClients) (name : string)
    : option (Request -> list Callback) :=
  match selectService name with
  | Some Anthropic => Some (AnthropicService.streamResponse (anthropicClient clients))
  | Some OpenAI => Some (OpenAIService.streamResponse (openaiClient clients))
  | _ => None
  end.

(** [app.post('/api/chat/stream', validateChatRequest, async (req, res) => ...)] *)
Definition chatStream (clients : StreamClients) (env : HandlerEnv) (st : Store)
    (body : Body) : Store * Sse :=
  match getConversation (env_history env) st (resolveId env body) with
  | Throw _ => (st, mkSse [ErrorFrame "Failed to stream response"] true)
  | Ok history =>
      match streamingService clients (orDefault (provider body) "anthropic") with
      | Some streamResponse =>
          fold_left (onCallback env body)
                    (streamResponse (streamRequest env body history))
                    (st, mkSse [] false)
      | None =>
          (st, mkSse [ErrorFrame "Streaming not supported for this provider"] true)
      end
  end.

(** ** [GET] and [DELETE /api/conversations/:id] *)

Inductive Answer (A : Type) : Type :=
| Status200 (payload : A)
| Status500 (error : string).
Arguments Status200 {A} payload.
Arguments Status500 {A} error.

Definition getConversationRoute (env : Env) (st : Store) (id : string)
    : Answer (list Entry) :=
  match getConversation env st id with
  | Ok conversation => Status200 conversation
  | Throw _ => Status500 "Failed to fetch conversation"
  end.

Definition deleteConversationRoute (env : Env) (st : Store) (id : string)
    : Store * Answer bool :=
  match deleteConversation env st id with
  | (st', Ok _) => (st', Status200 true)
  | (st', Throw _) => (st', Status500 "Failed to delete conversation")
  end.

(** ** [POST /api/compare] *)

(** [getDefaultModel(provider)], for a provider whose name no object
    inherits a property of. *)
Definition getDefaultModel (provider : string) : string :=
  if String.eqb provider "anthropic" then "claude-3-sonnet"
  else if String.eqb provider "openai" then "gpt-4"
  else if String.eqb provider "gemini" then "gemini-pro"
  else if String.eqb provider "mistral" then "mistral-large"
  else if String.eqb provider "cohere" then "command"
  else "claude-3-sonnet".

(** The names every object literal answers to without owning them. *)
Definition inheritedNames : list string :=
  ["constructor"; "hasOwnProperty"; "isPrototypeOf"; "propertyIsEnumerable";
   "toLocaleString"; "toString"; "valueOf"; "__proto__";
   "__defineGetter__"; "__defineSetter__"; "__lookupGetter__";
   "__lookupSetter__"].

(** What [services[provider]] finds. *)
Inductive Lookup : Type :=
| Service (service : Provider)
| Inherited
| Missing.

(** [getAIService(provider)]: the name is looked up as it is given. *)
Definition getAIService (provider : string) : Lookup :=
  if String.eqb provider "anthropic" then Service Anthropic
  else if String.eqb provider "openai" then Service OpenAI
  else if String.eqb provider "gemini" then Service Gemini
  else if String.eqb provider "mistral" then Service Mistral
  else if String.eqb provider "cohere" then Service Cohere
  else if Validation.listed inheritedNames provider then Inherited
  else Missing.

(** The value of one provider's promise: [{provider, model, content, usage}]. *)
Record Compared : Type := mkCompared {
  compared_provider : string;
  compared_model : Value;
  compared_content : string;
  compared_usage : Value
}.

(** One element of [results]. *)
Record Settled : Type := mkSettled {
  settled_provider : string;
  status : string;
  response : option Compared;
  error : option string
}.

(** The turn [{role: 'user', content: message}]; it carries no timestamp,
    a field no adapter reads. *)
Definition comparedTurn (message : string) : Message :=
  mkMessage "user" message EmptyString None None.

(** [models?.[provider] || getDefaultModel(provider)] for the name of a
    service. *)
Definition modelFor (models : option (gmap string string)) (provider : string)
    : string :=
  match models with
  | Some table =>
      match table !! provider with
      | Some chosen =>
          if String.eqb chosen EmptyString then getDefaultModel provider else chosen
      | None => getDefaultModel provider
      end
  | None => getDefaultModel provider
  end.

(** The [async (provider) => ...] mapped over [providers]. *)
Definition compareOne (services : Services) (message : string)
    (models : option (gmap string string)) (provider : string) : outcome Compared :=
  match getAIService provider with
  | Service aiService =>
      response ← services aiService
                   (mkRequest [comparedTurn message]
                              (Some (modelFor models provider)) None
                              (Some defaultTemperature) (Some 1000%Z));
      Ok (mkCompared provider (result_model response) (content response)
                     (usage response))
  | Inherited => Throw "aiService.generateResponse is not a function"
  | Missing =>
      Throw "Cannot read properties of undefined (reading 'generateResponse')"
  end.

(** [Promise.allSettled], then the [map] over its results. *)
Definition settle (provider : string) (result : outcome Compared) : Settled :=
  match result with
  | Ok value => mkSettled provider "fulfilled" (Some value) None
  | Throw reason => mkSettled provider "rejected" None (Some reason)
  end.

(** [app.post('/api/compare', validateChatRequest, async (req, res) => ...)],
    by the [results] of its reply. *)
Definition compare (services : Services) (message : string)
    (providers : option (list string)) (models : option (gmap string string))
    : list Settled :=
  List.map (fun provider => settle provider (compareOne services message models provider))
           (orDefault providers ["anthropic"; "openai"]).

End Routes.

(* ================================================================== *)
(** * server.js: [GET /api/config] and [GET /api/models] *)
(* ================================================================== *)

Module Configuration.

Record SupportedFeatures : Type := mkSupportedFeatures {
  streaming : list string;
  vision : list string;
  functionCalling : list string
}.

Record Config : Type := mkConfig {
  availableProviders : list string;
  defaultProvider : string;
  maxTokens : Z;
  maxConversationLength : Z;
  supportedFeatures : SupportedFeatures
}.

(** The object sent by [GET /api/config]. *)
Definition config : Config :=
  mkConfig ["anthropic"; "openai"; "gemini"; "mistral"; "cohere"]
           "anthropic" 4000 50
           (mkSupportedFeatures ["anthropic"; "openai"] ["openai"; "gemini"]
                                ["openai"; "anthropic"]).

(** The object sent by [GET /api/models], property by property. *)
Definition models : list (string * list string) :=
  [("anthropic", ["claude-3-opus"; "claude-3-sonnet"; "claude-3-haiku"]);
   ("openai", ["gpt-4"; "gpt-4-turbo"; "gpt-3.5-turbo"]);
   ("gemini", ["gemini-pro"; "gemini-pro-vision"]);
   ("mistral", ["mistral-large"; "mistral-medium"; "mistral-small"]);
   ("cohere", ["command"; "command-light"; "command-nightly"])].

End Configuration.

(* ================================================================== *)
(** * Further sample data *)
(* ================================================================== *)

Module Scenarios.

Import ConversationManager.

(** An environment in which every read fails and every write succeeds. *)
Definition unreadable : Env :=
  mkEnv (VInt 7) "2024-01-02T08:00:00.000Z" "2024-01-02T08:00:00.001Z"
        "2024-01-02T08:00:00.002Z" "1704182400000" true false false true false
        objectPrototype.

(** An environment in which the index cannot be read. *)
Definition indexUnreadable : Env :=
  mkEnv (VInt 9) "2024-01-02T10:00:00.000Z" "2024-01-02T10:00:00.001Z"
        "2024-01-02T10:00:00.002Z" "1704189600000" false false false true false
        objectPrototype.


(** A store with two conversations: two turns in [c1], one in [c2]. *)
Definition twoConversations : Store :=
  fst (saveMessage Samples.env0
         (fst (saveAll emptyStore "c1"
                 [(Samples.env0, Samples.hello); (Samples.env0, Samples.hi)]))
         "c2" Samples.hello).

(** Three conversations for a search: one message that says hello in
    [a], one in [b], three in [c]; and a listing of their directory. *)
Definition greetings : Store :=
  fst (saveAll
         (fst (saveAll
                 (fst (saveAll emptyStore "a"
                         [(Samples.env0, userMessage "Hello there" "t1");
                          (Samples.env0, userMessage "Good bye" "t2")]))
                 "b" [(Samples.env0, userMessage "I said HELLO" "t3")]))
         "c" [(Samples.env0, userMessage "hello" "t4");
              (Samples.env0, userMessage "hello again" "t5");
              (Samples.env0, userMessage "and hello once more" "t6")]).

Definition listing : list string :=
  ["a.json"; "metadata.json"; "notes.txt"; "b.json"; "c.json"].

(** A [MistralService] client whose feed ends its lines with CR LF. *)
Definition mistralCrLf : MistralService.Client :=
  MistralService.mkClient
    (fun _ => Throw "not called")
    (fun _ => Ok (MistralService.mkFeed
                    [Samples.wholeLine;
                     "data: [DONE]" ++ String (ascii_of_nat 13) Samples.newline]
                    None)).

(** What [parseFloat] and [parseInt] return for a number of ordinary size:
    the number itself, and the integer it is.  Other values are left
    unread by these two samples. *)
Definition readFloat (v : Value) : option (Z * Z) :=
  match v with
  | VNum m e => Some (m, e)
  | _ => None
  end.

Definition readInt (v : Value) : option Z :=
  match v with
  | VNum m 0 => Some m
  | _ => None
  end.

(** A request body as parsed, and what [validateChatRequest] hands on. *)
Definition rawBody : Validation.RawBody :=
  Validation.mkRawBody (VStr "  Hello there, friend ") (VStr "OpenAI")
                       (VNum 5 (-1)) (VInt 256) VUndefined (VStr " Be brief. ").

Definition validatedBody : Validation.RawBody :=
  Validation.mkRawBody (VStr "Hello there, friend") (VStr "OpenAI")
                       (VNum 5 (-1)) (VInt 256) VUndefined (VStr "Be brief.").

End Scenarios.

(* ================================================================== *)
(** * Properties *)
(* ================================================================== *)

#[local] Arguments String.append !_ _ / : simpl nomatch.

(** Case analysis on the outcomes and tests met by a hypothesis that says
    a computation returned. *)
Ltac run_outcome :=
  repeat match goal with
    | H : context [mbind _ _] |- _ =>
        unfold mbind, outcome_bind, bind in H
    | H : context [match ?x with Ok _ => _ | Throw _ => _ end] |- _ =>
        destruct x eqn:?; try discriminate
    | H : context [if ?b then _ else _] |- _ =>
        destruct b eqn:?; try discriminate
    end.

(** ** Strings *)

Lemma string_app_empty_r (s : string) : s ++ EmptyString = s.
Proof. induction s as [|c s IH]; [reflexivity | simpl; f_equal; exact IH]. Qed.

Lemma string_app_assoc (a b c : string) : (a ++ b) ++ c = a ++ (b ++ c).
Proof. induction a as [|x a IH]; [reflexivity | simpl; f_equal; exact IH]. Qed.


Lemma substring_to_short n : forall s, (String.length s <= n)%nat -> substring_to n s = s.
Proof.
  unfold substring_to.
  induction n as [|n IH]; intros [|c s] H; simpl in *; try reflexivity; try lia.
  f_equal. apply IH. lia.
Qed.

Lemma substring_to_length n : forall s,
  (n <= String.length s)%nat -> String.length (substring_to n s) = n.
Proof.
  unfold substring_to.
  induction n as [|n IH]; intros [|c s] H; simpl in *; try reflexivity; try lia.
  f_equal. apply IH. lia.
Qed.

(** ** The last [n] elements of an array *)

Section SliceLast.
Context {A : Type}.
Implicit Types xs ys : list A.

Lemma slice_last_length n xs : length (slice_last n xs) = Nat.min (length xs) n.
Proof. unfold slice_last. rewrite length_drop. lia. Qed.

Lemma slice_last_short n xs : (length xs <= n)%nat -> slice_last n xs = xs.
Proof.
  intros H. unfold slice_last.
  replace (length xs - n)%nat with 0%nat by lia. reflexivity.
Qed.

(** Cutting to the last [n] before appending does not change the last [n]
    of the whole. *)
Lemma slice_last_app n xs ys :
  slice_last n (slice_last n xs ++ ys)%list = slice_last n (xs ++ ys)%list.
Proof.
  destruct (Nat.le_gt_cases (length xs) n) as [Hle | Hgt].
  - by rewrite (slice_last_short n xs).
  - unfold slice_last at 1 3. rewrite !length_app, slice_last_length.
    replace (Nat.min (length xs) n) with n by lia.
    unfold slice_last.
    destruct (Nat.le_gt_cases (length ys) n) as [Hy | Hy].
    + rewrite drop_app_le by (rewrite length_drop; lia).
      rewrite drop_drop.
      rewrite (drop_app_le xs ys) by lia.
      do 2 f_equal. lia.
    + rewrite drop_app_ge by (rewrite length_drop; lia).
      rewrite (drop_app_ge xs ys) by lia.
      rewrite length_drop. f_equal. lia.
Qed.

Lemma slice_last_fmap {B : Type} (f : A -> B) n xs :
  f <$> slice_last n xs = slice_last n (f <$> xs).
Proof. unfold slice_last. by rewrite fmap_drop, length_fmap. Qed.

End SliceLast.

(** ** The conversation store *)

Section StoreProperties.
Import ConversationManager.

Lemma io_ok_flags env :
  io_ok env = true ->
  read_log_fails env = false /\ write_log_fails env = false /\
  unlink_fails env = false /\ read_index_fails env = false /\
  write_index_fails env = false.
Proof.
  unfold io_ok. destruct env as [? ? ? ? ? [] [] [] [] []]; simpl; intuition congruence.
Qed.

Lemma cap_is_slice_last (pushed : list Entry) :
  (if (50 <? length pushed)%nat then slice_last 50 pushed else pushed)
  = slice_last 50 pushed.
Proof.
  destruct (Nat.ltb_spec 50 (length pushed)); [reflexivity|].
  symmetry. apply slice_last_short. lia.
Qed.

Lemma preview_short c : (String.length c <= 100)%nat -> preview c = c.
Proof.
  intros H. unfold preview.
  destruct (Nat.ltb_spec 100 (String.length c)); [lia|].
  rewrite string_app_empty_r. by apply substring_to_short.
Qed.

Lemma preview_long c :
  (100 < String.length c)%nat -> preview c = substring_to 100 c ++ "...".
Proof.
  intros H. unfold preview.
  destruct (Nat.ltb_spec 100 (String.length c)); [reflexivity | lia].
Qed.

(** An update of the index leaves the logs alone. *)
Lemma updateConversationMetadata_logs env st id m :
  logs (updateConversationMetadata env st id m) = logs st.
Proof.
  unfold updateConversationMetadata.
  destruct (readIndexOrEmpty env st !! id); [|destruct (inherits env id)];
    try reflexivity; by destruct (write_index_fails env).
Qed.

(** The index after an update that finds the id's own record, or nothing. *)
Lemma updateConversationMetadata_calm env st id m :
  read_index_fails env = false -> write_index_fails env = false ->
  metadataOf st id <> None \/ inherits env id = NotInherited ->
  index (updateConversationMetadata env st id m)
  = Some (<[id := touch env (recordBefore env st id m) m]> (indexOf st)).
Proof.
  intros Hri Hwi Hown.
  unfold updateConversationMetadata, readIndexOrEmpty. rewrite Hri, Hwi.
  unfold recordBefore, metadataOf, indexOf in *.
  destruct (index st) as [M|].
  - destruct (M !! id) as [r|]; [reflexivity|].
    destruct Hown as [Hown | ->]; [done | reflexivity].
  - rewrite lookup_empty.
    destruct Hown as [Hown | ->]; [done | reflexivity].
Qed.

(** An update that finds an inherited object creates no record: the index
    is written as it was read. *)
Lemma updateConversationMetadata_inherited env st id m :
  write_index_fails env = false ->
  readIndexOrEmpty env st !! id = None ->
  inherits env id = InheritedObject ->
  index (updateConversationMetadata env st id m) = Some (readIndexOrEmpty env st).
Proof.
  intros Hwi Hnone Hinh. unfold updateConversationMetadata.
  by rewrite Hnone, Hinh, Hwi.
Qed.

(** What one [saveMessage] does to the logs when no I/O fails. *)
Lemma saveMessage_succeeds env st id m :
  io_ok env = true ->
  saveMessage env st id m = (fst (saveMessage env st id m), Ok tt).
Proof.
  intros Hio. destruct (io_ok_flags env Hio) as (_ & Hwl & _).
  unfold saveMessage. by rewrite Hwl.
Qed.

Lemma saveMessage_logs env st id m :
  io_ok env = true ->
  logs (fst (saveMessage env st id m))
  = <[id := slice_last 50 (logOf st id ++ [newEntry env m])%list]> (logs st).
Proof.
  intros Hio. destruct (io_ok_flags env Hio) as (Hrl & Hwl & _).
  unfold saveMessage. rewrite Hrl, Hwl. simpl.
  rewrite updateConversationMetadata_logs. simpl.
  by rewrite cap_is_slice_last.
Qed.

(** What it does to the whole store, for an id that finds its own record
    or nothing in the index. *)
Lemma saveMessage_calm env st id m :
  io_ok env = true ->
  metadataOf st id <> None \/ inherits env id = NotInherited ->
  saveMessage env st id m =
    (mkStore (<[id := slice_last 50 (logOf st id ++ [newEntry env m])%list]> (logs st))
             (Some (<[id := touch env (recordBefore env st id m) m]> (indexOf st))),
     Ok tt).
Proof.
  intros Hio Hown. destruct (io_ok_flags env Hio) as (Hrl & Hwl & _ & Hri & Hwi).
  rewrite saveMessage_succeeds by done. f_equal.
  pose proof (saveMessage_logs env st id m Hio) as Hlogs.
  assert (Hindex : index (fst (saveMessage env st id m))
                   = Some (<[id := touch env (recordBefore env st id m) m]> (indexOf st))).
  { unfold saveMessage. rewrite Hwl. simpl.
    by rewrite updateConversationMetadata_calm. }
  destruct (fst (saveMessage env st id m)) as [l i]. simpl in *. by subst.
Qed.

(** It throws only when the log cannot be written, and then changes nothing. *)
Lemma saveMessage_throws env st id m st' e :
  saveMessage env st id m = (st', Throw e) ->
  st' = st /\ write_log_fails env = true.
Proof.
  unfold saveMessage. destruct (write_log_fails env); intros H.
  - by injection H as <- _.
  - discriminate.
Qed.

Lemma metadataOf_saved env st id m :
  io_ok env = true ->
  metadataOf st id <> None \/ inherits env id = NotInherited ->
  metadataOf (fst (saveMessage env st id m)) id
  = Some (touch env (recordBefore env st id m) m).
Proof.
  intros Hio Hown. rewrite saveMessage_calm by done.
  unfold metadataOf; simpl. apply lookup_insert_eq.
Qed.

Lemma logOf_saved env st id m :
  io_ok env = true ->
  logOf (fst (saveMessage env st id m)) id
  = slice_last 50 (logOf st id ++ [newEntry env m])%list.
Proof.
  intros Hio. unfold logOf at 1. rewrite saveMessage_logs by done.
  by rewrite lookup_insert_eq.
Qed.

Lemma saveAll_cons env m st id rest :
  io_ok env = true ->
  saveAll st id ((env, m) :: rest) = saveAll (fst (saveMessage env st id m)) id rest.
Proof. intros Hio. simpl. by rewrite saveMessage_succeeds. Qed.

Lemma saveAll_returns calls : forall st id,
  calm_run calls -> snd (saveAll st id calls) = Ok tt.
Proof.
  induction calls as [|[env m] rest IH]; intros st id Hc; [reflexivity|].
  inversion Hc as [|? ? Hio Hrest]; subst.
  rewrite saveAll_cons by done. by apply IH.
Qed.

(** The record of an id that has one follows the updates of a run. *)
Lemma saveAll_record calls : forall st id r,
  calm_run calls -> metadataOf st id = Some r ->
  metadataOf (fst (saveAll st id calls)) id = Some (touchAll r calls).
Proof.
  induction calls as [|[env m] rest IH]; intros st id r Hc Hr; [done|].
  inversion Hc as [|? ? Hio Hrest]; subst. simpl in Hio.
  rewrite saveAll_cons by done.
  apply IH; [done|].
  rewrite metadataOf_saved; [|done|left; by rewrite Hr].
  unfold recordBefore. by rewrite Hr.
Qed.

Lemma saveAll_record_first env1 m1 rest st id :
  calm_run ((env1, m1) :: rest) ->
  metadataOf st id <> None \/ inherits env1 id = NotInherited ->
  metadataOf (fst (saveAll st id ((env1, m1) :: rest))) id
  = Some (touchAll (touch env1 (recordBefore env1 st id m1) m1) rest).
Proof.
  intros Hc Hown. inversion Hc as [|? ? Hio Hrest]; subst. simpl in Hio.
  rewrite saveAll_cons by done.
  apply saveAll_record; [done|]. by apply metadataOf_saved.
Qed.

(** The log after a run is the last fifty of the old log followed by the
    new entries, provided the old log was within the cap. *)
Lemma saveAll_log calls : forall st id,
  calm_run calls -> (length (logOf st id) <= 50)%nat ->
  logOf (fst (saveAll st id calls)) id
  = slice_last 50 (logOf st id ++ (uncurry newEntry <$> calls))%list.
Proof.
  induction calls as [|[env m] rest IH]; intros st id Hc Hlen.
  - simpl. rewrite app_nil_r. symmetry. by apply slice_last_short.
  - inversion Hc as [|? ? Hio Hrest]; subst. simpl in Hio.
    rewrite saveAll_cons by done.
    rewrite IH; [|done|].
    + rewrite logOf_saved by done. rewrite slice_last_app.
      by rewrite <- app_assoc.
    + rewrite logOf_saved by done. rewrite slice_last_length. lia.
Qed.

Lemma touchAll_snoc r calls env m :
  touchAll r (calls ++ [(env, m)]) = touch env (touchAll r calls) m.
Proof. unfold touchAll. by rewrite fold_left_app. Qed.

Lemma touchAll_count calls : forall r,
  messageCount (touchAll r calls) = (messageCount r + Z.of_nat (length calls))%Z.
Proof.
  induction calls as [|[env m] rest IH]; intros r; simpl.
  - lia.
  - unfold touchAll in *. simpl. rewrite IH. simpl. lia.
Qed.

Lemma touchAll_title calls : forall r,
  title (touchAll r calls) = title r /\ createdAt (touchAll r calls) = createdAt r.
Proof.
  induction calls as [|[env m] rest IH]; intros r; [done|].
  unfold touchAll in *. simpl. destruct (IH (touch env r m)) as [-> ->]. done.
Qed.

(** The scenario of the specification: two appends to ["c1"]. *)
Example scenario_two_appends :
  entry_message
    <$> logOf (fst (saveAll emptyStore "c1"
                      [(Samples.env0, Samples.hello); (Samples.env0, Samples.hi)])) "c1"
  = [Samples.hello; Samples.hi]
  /\ (fun r => (messageCount r, title r, lm_content (lastMessage r)))
       <$> metadataOf (fst (saveAll emptyStore "c1"
                              [(Samples.env0, Samples.hello); (Samples.env0, Samples.hi)]))
                      "c1"
     = Some (2%Z, "Hello there friend", "Hi!").
Proof. split; vm_compute; reflexivity. Qed.



(** One append to an id for which the index finds an inherited object in
    place of a record: the message is logged, no record is created, and the
    index is written as it was read. *)
Lemma saveMessage_inherited env st id m :
  io_ok env = true ->
  metadataOf st id = None ->
  inherits env id = InheritedObject ->
  metadataOf (fst (saveMessage env st id m)) id = None
  /\ index (fst (saveMessage env st id m)) = Some (indexOf st).
Proof.
  intros Hio Hnone Hinh.
  destruct (io_ok_flags env Hio) as (Hrl & Hwl & _ & Hri & Hwi).
  assert (Hread : forall l, readIndexOrEmpty env (mkStore l (index st)) = indexOf st).
  { intros l. unfold readIndexOrEmpty, indexOf. by rewrite Hri. }
  assert (Hlookup : indexOf st !! id = None).
  { unfold metadataOf, indexOf in *. destruct (index st); [done | apply lookup_empty]. }
  assert (Hindex : index (fst (saveMessage env st id m)) = Some (indexOf st)).
  { unfold saveMessage. rewrite Hwl. simpl.
    rewrite updateConversationMetadata_inherited; rewrite ?Hread; done. }
  split; [|exact Hindex].
  unfold metadataOf. by rewrite Hindex.
Qed.

(** A run of such appends leaves the id without a record. *)
Lemma saveAll_inherited calls : forall st id,
  metadataOf st id = None -> calm_run calls -> inherited_run id calls ->
  metadataOf (fst (saveAll st id calls)) id = None
  /\ (calls <> [] -> index (fst (saveAll st id calls)) = Some (indexOf st)).
Proof.
  induction calls as [|[env m] rest IH]; intros st id Hnone Hc Hinh; [done|].
  inversion Hc as [|? ? Hio Hrest]; subst. inversion Hinh as [|? ? Hi Hirest]; subst.
  simpl in Hio, Hi. rewrite saveAll_cons by done.
  destruct (saveMessage_inherited env st id m Hio Hnone Hi) as [Hrec Hindex].
  destruct (IH _ id Hrec Hrest Hirest) as [Hnone' Hindex'].
  split; [exact Hnone'|]. intros _.
  destruct rest as [|call rest]; [exact Hindex|].
  rewrite Hindex' by done. unfold indexOf at 1. by rewrite Hindex.
Qed.

(** C4.  Metadata consistency, and where the code departs from it.  The
    update looks the conversation id up on a plain object.  For an id under
    which that object inherits an object or a function ([constructor],
    [toString], [__proto__], ...) and which has no record of its own, a run
    of N appends without I/O failure returns and logs the messages, yet
    creates no metadata record: there is no [messageCount], [lastUpdated]
    or [lastMessage] for the id, and the index is written back as it was
    read. *)
Theorem metadata_misses_inherited_ids :
  forall (st : Store) (id : string) (calls : list (Env * Message)),
    metadataOf st id = None ->
    calm_run calls ->
    inherited_run id calls ->
    snd (saveAll st id calls) = Ok tt
    /\ metadataOf (fst (saveAll st id calls)) id = None
    /\ (calls <> [] -> index (fst (saveAll st id calls)) = Some (indexOf st))
    /\ (logs st !! id = None ->
        entry_message <$> logOf (fst (saveAll st id calls)) id
        = slice_last 50 (snd <$> calls)).
Proof.
  intros st id calls Hnone Hc Hinh.
  split; [by apply saveAll_returns|].
  split; [by apply saveAll_inherited|].
  split; [by apply saveAll_inherited|].
  intros Hfresh.
  assert (Hempty : logOf st id = []) by (unfold logOf; by rewrite Hfresh).
  rewrite saveAll_log; [|done|rewrite Hempty; simpl; lia].
  rewrite Hempty. simpl. rewrite slice_last_fmap. f_equal.
  rewrite <- list_fmap_compose. apply list_fmap_ext.
  by intros ? [env m].
Qed.

(** Two appends to ["constructor"] in an empty directory: both messages
    are in the log, [metadata.json] holds the empty object. *)
Lemma metadata_misses_inherited_ids_witness :
  snd (saveAll emptyStore "constructor"
         [(Samples.env0, Samples.hello); (Samples.env0, Samples.hi)]) = Ok tt
  /\ metadataOf (fst (saveAll emptyStore "constructor"
                        [(Samples.env0, Samples.hello); (Samples.env0, Samples.hi)]))
                "constructor" = None
  /\ index (fst (saveAll emptyStore "constructor"
                   [(Samples.env0, Samples.hello); (Samples.env0, Samples.hi)]))
     = Some ∅
  /\ entry_message
       <$> logOf (fst (saveAll emptyStore "constructor"
                         [(Samples.env0, Samples.hello); (Samples.env0, Samples.hi)]))
                 "constructor"
     = [Samples.hello; Samples.hi].
Proof.
  destruct (metadata_misses_inherited_ids emptyStore "constructor"
              [(Samples.env0, Samples.hello); (Samples.env0, Samples.hi)])
    as (Hret & Hrec & Hindex & Hlog).
  - reflexivity.
  - unfold calm_run. simpl. repeat constructor.
  - unfold inherited_run. simpl. repeat constructor.
  - split; [exact Hret|]. split; [exact Hrec|]. split.
    + apply Hindex. discriminate.
    + apply Hlog. reflexivity.
Defined.

(** The specification does hold of an id that names a file of its own and
    under which the index inherits nothing.  For such an id without a
    metadata record, after N >= 1 sequential appends without I/O failure
    (the N-1 of [calls], then [m]) the record has [messageCount = N],
    whatever was cut from the log; [lastUpdated] is the instant of the N-th append and [lastMessage]
    carries the role and timestamp of the N-th message with its content, or
    the first 100 characters of it followed by ["..."] when it is longer
    than 100. *)
Theorem metadata_tracks_every_append :
  forall (st : Store) (id : string) (calls : list (Env * Message))
         (env : Env) (m : Message),
    namesOwnFile id = true ->
    metadataOf st id = None ->
    calm_run (calls ++ [(env, m)]) ->
    plain_run id (calls ++ [(env, m)]) ->
    exists r : Metadata,
      metadataOf (fst (saveAll st id (calls ++ [(env, m)]))) id = Some r
      /\ messageCount r = Z.of_nat (length calls + 1)
      /\ lastUpdated r = now_updated env
      /\ lm_role (lastMessage r) = msg_role m
      /\ lm_timestamp (lastMessage r) = msg_timestamp m
      /\ ((String.length (msg_content m) <= 100)%nat ->
          lm_content (lastMessage r) = msg_content m)
      /\ ((100 < String.length (msg_content m))%nat ->
          lm_content (lastMessage r) = substring_to 100 (msg_content m) ++ "..."
          /\ String.length (substring_to 100 (msg_content m)) = 100%nat).
Proof.
  intros st id calls env m _ Hfresh Hc Hplain.
  destruct calls as [|[env1 m1] rest].
  - simpl app in *. exists (touch env (freshRecord env m) m).
    inversion Hplain as [|? ? Hp _]; subst. simpl in Hp.
    rewrite saveAll_record_first; [|done|by right].
    unfold recordBefore. rewrite Hfresh. simpl.
    repeat split; try reflexivity.
    + apply preview_short.
    + by apply preview_long.
    + apply substring_to_length. lia.
  - simpl app in *.
    exists (touchAll (touch env1 (freshRecord env1 m1) m1) (rest ++ [(env, m)])).
    inversion Hplain as [|? ? Hp _]; subst. simpl in Hp.
    rewrite saveAll_record_first; [|done|by right].
    unfold recordBefore. rewrite Hfresh.
    split; [reflexivity|].
    rewrite touchAll_snoc. simpl.
    rewrite touchAll_count. simpl.
    repeat split; try reflexivity.
    + lia.
    + apply preview_short.
    + by apply preview_long.
    + apply substring_to_length. lia.
Qed.

(** Three appends, the third of 101 characters; and the two appends of
    the scenario, the second of 3 characters. *)
Lemma metadata_tracks_every_append_witness :
  (exists r : Metadata,
      metadataOf (fst (saveAll emptyStore "c1"
                         ([(Samples.env0, Samples.hello); (Samples.env0, Samples.hi)]
                          ++ [(Samples.envAt 3, Samples.longMessage)]))) "c1" = Some r
      /\ messageCount r = 3%Z
      /\ lastUpdated r = "updated-3"
      /\ lm_content (lastMessage r)
         = String.concat EmptyString (List.repeat "x" 100) ++ "...")
  /\ (exists r : Metadata,
      metadataOf (fst (saveAll emptyStore "c1"
                         ([(Samples.env0, Samples.hello)]
                          ++ [(Samples.envAt 2, Samples.hi)]))) "c1" = Some r
      /\ messageCount r = 2%Z
      /\ lm_role (lastMessage r) = "assistant"
      /\ lm_content (lastMessage r) = "Hi!").
Proof.
  split.
  - destruct (metadata_tracks_every_append emptyStore "c1"
                [(Samples.env0, Samples.hello); (Samples.env0, Samples.hi)]
                (Samples.envAt 3) Samples.longMessage)
      as (r & Hr & Hcount & Hupdated & _ & _ & _ & Hlong).
    + reflexivity.
    + reflexivity.
    + unfold calm_run. simpl. repeat constructor.
    + unfold plain_run. simpl. repeat constructor.
    + exists r. split; [exact Hr|]. split; [exact Hcount|]. split; [exact Hupdated|].
      destruct Hlong as [Hcontent _]; [vm_compute; lia | exact Hcontent].
  - destruct (metadata_tracks_every_append emptyStore "c1"
                [(Samples.env0, Samples.hello)] (Samples.envAt 2) Samples.hi)
      as (r & Hr & Hcount & _ & Hrole & _ & Hshort & _).
    + reflexivity.
    + reflexivity.
    + unfold calm_run. simpl. repeat constructor.
    + unfold plain_run. simpl. repeat constructor.
    + exists r. split; [exact Hr|]. split; [exact Hcount|]. split; [exact Hrole|].
      apply Hshort. vm_compute. lia.
Defined.

(** C5.  Title generation, and where the code departs from it.
    [generateTitle] splits the cleaned content at each single space
    ([split(' ')]) and not at runs of white space.  With two spaces between
    the first two words the split yields an empty piece, which counts among
    the five that are kept: the title of ["a  b c d e f"] is ["a  b c d"],
    where the first five whitespace-delimited tokens joined by a space are
    ["a b c d e"]. *)
Theorem title_is_not_first_five_tokens :
  title <$> metadataOf
              (fst (saveMessage Samples.env0 emptyStore "c1" Samples.unevenlySpaced))
              "c1"
  = Some "a  b c d"
  /\ generateTitle (msg_content Samples.unevenlySpaced) = "a  b c d"
  /\ specTitle (msg_content Samples.unevenlySpaced) = "a b c d e"
  /\ title <$> metadataOf
                 (fst (saveMessage Samples.env0 emptyStore "c1" Samples.unevenlySpaced))
                 "c1"
     <> Some (specTitle (msg_content Samples.unevenlySpaced)).
Proof. repeat split; vm_compute; try reflexivity. discriminate. Qed.

(** On the content of the scenario the two readings agree. *)
Example title_of_the_scenario :
  generateTitle "Hello there, friend" = "Hello there friend"
  /\ specTitle "Hello there, friend" = "Hello there friend"
  /\ generateTitle "?!" = "New Conversation".
Proof. repeat split. Qed.

(** The title is what [generateTitle] makes of the first message, and it
    stays, on a run without I/O failure: for an id that names a file of its
    own, has no metadata record and under which the index inherits nothing,
    the first append sets the title, and no later append of the run changes
    it. *)
Theorem title_fixed_by_first_append :
  forall (st : Store) (id : string) (env1 : Env) (m1 : Message)
         (rest : list (Env * Message)),
    namesOwnFile id = true ->
    metadataOf st id = None ->
    inherits env1 id = NotInherited ->
    calm_run ((env1, m1) :: rest) ->
    exists r1 rN : Metadata,
      metadataOf (fst (saveMessage env1 st id m1)) id = Some r1
      /\ title r1 = generateTitle (msg_content m1)
      /\ metadataOf (fst (saveAll st id ((env1, m1) :: rest))) id = Some rN
      /\ title rN = title r1.
Proof.
  intros st id env1 m1 rest _ Hfresh Hplain Hc.
  inversion Hc as [|? ? Hio Hrest]; subst. simpl in Hio.
  exists (touch env1 (freshRecord env1 m1) m1).
  exists (touchAll (touch env1 (freshRecord env1 m1) m1) rest).
  rewrite metadataOf_saved; [|done|by right].
  rewrite saveAll_record_first; [|done|by right].
  unfold recordBefore. rewrite Hfresh.
  repeat split; try reflexivity.
  apply touchAll_title.
Qed.

(** The title of the scenario survives sixty further appends. *)
Lemma title_fixed_by_first_append_witness :
  exists r1 rN : Metadata,
    metadataOf (fst (saveMessage Samples.env0 emptyStore "c1" Samples.hello)) "c1"
    = Some r1
    /\ title r1 = "Hello there friend"
    /\ metadataOf (fst (saveAll emptyStore "c1"
                          ((Samples.env0, Samples.hello) :: Samples.sixty))) "c1"
       = Some rN
    /\ title rN = title r1.
Proof.
  apply (title_fixed_by_first_append emptyStore "c1" Samples.env0 Samples.hello
           Samples.sixty).
  - reflexivity.
  - reflexivity.
  - reflexivity.
  - unfold calm_run, Samples.sixty. simpl. repeat constructor.
Defined.

(** An append that cannot read the index starts from the empty object: it
    writes a new record for the id, titled after the message at hand, in
    place of the one on disk. *)
Example title_after_a_failed_index_read :
  title <$> metadataOf
              (fst (saveAll emptyStore "c1"
                      [(Samples.env0, Samples.hello); (Scenarios.indexUnreadable, Samples.hi)]))
              "c1"
  = Some "Hi".
Proof. vm_compute. reflexivity. Qed.




(** A known id, for comparison: its log and its record are removed. *)
Example delete_known :
  deleteConversation Samples.env0
    (fst (saveMessage Samples.env0 emptyStore "c1" Samples.hello)) "c1"
  = (mkStore ∅ (Some ∅), Ok tt).
Proof. vm_compute. reflexivity. Qed.

(** C10.  Import, and where the code departs from it.  The record of an
    import is made by the same update as that of an append.  A non-empty
    sequence imported, without I/O failure, under an id that has no record
    of its own and under which the index inherits an object or a function
    ([constructor], [toString], ...) is stored as supplied, and no metadata
    record is created for it: no [messageCount], no title and no
    [lastMessage]; the index is written back as it was read. *)
Theorem import_misses_inherited_ids :
  forall (env : Env) (st : Store) (data : list Entry) (final : Entry) (id : string),
    io_ok env = true ->
    id <> EmptyString ->
    metadataOf st id = None ->
    inherits env id = InheritedObject ->
    last data = Some final ->
    snd (importConversation env st data (Some id)) = Ok id
    /\ logs (fst (importConversation env st data (Some id))) !! id = Some data
    /\ metadataOf (fst (importConversation env st data (Some id))) id = None
    /\ index (fst (importConversation env st data (Some id))) = Some (indexOf st).
Proof.
  intros env st data final id Hio Hid Hfresh Hinh Hlast.
  destruct (io_ok_flags env Hio) as (Hrl & Hwl & _ & Hri & Hwi).
  unfold importConversation.
  assert (Hne : String.eqb id EmptyString = false) by by apply String.eqb_neq.
  rewrite Hne, Hwl, Hlast. simpl.
  assert (Hread : forall l, readIndexOrEmpty env (mkStore l (index st)) = indexOf st).
  { intros l. unfold readIndexOrEmpty, indexOf. by rewrite Hri. }
  assert (Hlookup : indexOf st !! id = None).
  { unfold metadataOf, indexOf in *. destruct (index st); [done | apply lookup_empty]. }
  split; [reflexivity|]. split.
  - rewrite updateConversationMetadata_logs. simpl. apply lookup_insert_eq.
  - assert (Hindex : index (updateConversationMetadata env
                        (mkStore (<[id := data]> (logs st)) (index st)) id
                        (entry_message final)) = Some (indexOf st)).
    { rewrite updateConversationMetadata_inherited; rewrite ?Hread; done. }
    split; [|exact Hindex].
    unfold metadataOf. by rewrite Hindex.
Qed.

(** One message imported as ["constructor"] into an empty directory:
    [constructor.json] holds it, [metadata.json] holds the empty object. *)
Lemma import_misses_inherited_ids_witness :
  snd (importConversation Samples.env0 emptyStore
         [mkEntry Samples.hello None None] (Some "constructor")) = Ok "constructor"
  /\ logs (fst (importConversation Samples.env0 emptyStore
                  [mkEntry Samples.hello None None] (Some "constructor")))
       !! "constructor"
     = Some [mkEntry Samples.hello None None]
  /\ metadataOf (fst (importConversation Samples.env0 emptyStore
                        [mkEntry Samples.hello None None] (Some "constructor")))
                "constructor" = None
  /\ index (fst (importConversation Samples.env0 emptyStore
                   [mkEntry Samples.hello None None] (Some "constructor")))
     = Some ∅.
Proof.
  apply (import_misses_inherited_ids Samples.env0 emptyStore
           [mkEntry Samples.hello None None] (mkEntry Samples.hello None None)
           "constructor").
  - reflexivity.
  - discriminate.
  - reflexivity.
  - reflexivity.
  - reflexivity.
Defined.

(** The specification does hold of an id that names a file of its own and
    under which the index inherits nothing.  A non-empty sequence imported
    without I/O failure under such an id without a metadata record is
    stored as supplied, whatever its length, and the record created for it has
    [messageCount = 1], with the title and [lastMessage] taken from the
    final element of the sequence. *)
Theorem import_is_verbatim_and_counts_one :
  forall (env : Env) (st : Store) (data : list Entry) (final : Entry) (id : string),
    io_ok env = true ->
    id <> EmptyString ->
    namesOwnFile id = true ->
    inherits env id = NotInherited ->
    metadataOf st id = None ->
    last data = Some final ->
    snd (importConversation env st data (Some id)) = Ok id
    /\ logs (fst (importConversation env st data (Some id))) !! id = Some data
    /\ exists r : Metadata,
         metadataOf (fst (importConversation env st data (Some id))) id = Some r
         /\ messageCount r = 1%Z
         /\ title r = generateTitle (msg_content (entry_message final))
         /\ lastMessage r
            = mkLastMessage (msg_role (entry_message final))
                            (preview (msg_content (entry_message final)))
                            (msg_timestamp (entry_message final)).
Proof.
  intros env st data final id Hio Hid _ Hplain Hfresh Hlast.
  destruct (io_ok_flags env Hio) as (Hrl & Hwl & _ & Hri & Hwi).
  unfold importConversation.
  assert (Hne : String.eqb id EmptyString = false) by by apply String.eqb_neq.
  rewrite Hne, Hwl, Hlast. simpl.
  split; [reflexivity|]. split.
  - rewrite updateConversationMetadata_logs. simpl. apply lookup_insert_eq.
  - eexists. unfold metadataOf at 1.
    rewrite updateConversationMetadata_calm; [|done|done|by right].
    rewrite lookup_insert_eq. split; [reflexivity|].
    unfold recordBefore, metadataOf in *. simpl. rewrite Hfresh. done.
Qed.

(** Sixty entries imported at once: all sixty are stored, and counted as
    one. *)
Lemma import_is_verbatim_and_counts_one_witness :
  logs (fst (importConversation Samples.env0 emptyStore Samples.sixtyEntries
               (Some "imported"))) !! "imported"
  = Some Samples.sixtyEntries
  /\ length Samples.sixtyEntries = 60%nat
  /\ exists r : Metadata,
       metadataOf (fst (importConversation Samples.env0 emptyStore
                          Samples.sixtyEntries (Some "imported"))) "imported"
       = Some r
       /\ messageCount r = 1%Z
       /\ title r = "message 60".
Proof.
  destruct (import_is_verbatim_and_counts_one Samples.env0 emptyStore
              Samples.sixtyEntries
              (mkEntry (userMessage "message 60" "ts") None None) "imported")
    as (_ & Hlog & r & Hr & Hcount & Htitle & _).
  - reflexivity.
  - discriminate.
  - reflexivity.
  - reflexivity.
  - reflexivity.
  - vm_compute. reflexivity.
  - split; [exact Hlog|]. split; [reflexivity|].
    exists r. split; [exact Hr|]. split; [exact Hcount | exact Htitle].
Defined.

End StoreProperties.

(** ** Streaming loops *)

Lemma deltas_app (a b : list Callback) : deltas (a ++ b) = (deltas a ++ deltas b)%list.
Proof.
  induction a as [|[v|c mdl u|e] a IH]; simpl; [reflexivity | | exact IH | exact IH].
  by rewrite IH.
Qed.

Lemma completions_app (a b : list Callback) :
  completions (a ++ b) = (completions a ++ completions b)%list.
Proof.
  induction a as [|[v|c mdl u|e] a IH]; simpl; [reflexivity | exact IH | | exact IH].
  by rewrite IH.
Qed.



(** The invariant of a loop with an accumulating body: [fullContent] is
    the concatenation of what was passed to [onChunk] so far, and
    [onComplete] was not called. *)
Lemma forAwait_accumulates body :
  accumulating body ->
  forall cs full u trace r,
    forAwait body (full, u) cs = (trace, r) ->
    completions trace = []
    /\ forall full' u', r = Ok (full', u') ->
         full' = fold_left str_plus (deltas trace) full.
Proof.
  intros Hbody cs. induction cs as [|chunk rest IH]; intros full u trace r H; simpl in H.
  - injection H as <- <-. split; [reflexivity|]. intros ? ? [= <- <-]. reflexivity.
  - destruct (body (full, u) chunk) as [[[full1 u1] called]|e] eqn:Hstep.
    + destruct (forAwait body (full1, u1) rest) as [trace' r'] eqn:Hrest.
      injection H as <- <-.
      destruct (Hbody _ _ _ _ _ _ Hstep) as [Hfull Hnone].
      destruct (IH _ _ _ _ Hrest) as [Hnone' Hacc].
      split.
      * by rewrite completions_app, Hnone, Hnone'.
      * intros full' u' Hr. rewrite deltas_app, fold_left_app, <- Hfull. by eapply Hacc.
    + injection H as <- <-. split; [reflexivity|]. discriminate.
Qed.

Lemma anthropic_accumulating : accumulating AnthropicService.onEvent.
Proof.
  intros full u chunk full' u' called H. unfold AnthropicService.onEvent in H.
  run_outcome; injection H as <- <- <-; by split.
Qed.

Lemma openai_accumulating : accumulating OpenAIService.onEvent.
Proof.
  intros full u chunk full' u' called H. unfold OpenAIService.onEvent in H.
  run_outcome; injection H as <- <- <-; by split.
Qed.

Lemma completion_is_concat (trace : list Callback) (full mdl : string) (u : Value) :
  completions trace = [] ->
  full = fold_left str_plus (deltas trace) EmptyString ->
  completions (trace ++ [OnComplete full mdl u])
  = [concatDeltas (trace ++ [OnComplete full mdl u])].
Proof.
  intros Hnone Hfull. unfold concatDeltas.
  rewrite completions_app, deltas_app, Hnone. simpl. rewrite app_nil_r. by rewrite Hfull.
Qed.

Lemma completions_error (trace : list Callback) (e : string) :
  completions trace = [] -> completions (trace ++ [OnError e]) = [].
Proof. intros H. by rewrite completions_app, H. Qed.

(** Whatever the vendor client yields, a stream of the Anthropic adapter
    either does not complete or completes once, with the concatenation of
    its deltas. *)
Lemma anthropic_completion (client : AnthropicService.Client) (req : Request) :
  completions (AnthropicService.streamResponse client req) = []
  \/ completions (AnthropicService.streamResponse client req)
     = [concatDeltas (AnthropicService.streamResponse client req)].
Proof.
  unfold AnthropicService.streamResponse.
  destruct (AnthropicService.createStream client _) as [events|e]; [|by left].
  destruct (forAwait _ _ _) as [trace [[full u]|e]] eqn:Hloop;
    destruct (forAwait_accumulates _ anthropic_accumulating _ _ _ _ _ Hloop)
      as [Hnone Hacc].
  - destruct (failure events).
    + left. by apply completions_error.
    + right. apply completion_is_concat; [done|]. by eapply Hacc.
  - left. by apply completions_error.
Qed.

(** The same for the OpenAI adapter. *)
Lemma openai_completion (client : OpenAIService.Client) (req : Request) :
  completions (OpenAIService.streamResponse client req) = []
  \/ completions (OpenAIService.streamResponse client req)
     = [concatDeltas (OpenAIService.streamResponse client req)].
Proof.
  unfold OpenAIService.streamResponse.
  destruct (OpenAIService.createStream client _) as [events|e]; [|by left].
  destruct (forAwait _ _ _) as [trace [[full u]|e]] eqn:Hloop;
    destruct (forAwait_accumulates _ openai_accumulating _ _ _ _ _ Hloop)
      as [Hnone Hacc].
  - destruct (failure events).
    + left. by apply completions_error.
    + right. apply completion_is_concat; [done|]. by eapply Hacc.
  - left. by apply completions_error.
Qed.

(** ** The stubbed vendors *)



Lemma anthropic_stub_generate (stub : AnthropicService.Stub) (req : Request) :
  AnthropicService.generateResponse (AnthropicService.stubClient stub) req
  = Ok (mkResult
          (VStr (reply_text (stub (AnthropicService.generateParams req))))
          (VStr (reply_model (stub (AnthropicService.generateParams req))))
          (usageObject
             (VInt (reply_prompt_tokens (stub (AnthropicService.generateParams req))))
             (VInt (reply_completion_tokens (stub (AnthropicService.generateParams req))))
             (plus (VInt (reply_prompt_tokens (stub (AnthropicService.generateParams req))))
                   (VInt (reply_completion_tokens (stub (AnthropicService.generateParams req))))))).
Proof. reflexivity. Qed.









(** When the caller leaves [maxTokens] out, or gives 1000, the two calls of
    the Anthropic adapter differ by the [stream] flag only. *)
Lemma anthropic_same_call_at_default (req : Request) :
  orDefault (req_maxTokens req) 1000%Z = 1000%Z ->
  AnthropicService.streamParams req
  = AnthropicService.mkParams
      (AnthropicService.model (AnthropicService.generateParams req))
      (AnthropicService.max_tokens (AnthropicService.generateParams req))
      (AnthropicService.temperature (AnthropicService.generateParams req))
      (AnthropicService.system (AnthropicService.generateParams req))
      (AnthropicService.messages (AnthropicService.generateParams req))
      (Some true).
Proof.
  intros Hcap. unfold AnthropicService.streamParams, AnthropicService.generateParams.
  simpl. by rewrite Hcap.
Qed.


(** ** What is sent to the vendors *)

(** C8, as amended.  For every adapter and every request,
    [generateResponse] sends the caller's [maxTokens], or 1000 when the
    caller gives none, and [streamResponse], which reads no [maxTokens],
    sends the fixed value 1000.  (The Cohere and Gemini adapters build
    their call only for a non-empty conversation.) *)
Theorem maxTokens_is_fixed_when_streaming :
  forall req : Request,
    (AnthropicService.max_tokens (AnthropicService.generateParams req)
     = orDefault (req_maxTokens req) 1000%Z
     /\ AnthropicService.max_tokens (AnthropicService.streamParams req) = 1000%Z)
    /\ (OpenAIService.max_tokens (OpenAIService.generateParams req)
        = orDefault (req_maxTokens req) 1000%Z
        /\ OpenAIService.max_tokens (OpenAIService.streamParams req) = 1000%Z)
    /\ (MistralService.max_tokens (MistralService.generateParams req)
        = orDefault (req_maxTokens req) 1000%Z
        /\ MistralService.max_tokens (MistralService.streamParams req) = 1000%Z)
    /\ (match CohereService.generateParams req, CohereService.streamParams req with
        | Ok g, Ok s =>
            CohereService.maxTokens g = orDefault (req_maxTokens req) 1000%Z
            /\ CohereService.maxTokens s = 1000%Z
        | Throw _, Throw _ => True
        | _, _ => False
        end)
    /\ (match GeminiService.generateParams req, GeminiService.streamParams req with
        | Ok g, Ok s =>
            GeminiService.maxOutputTokens (GeminiService.generationConfig g)
            = orDefault (req_maxTokens req) 1000%Z
            /\ GeminiService.maxOutputTokens (GeminiService.generationConfig s) = 1000%Z
        | Throw _, Throw _ => True
        | _, _ => False
        end).
Proof.
  intros req. repeat split.
  - unfold CohereService.generateParams, CohereService.streamParams,
      CohereService.paramsWith.
    destruct (CohereService.currentMessage (req_messages req)); simpl; auto.
  - unfold GeminiService.generateParams, GeminiService.streamParams.
    destruct (GeminiService.lastText _); simpl; auto.
Qed.

(** C8 as stated fails: a caller's cap of 5 reaches the vendor when
    generating and is replaced by 1000 when streaming. *)
Lemma stream_drops_the_caller_maxTokens :
  AnthropicService.max_tokens (AnthropicService.generateParams Samples.cappedRequest) = 5%Z
  /\ AnthropicService.max_tokens (AnthropicService.streamParams Samples.cappedRequest)
     = 1000%Z
  /\ AnthropicService.max_tokens (AnthropicService.streamParams Samples.cappedRequest)
     <> AnthropicService.max_tokens (AnthropicService.generateParams Samples.cappedRequest).
Proof. repeat split. discriminate. Qed.

(** ** Usage accounting *)

Lemma plus_ints (a b : Z) : plus (VInt a) (VInt b) = VInt (a + b).
Proof.
  unfold plus, VInt. simpl. unfold num_add, mkNum, normalize. simpl.
  rewrite !Z.mul_1_r.
  destruct (Z.eqb_spec (a + b) 0) as [->|_]; reflexivity.
Qed.

(** The Anthropic adapter sums the two counts the vendor reports. *)
Lemma anthropic_usage_total (response : Value) (r : Result) :
  AnthropicService.translate response = Ok r ->
  own (res_usage r) "total_tokens"
  = plus (own (res_usage r) "prompt_tokens") (own (res_usage r) "completion_tokens").
Proof.
  unfold AnthropicService.translate. intros H. run_outcome.
  injection H as <-. reflexivity.
Qed.

(** Non-negative integer counts give non-negative integer usage. *)
Lemma anthropic_usage_of_counts (stub : AnthropicService.Stub) (req : Request) :
  let reply := stub (AnthropicService.generateParams req) in
  (0 <= reply_prompt_tokens reply)%Z -> (0 <= reply_completion_tokens reply)%Z ->
  exists (r : Result) (total : Z),
    AnthropicService.generateResponse (AnthropicService.stubClient stub) req = Ok r
    /\ res_usage r
       = usageObject (VInt (reply_prompt_tokens reply))
                     (VInt (reply_completion_tokens reply)) (VInt total)
    /\ total = (reply_prompt_tokens reply + reply_completion_tokens reply)%Z
    /\ (0 <= total)%Z.
Proof.
  intros reply Hp Hc. eexists. exists (reply_prompt_tokens reply + reply_completion_tokens reply)%Z.
  split; [apply anthropic_stub_generate|]. simpl res_usage. rewrite plus_ints.
  repeat split. lia.
Qed.

(** The Cohere adapter sums the two counts after defaulting each to zero:
    none of its usage fields is ever [undefined]. *)
Lemma cohere_usage_total (mdl : string) (response : Value) (r : Result) :
  CohereService.translate mdl response = Ok r ->
  own (res_usage r) "total_tokens"
  = plus (own (res_usage r) "prompt_tokens") (own (res_usage r) "completion_tokens")
  /\ own (res_usage r) "prompt_tokens" <> VUndefined
  /\ own (res_usage r) "completion_tokens" <> VUndefined.
Proof.
  unfold CohereService.translate. intros H. run_outcome.
  injection H as <-. simpl. split; [reflexivity|].
  unfold CohereService.billed, or_else.
  split; match goal with |- (if truthy ?v then _ else _) <> _ =>
           destruct v; simpl; try discriminate;
           match goal with |- (if ?b then _ else _) <> _ => destruct b; discriminate end
         end.
Qed.

(** C9.  Usage defaults.  The Mistral adapter copies the three usage fields
    of the vendor without a default: a response whose [usage] lacks
    [total_tokens] yields a usage whose [total_tokens] is [undefined], and
    a response without [usage] makes the call fail.  So does the OpenAI
    adapter; the Anthropic adapter turns a missing count into an
    [undefined] field and a total that is not a number.  The Cohere
    adapter, on a response without accounting, yields zeros, and the Gemini
    adapter puts zero for a total the vendor left out. *)
Theorem usage_fields_are_not_defaulted :
  (exists r : Result,
      MistralService.generateResponse
        (Samples.mistralAnswering Samples.mistralWithoutTotal) Samples.plainRequest = Ok r
      /\ own (res_usage r) "prompt_tokens" = VInt 3
      /\ own (res_usage r) "completion_tokens" = VInt 4
      /\ own (res_usage r) "total_tokens" = VUndefined)
  /\ MistralService.generateResponse
       (Samples.mistralAnswering Samples.mistralWithoutUsage) Samples.plainRequest
     = Throw "Mistral API error: Cannot read properties of undefined (reading 'prompt_tokens')"
  /\ OpenAIService.translate Samples.openaiWithoutUsage
     = Throw "Cannot read properties of undefined (reading 'prompt_tokens')"
  /\ (exists r : Result,
      AnthropicService.translate Samples.anthropicWithoutInput = Ok r
      /\ res_usage r = usageObject VUndefined (VInt 4) VNaN)
  /\ (exists r : Result,
      CohereService.translate "command" Samples.cohereWithoutMeta = Ok r
      /\ res_usage r = usageObject (VInt 0) (VInt 0) (VInt 0))
  /\ (exists r : Result,
      GeminiService.translate "gemini-pro" Samples.geminiWithoutTotal = Ok r
      /\ res_usage r = usageObject (VInt 3) (VInt 4) (VInt 0)).
Proof.
  split; [|split; [|split; [|split; [|split]]]].
  - eexists. split; [vm_compute; reflexivity|]. repeat split.
  - vm_compute. reflexivity.
  - vm_compute. reflexivity.
  - eexists. split; vm_compute; reflexivity.
  - eexists. split; vm_compute; reflexivity.
  - eexists. split; vm_compute; reflexivity.
Qed.

(** ** The raw event feed of Mistral *)

Lemma mistral_onFeed_app (mdl : string) (xs ys : list string) : forall st,
  MistralService.onFeed mdl st (xs ++ ys)
  = (fst (MistralService.onFeed mdl (fst (MistralService.onFeed mdl st xs)) ys),
     snd (MistralService.onFeed mdl st xs)
     ++ snd (MistralService.onFeed mdl (fst (MistralService.onFeed mdl st xs)) ys))%list.
Proof.
  induction xs as [|x xs IH]; intros st; simpl.
  - by destruct (MistralService.onFeed mdl st ys).
  - destruct (MistralService.onData mdl st x) as [st1 called].
    rewrite IH.
    destruct (MistralService.onFeed mdl st1 xs) as [st2 trace]. simpl.
    destruct (MistralService.onFeed mdl st2 ys) as [st3 trace']. simpl.
    by rewrite app_assoc.
Qed.

(** Lines without the event prefix, and event lines whose payload does not
    parse, leave no trace. *)
Lemma mistral_lines_skipped (mdl : string) (st : string * Value) (lines : list string) :
  Forall (fun line =>
            startsWith "data: " line = false
            \/ (String.eqb (slice_from 6 line) "[DONE]" = false
                /\ threw (JSON.parse (slice_from 6 line)) = true)) lines ->
  MistralService.onLines mdl st lines = (st, []).
Proof.
  induction 1 as [|line rest Hline _ IH]; [reflexivity|].
  cbn [MistralService.onLines]. destruct Hline as [Hskip | [Hsentinel Hthrow]].
  - rewrite Hskip. exact IH.
  - rewrite Hsentinel. destruct (startsWith "data: " line); [|exact IH].
    unfold MistralService.onPayload. destruct st as [full u].
    unfold mbind, outcome_bind, bind.
    destruct (JSON.parse (slice_from 6 line)); [discriminate | exact IH].
Qed.

(** A read all of whose lines are such leaves no trace either. *)
Lemma mistral_read_skipped (mdl : string) (st : string * Value) (chunk : string) :
  Forall (fun line =>
            startsWith "data: " line = false
            \/ (String.eqb (slice_from 6 line) "[DONE]" = false
                /\ threw (JSON.parse (slice_from 6 line)) = true))
         (split (ascii_of_nat 10) chunk) ->
  MistralService.onData mdl st chunk = (st, []).
Proof.
  intros Hlines. unfold MistralService.onData.
  apply mistral_lines_skipped.
  induction Hlines as [|line rest Hline _ IH]; simpl; [constructor|].
  destruct (negb _); [by constructor | exact IH].
Qed.

Lemma mistral_split_reads_dropped (mdl : string) (st : string * Value) :
  MistralService.onData mdl st Samples.firstRead = (st, [])
  /\ MistralService.onData mdl st Samples.secondRead = (st, []).
Proof. destruct st as [full u]. split; reflexivity. Qed.

(** C1, as amended.  When the event line arrives split across two
    consecutive reads, the listener, which keeps nothing of a read for the
    next, drops both fragments: the first is an event line whose payload
    does not parse, the second has no event prefix.  Nothing is emitted for
    the line, nothing fails and the state of the stream is unchanged, so
    that the feed is handled as if the two reads had not occurred; a
    complete line in the shape of the vendor, arriving in one read
    afterwards, is emitted once. *)
Theorem mistral_split_line_is_dropped :
  forall (mdl : string) (st : string * Value) (before after : list string),
    MistralService.onFeed mdl st
      (before ++ Samples.firstRead :: Samples.secondRead :: after)
    = MistralService.onFeed mdl st (before ++ after)
    /\ MistralService.onFeed mdl st [Samples.firstRead; Samples.secondRead] = (st, [])
    /\ MistralService.onFeed mdl st
         [Samples.firstRead; Samples.secondRead; Samples.wholeLine]
       = ((fst st ++ "Hello", snd st), [OnChunk (VStr "Hello")]).
Proof.
  intros mdl st before after.
  assert (Hdrop : forall s rest,
             MistralService.onFeed mdl s (Samples.firstRead :: Samples.secondRead :: rest)
             = MistralService.onFeed mdl s rest).
  { intros s rest. cbn [MistralService.onFeed].
    destruct (mistral_split_reads_dropped mdl s) as [-> ->].
    by destruct (MistralService.onFeed mdl s rest). }
  split; [|split].
  - rewrite !mistral_onFeed_app. by rewrite Hdrop.
  - by rewrite Hdrop.
  - rewrite Hdrop. destruct st as [full u]. reflexivity.
Qed.

(** C1 as stated fails: the feed of the two reads emits no delta, with the
    payload of the claim as with a payload in the shape of the vendor. *)
Lemma mistral_split_line_emits_nothing :
  deltas (MistralService.streamResponse
            (MistralService.mkClient
               (fun _ => Throw "unused")
               (fun _ => Ok (MistralService.mkFeed
                               [Samples.firstRead; Samples.secondRead] None)))
            Samples.plainRequest)
  = []
  /\ deltas (snd (MistralService.onFeed "mistral-large-latest" (EmptyString, VNull)
                    [Samples.vendorFirstRead; Samples.vendorSecondRead]))
     = []
  /\ deltas (snd (MistralService.onFeed "mistral-large-latest" (EmptyString, VNull)
                    [Samples.firstRead; Samples.secondRead]))
     <> [VStr "Hello"].
Proof. repeat split; vm_compute; try reflexivity. discriminate. Qed.

(** The payload of the claim is not in the shape the listener reads
    ([choices[0].delta.content]): even in one read it emits nothing. *)
Example mistral_payload_without_choices :
  MistralService.onData "mistral-large-latest" (EmptyString, VNull)
    Samples.unshapedLine
  = ((EmptyString, VNull), []).
Proof. reflexivity. Qed.

(** ** The chat endpoint *)

Section ChatProperties.
Import ConversationManager.

(** C7, as amended.  In the chat endpoint, once the history is loaded and
    the provider selected: if the provider call fails, the store is left as
    it was and the reply is the 500 error; if it succeeds, the user turn and
    then the assistant turn are saved, and a failure of either save ends
    the request with the same 500 error, which carries no generated content
    (the store then holds what was saved before the failure); the generated
    content is returned, in a 200 reply, only when both saves returned. *)
Theorem chat_persists_after_generation_only :
  forall (services : Server.Services) (env : Server.HandlerEnv) (st : Store)
         (body : Server.Body) (aiService : Server.Provider) (history : list Entry),
    Server.loadHistory env st body = Ok history ->
    Server.selectService (orDefault (Server.provider body) "anthropic") = Some aiService ->
    (forall e : string,
        services aiService (Server.buildRequest env body history) = Throw e ->
        Server.chat services env st body = (st, Server.failed env e))
    /\ (forall aiResponse : Server.GenerationResult,
        services aiService (Server.buildRequest env body history) = Ok aiResponse ->
        let saved :=
          saveMessage (Server.env_user env) st (Server.resolveId env body)
                      (Server.userTurn env body) in
        let savedBoth :=
          saveMessage (Server.env_assistant env) (fst saved) (Server.resolveId env body)
                      (Server.assistantTurn env aiResponse) in
        (forall e : string,
            snd saved = Throw e ->
            Server.chat services env st body = (st, Server.failed env e))
        /\ (forall e : string,
            snd saved = Ok tt -> snd savedBoth = Throw e ->
            Server.chat services env st body = (fst saved, Server.failed env e))
        /\ (snd saved = Ok tt -> snd savedBoth = Ok tt ->
            Server.chat services env st body
            = (fst savedBoth,
               Server.Json200 (Server.content aiResponse) (Server.resolveId env body)
                              (Server.result_model aiResponse)
                              (Server.usage aiResponse) (Server.now_reply env)))).
Proof.
  intros services env st body aiService history Hload Hsel.
  split.
  - intros e Hgen. unfold Server.chat. by rewrite Hload, Hsel, Hgen.
  - intros aiResponse Hgen saved savedBoth.
    unfold Server.chat. rewrite Hload, Hsel, Hgen.
    fold saved. destruct saved as [st1 [[]|e1]] eqn:Hsaved; cbn [fst snd] in *.
    + fold savedBoth. destruct savedBoth as [st2 [[]|e2]] eqn:Hboth; cbn [fst snd].
      * split; [discriminate|]. split; [discriminate|]. reflexivity.
      * destruct (saveMessage_throws _ _ _ _ _ _ Hboth) as [-> _].
        split; [discriminate|]. split; [|discriminate].
        intros e _ [= <-]. reflexivity.
    + destruct (saveMessage_throws _ _ _ _ _ _ Hsaved) as [-> _].
      split; [|split; discriminate].
      intros e [= <-]. reflexivity.
Qed.

(** An unreachable provider; a provider that answers while the disk is
    full, while it fills up between the two saves, and while nothing
    fails. *)
Lemma chat_persists_after_generation_only_witness :
  Server.chat Samples.unreachable Samples.handlerEnv emptyStore Samples.chatBody
  = (emptyStore, Server.Json500 "Failed to generate response" None)
  /\ Server.chat Samples.answering Samples.handlerEnvDiskFull emptyStore Samples.chatBody
     = (emptyStore, Server.Json500 "Failed to generate response" None)
  /\ (snd (Server.chat Samples.answering Samples.handlerEnvDiskFills emptyStore
             Samples.chatBody)
      = Server.Json500 "Failed to generate response" (Some "EIO: write failed")
      /\ entry_message
           <$> logOf (fst (Server.chat Samples.answering Samples.handlerEnvDiskFills
                             emptyStore Samples.chatBody)) "c1"
         = [Server.userTurn Samples.handlerEnvDiskFills Samples.chatBody])
  /\ (snd (Server.chat Samples.answering Samples.handlerEnv emptyStore Samples.chatBody)
      = Server.Json200 "Hi!" "c1" (VStr "mistral-large-latest")
                       (usageObject (VInt 3) (VInt 1) (VInt 4))
                       "2024-01-01T10:00:01.010Z"
      /\ msg_content <$> (entry_message
           <$> logOf (fst (Server.chat Samples.answering Samples.handlerEnv
                             emptyStore Samples.chatBody)) "c1")
         = ["Hello there, friend"; "Hi!"]).
Proof.
  split; [|split; [|split]].
  - destruct (chat_persists_after_generation_only Samples.unreachable
                Samples.handlerEnv emptyStore Samples.chatBody Server.Mistral [])
      as [Hfail _]; [reflexivity | reflexivity |].
    apply (Hfail "Mistral API error: connect ECONNREFUSED"). reflexivity.
  - destruct (chat_persists_after_generation_only Samples.answering
                Samples.handlerEnvDiskFull emptyStore Samples.chatBody
                Server.Mistral [])
      as [_ Hsave]; [reflexivity | reflexivity |].
    destruct (Hsave _ eq_refl) as (Hfirst & _ & _).
    apply (Hfirst "EIO: write failed"). reflexivity.
  - destruct (chat_persists_after_generation_only Samples.answering
                Samples.handlerEnvDiskFills emptyStore Samples.chatBody
                Server.Mistral [])
      as [_ Hsave]; [reflexivity | reflexivity |].
    destruct (Hsave _ eq_refl) as (_ & Hsecond & _).
    rewrite (Hsecond "EIO: write failed") by reflexivity.
    split; vm_compute; reflexivity.
  - destruct (chat_persists_after_generation_only Samples.answering
                Samples.handlerEnv emptyStore Samples.chatBody Server.Mistral [])
      as [_ Hsave]; [reflexivity | reflexivity |].
    destruct (Hsave _ eq_refl) as (_ & _ & Hboth).
    rewrite Hboth by reflexivity.
    split; vm_compute; reflexivity.
Defined.

(** C7 as stated fails: the provider answered ["Hi!"], the disk is full,
    and the reply is the 500 error without that content. *)
Lemma chat_loses_content_when_persistence_fails :
  Samples.answering Server.Mistral
    (Server.buildRequest Samples.handlerEnvDiskFull Samples.chatBody [])
  = Ok (Server.mkGenerationResult "Hi!" (VStr "mistral-large-latest")
          (usageObject (VInt 3) (VInt 1) (VInt 4)))
  /\ Server.chat Samples.answering Samples.handlerEnvDiskFull emptyStore Samples.chatBody
     = (emptyStore, Server.Json500 "Failed to generate response" None)
  /\ snd (Server.chat Samples.answering Samples.handlerEnvDiskFull emptyStore
            Samples.chatBody)
     <> Server.Json200 "Hi!" "c1" (VStr "mistral-large-latest")
                       (usageObject (VInt 3) (VInt 1) (VInt 4))
                       "2024-01-01T10:00:01.010Z".
Proof. repeat split; vm_compute; try reflexivity. discriminate. Qed.

(** The request of the scenario when nothing fails. *)
Example chat_answers :
  snd (Server.chat Samples.answering Samples.handlerEnv emptyStore Samples.chatBody)
  = Server.Json200 "Hi!" "c1" (VStr "mistral-large-latest")
                   (usageObject (VInt 3) (VInt 1) (VInt 4))
                   "2024-01-01T10:00:01.010Z".
Proof. vm_compute. reflexivity. Qed.

End ChatProperties.

(* ================================================================== *)
(** * Further properties of the code *)
(* ================================================================== *)

(** ** The conversation store: reads, failures, deletion, import *)

Section StoreOperations.
Import ConversationManager.

Lemma slice_last_snoc {A : Type} (n : nat) (xs : list A) (x : A) :
  slice_last (S n) (xs ++ [x])%list = (slice_last n xs ++ [x])%list.
Proof.
  unfold slice_last. rewrite length_app. simpl.
  replace (length xs + 1 - S n)%nat with (length xs - n)%nat by lia.
  rewrite drop_app_le by lia. reflexivity.
Qed.

(** The log a [saveMessage] that returns has written. *)
Lemma saveMessage_log env st id m st' :
  saveMessage env st id m = (st', Ok tt) ->
  logs st'
  = <[id := (slice_last 49 (if read_log_fails env then [] else logOf st id)
             ++ [newEntry env m])%list]> (logs st).
Proof.
  unfold saveMessage. rewrite cap_is_slice_last.
  destruct (write_log_fails env); [discriminate|].
  intros H. injection H as <-.
  rewrite updateConversationMetadata_logs. simpl.
  rewrite slice_last_snoc. unfold logOf.
  by destruct (read_log_fails env).
Qed.

Lemma getConversation_reads env st id :
  read_log_fails env = false -> getConversation env st id = Ok (logOf st id).
Proof.
  intros Hread. unfold getConversation, logOf.
  destruct (logs st !! id); [by rewrite Hread | reflexivity].
Qed.

(** X2.  Isolation of conversations.  For two different ids that each
    name a file of their own, a [saveMessage] on one, whether it returns or
    throws, leaves the log of the other as it was; when the index is read
    without failure, it leaves the record of the other as it was too. *)
Theorem append_leaves_other_conversations :
  forall (env : Env) (st : Store) (id other : string) (m : Message),
    namesOwnFile id = true ->
    namesOwnFile other = true ->
    other <> id ->
    logs (fst (saveMessage env st id m)) !! other = logs st !! other
    /\ (read_index_fails env = false ->
        metadataOf (fst (saveMessage env st id m)) other = metadataOf st other).
Proof.
  intros env st id other m _ _ Hne. unfold saveMessage.
  destruct (write_log_fails env); simpl; [done|].
  rewrite updateConversationMetadata_logs. simpl.
  split; [by rewrite lookup_insert_ne|].
  intros Hri. unfold updateConversationMetadata, readIndexOrEmpty, metadataOf.
  rewrite Hri. simpl.
  assert (Hother : match index st with Some metadata => metadata | None => ∅ end !! other
                   = match index st with
                     | Some metadata => metadata !! other
                     | None => None
                     end).
  { destruct (index st); [done | apply lookup_empty]. }
  destruct (_ !! id); [|destruct (inherits env id)]; try done;
    destruct (write_index_fails env); simpl; try done;
    by rewrite ?lookup_insert_ne by done.
Qed.

Lemma append_leaves_other_conversations_witness :
  logs (fst (saveMessage Samples.env0 Scenarios.twoConversations "c1" Samples.hello))
    !! "c2"
  = logs Scenarios.twoConversations !! "c2"
  /\ metadataOf (fst (saveMessage Samples.env0 Scenarios.twoConversations "c1"
                        Samples.hello)) "c2"
     = metadataOf Scenarios.twoConversations "c2".
Proof.
  destruct (append_leaves_other_conversations Samples.env0 Scenarios.twoConversations
              "c1" "c2" Samples.hello eq_refl eq_refl ltac:(discriminate))
    as [Hlog Hrecord].
  split; [exact Hlog | exact (Hrecord eq_refl)].
Defined.

(** X3.  A read that fails is taken for a missing file.  On an id that
    names a file of its own: when the read of an existing log fails during
    [saveMessage], the log is overwritten by the new entry alone; when the
    read of the index fails and the id is not a name the index object
    inherits, the index is overwritten by the record of this conversation
    alone, counted from one and titled from this message: the history, and
    the records of all the other conversations, are lost without an
    error. *)
Theorem failed_read_is_written_back_as_empty :
  forall (env : Env) (st : Store) (id : string) (m : Message),
    namesOwnFile id = true ->
    write_log_fails env = false ->
    (read_log_fails env = true ->
       snd (saveMessage env st id m) = Ok tt
       /\ logOf (fst (saveMessage env st id m)) id = [newEntry env m])
    /\ (read_index_fails env = true -> write_index_fails env = false ->
        inherits env id = NotInherited ->
       snd (saveMessage env st id m) = Ok tt
       /\ index (fst (saveMessage env st id m))
          = Some {[ id := touch env (freshRecord env m) m ]}).
Proof.
  intros env st id m _ Hwl. unfold saveMessage. rewrite Hwl, cap_is_slice_last. simpl.
  split.
  - intros Hrl. rewrite Hrl. split; [reflexivity|].
    unfold logOf. rewrite updateConversationMetadata_logs. simpl.
    by rewrite lookup_insert_eq.
  - intros Hri Hwi Hplain. split; [reflexivity|].
    unfold updateConversationMetadata, readIndexOrEmpty. rewrite Hri, Hwi, Hplain.
    rewrite lookup_empty. reflexivity.
Qed.

Lemma failed_read_is_written_back_as_empty_witness :
  logOf (fst (saveMessage Scenarios.unreadable Scenarios.twoConversations "c1" Samples.hi))
        "c1"
  = [newEntry Scenarios.unreadable Samples.hi]
  /\ metadataOf
       (fst (saveMessage Scenarios.unreadable Scenarios.twoConversations "c1" Samples.hi))
       "c2"
     = None.
Proof.
  destruct (failed_read_is_written_back_as_empty Scenarios.unreadable
              Scenarios.twoConversations "c1" Samples.hi eq_refl eq_refl)
    as [Hlog Hindex].
  split.
  - exact (proj2 (Hlog eq_refl)).
  - unfold metadataOf. rewrite (proj2 (Hindex eq_refl eq_refl eq_refl)). reflexivity.
Defined.



(** What [deleteConversation] does to a conversation that has a log, when
    the [unlink] succeeds. *)
Lemma deleteConversation_known env st id conversation :
  logs st !! id = Some conversation ->
  unlink_fails env = false ->
  snd (deleteConversation env st id) = Ok tt
  /\ logs (fst (deleteConversation env st id)) = delete id (logs st)
  /\ index (fst (deleteConversation env st id))
     = (if read_index_fails env || write_index_fails env then index st
        else delete id <$> index st).
Proof.
  intros Hlog Hul. unfold deleteConversation. rewrite Hlog, Hul. simpl.
  destruct (read_index_fails env); simpl; [done|].
  destruct (index st) as [metadata|]; simpl.
  - by destruct (write_index_fails env).
  - by destruct (write_index_fails env).
Qed.

(** X5.  Deleting a conversation that has a log, without I/O failure, the
    id naming a file of its own: the route answers [{success: true}]; the
    log and the record of that id are gone while those of every other id
    that names a file of its own are untouched; reading the id afterwards
    answers with status 200 and an empty conversation, not with an error;
    and deleting it a second time is answered with status 500. *)
Theorem delete_then_read_and_delete_again :
  forall (env env' : Env) (st : Store) (id : string) (conversation : list Entry),
    namesOwnFile id = true ->
    logs st !! id = Some conversation ->
    io_ok env = true ->
    let st' := fst (Routes.deleteConversationRoute env st id) in
    snd (Routes.deleteConversationRoute env st id) = Routes.Status200 true
    /\ logs st' !! id = None
    /\ metadataOf st' id = None
    /\ (forall other, namesOwnFile other = true -> other <> id ->
          logs st' !! other = logs st !! other
          /\ metadataOf st' other = metadataOf st other)
    /\ Routes.getConversationRoute env' st' id = Routes.Status200 []
    /\ Routes.deleteConversationRoute env' st' id
       = (st', Routes.Status500 "Failed to delete conversation").
Proof.
  intros env env' st id conversation _ Hlog Hio st'.
  destruct (io_ok_flags env Hio) as (_ & _ & Hul & Hri & Hwi).
  destruct (deleteConversation_known env st id conversation Hlog Hul)
    as (Hret & Hlogs & Hindex).
  rewrite Hri, Hwi in Hindex. simpl in Hindex.
  assert (Hst' : st' = fst (deleteConversation env st id)).
  { unfold st', Routes.deleteConversationRoute.
    by destruct (deleteConversation env st id) as [? []]. }
  assert (Hgone : logs st' !! id = None).
  { rewrite Hst', Hlogs. apply lookup_delete_eq. }
  split.
  { unfold Routes.deleteConversationRoute.
    destruct (deleteConversation env st id) as [? []]; simpl in *; congruence. }
  split; [exact Hgone|].
  split.
  { unfold metadataOf. rewrite Hst', Hindex.
    destruct (index st); simpl; [apply lookup_delete_eq | done]. }
  split.
  { intros other _ Hne. rewrite Hst'. split.
    - rewrite Hlogs. by apply lookup_delete_ne.
    - unfold metadataOf. rewrite Hindex.
      destruct (index st); simpl; [by apply lookup_delete_ne | done]. }
  split.
  - unfold Routes.getConversationRoute, getConversation. by rewrite Hgone.
  - unfold Routes.deleteConversationRoute, deleteConversation. by rewrite Hgone.
Qed.

Lemma delete_then_read_and_delete_again_witness :
  let st' := fst (Routes.deleteConversationRoute Samples.env0
                    Scenarios.twoConversations "c1") in
  snd (Routes.deleteConversationRoute Samples.env0 Scenarios.twoConversations "c1")
  = Routes.Status200 true
  /\ logs st' !! "c1" = None
  /\ metadataOf st' "c1" = None
  /\ (forall other, namesOwnFile other = true -> other <> "c1" ->
        logs st' !! other = logs Scenarios.twoConversations !! other
        /\ metadataOf st' other = metadataOf Scenarios.twoConversations other)
  /\ Routes.getConversationRoute Samples.env0 st' "c1" = Routes.Status200 []
  /\ Routes.deleteConversationRoute Samples.env0 st' "c1"
     = (st', Routes.Status500 "Failed to delete conversation").
Proof.
  exact (delete_then_read_and_delete_again Samples.env0 Samples.env0
           Scenarios.twoConversations "c1"
           [newEntry Samples.env0 Samples.hello; newEntry Samples.env0 Samples.hi]
           eq_refl eq_refl eq_refl).
Defined.












End StoreOperations.

(** ** Search *)

Section SearchProperties.
Import ConversationManager ConversationSearch.

Lemma insertByMatches_perm r : forall sorted,
  insertByMatches r sorted ≡ₚ r :: sorted.
Proof.
  induction sorted as [|x rest IH]; simpl; [done|].
  destruct (matches x <=? matches r)%nat; [done|].
  rewrite IH. apply Permutation_swap.
Qed.

Lemma sortByMatches_perm results : sortByMatches results ≡ₚ results.
Proof.
  induction results as [|r rest IH]; simpl; [done|].
  unfold sortByMatches in *. simpl. rewrite insertByMatches_perm. by constructor.
Qed.

Lemma insertByMatches_ranked r : forall sorted,
  ranked sorted -> ranked (insertByMatches r sorted).
Proof.
  induction sorted as [|x rest IH]; simpl; intros Hr.
  - split; [constructor | exact I].
  - destruct Hr as [Hx Hrest].
    destruct (Nat.leb_spec (matches x) (matches r)) as [Hle | Hgt]; simpl.
    + split; [|by split].
      constructor; [exact Hle|].
      eapply Forall_impl; [exact Hx|]. simpl. intros; lia.
    + split; [|by apply IH].
      rewrite insertByMatches_perm. constructor; [lia | exact Hx].
Qed.

Lemma sortByMatches_ranked results : ranked (sortByMatches results).
Proof.
  induction results as [|r rest IH]; [exact I|].
  unfold sortByMatches in *. simpl. by apply insertByMatches_ranked.
Qed.

(** What a file contributes when it contributes. *)
Lemma examine_hit env st query file r :
  examine env st query file = Ok (Some r) ->
  conversationId r = removeFirst ".json" file
  /\ matches r = length (matching query (logOf st (conversationId r)))
  /\ (1 <= matches r)%nat
  /\ (exists first rest,
        matching query (logOf st (conversationId r)) = first :: rest
        /\ preview r = substring_to 200 (msg_content (entry_message first)) ++ "...").
Proof.
  unfold examine, getConversation, logOf. intros H.
  destruct (logs st !! removeFirst ".json" file) as [conversation|] eqn:Hlog;
    simpl in H.
  - destruct (read_log_fails env); [discriminate|]. simpl in H.
    destruct (matching query conversation) as [|first rest] eqn:Hm; [discriminate|].
    injection H as <-. simpl. rewrite Hlog, Hm. simpl.
    split; [reflexivity|]. split; [reflexivity|]. split; [lia|].
    by exists first, rest.
  - simpl in H. discriminate.
Qed.

Lemma searchLoop_invariant reading st query limit (P : SearchResult -> Prop) :
  forall files results rs,
    (forall file r, In file files ->
       examine (reading file) st query file = Ok (Some r) -> P r) ->
    Forall P results ->
    searchLoop reading st query limit files results = Ok rs ->
    Forall P rs
    /\ (Z.of_nat (length rs) <= Z.max limit (Z.of_nat (length results) + 1))%Z.
Proof.
  induction files as [|file rest IH]; intros results rs HP Hres H; simpl in H.
  - injection H as <-. split; [done | lia].
  - destruct (examine (reading file) st query file) as [hit|] eqn:Hex;
      [|discriminate].
    simpl in H.
    set (results' := match hit with
                     | Some r => (results ++ [r])%list
                     | None => results
                     end) in *.
    assert (Hres' : Forall P results').
    { unfold results'. destruct hit as [r|]; [|done].
      apply Forall_app. split; [done|]. constructor; [|constructor].
      apply (HP file); [by left | done]. }
    assert (Hlen : (length results' <= length results + 1)%nat).
    { unfold results'. destruct hit; [rewrite length_app; simpl|]; lia. }
    destruct (Z.leb_spec limit (Z.of_nat (length results'))) as [Hle | Hgt].
    + injection H as <-. split; [done | lia].
    + destruct (IH results' rs) as [HPrs Hbound]; [|done|done|].
      { intros f r Hin. apply HP. by right. }
      split; [done | lia].
Qed.

(** X10.  What a search returns.  Whenever [searchConversations] returns,
    its results are in non-increasing order of [matches]; there are at most
    [limit] of them (at most one for a [limit] below one); each comes from
    a file of the listing whose name ends in [.json] and is not
    [metadata.json]; its [matches], at least one, is the number of stored
    messages of that conversation whose content contains the query,
    letter case apart; and its [preview] is the first 200 characters of the
    first of them followed by three dots, also when nothing was cut. *)
Theorem search_results_are_ranked_hits :
  forall (reading : string -> Env) (st : Store) (files : list string)
         (query : string) (limit : option Z) (rs : list SearchResult),
    searchConversations reading st (Ok files) query limit = Ok rs ->
    ranked rs
    /\ (Z.of_nat (length rs) <= Z.max (orDefault limit 10%Z) 1)%Z
    /\ Forall (fun r =>
         (exists file, In file files
            /\ endsWith ".json" file = true /\ file <> "metadata.json"
            /\ conversationId r = removeFirst ".json" file)
         /\ matches r = length (matching query (logOf st (conversationId r)))
         /\ (1 <= matches r)%nat
         /\ (exists first rest,
               matching query (logOf st (conversationId r)) = first :: rest
               /\ preview r
                  = substring_to 200 (msg_content (entry_message first)) ++ "..."))
       rs.
Proof.
  intros reading st files query limit rs H.
  unfold searchConversations in H. simpl in H.
  destruct (searchLoop reading st query (orDefault limit 10%Z)
              (conversationFiles files) []) as [found|] eqn:Hloop; [|discriminate].
  simpl in H. injection H as <-.
  eapply searchLoop_invariant in Hloop as [Hall Hlen]; [| |constructor].
  - split; [apply sortByMatches_ranked|].
    split.
    + rewrite (Permutation_length (sortByMatches_perm found)). simpl in Hlen. lia.
    + rewrite (sortByMatches_perm found). exact Hall.
  - intros file r Hin Hex. simpl.
    apply examine_hit in Hex as (Hid & Hm & Hone & Hpre).
    split; [|done].
    exists file. unfold conversationFiles in Hin.
    apply filter_In in Hin as [Hin Hkeep].
    apply andb_true_iff in Hkeep as [Hjson Hnot].
    repeat split; try done.
    intros ->. discriminate.
Qed.

Lemma search_results_are_ranked_hits_witness :
  ranked (sortByMatches
            (take 2 (hits (fun _ => Samples.env0) Scenarios.greetings "hello"
                          (conversationFiles Scenarios.listing))))
  /\ (Z.of_nat (length (sortByMatches
                          (take 2 (hits (fun _ => Samples.env0) Scenarios.greetings
                                        "hello"
                                        (conversationFiles Scenarios.listing)))))
      <= Z.max 2 1)%Z.
Proof.
  destruct (search_results_are_ranked_hits (fun _ => Samples.env0)
              Scenarios.greetings Scenarios.listing "hello" (Some 2%Z)
              (sortByMatches
                 (take 2 (hits (fun _ => Samples.env0) Scenarios.greetings "hello"
                               (conversationFiles Scenarios.listing))))
              eq_refl) as (Hranked & Hlen & _).
  split; [exact Hranked | exact Hlen].
Defined.

Lemma examine_reads reading st query file :
  read_log_fails (reading file) = false ->
  exists hit, examine (reading file) st query file = Ok hit.
Proof.
  intros Hread. unfold examine, getConversation. rewrite Hread.
  destruct (logs st !! removeFirst ".json" file) as [conversation|]; simpl.
  - destruct (matching query conversation); eauto.
  - destruct (matching query []); eauto.
Qed.

Lemma searchLoop_takes reading st query limit :
  (forall file, read_log_fails (reading file) = false) ->
  forall files results,
    (Z.of_nat (length results) < limit)%Z ->
    searchLoop reading st query limit files results
    = Ok (take (Z.to_nat limit) (results ++ hits reading st query files))%list.
Proof.
  intros Hread. induction files as [|file rest IH]; intros results Hlt; simpl.
  - unfold hits. simpl. rewrite app_nil_r. rewrite take_ge by lia. reflexivity.
  - destruct (examine_reads reading st query file (Hread file)) as [hit Hex].
    unfold hits. simpl. rewrite Hex. simpl.
    destruct hit as [r|].
    + rewrite length_app. simpl.
      destruct (Z.leb_spec limit (Z.of_nat (length results + 1))) as [Hle | Hgt].
      * f_equal. replace (Z.to_nat limit) with (length results + 1)%nat by lia.
        match goal with |- _ = take _ (results ++ r :: ?later)%list =>
          change (results ++ r :: later)%list
            with (results ++ ([r] ++ later))%list
        end.
        rewrite app_assoc.
        rewrite take_app_length' by (rewrite length_app; simpl; lia).
        reflexivity.
      * rewrite IH by (rewrite length_app; simpl; lia).
        by rewrite <- app_assoc.
    + destruct (Z.leb_spec limit (Z.of_nat (length results))) as [Hle | Hgt]; [lia|].
      by apply IH.
Qed.

(** X11.  The limit is applied before the ranking.  When no read fails and
    [limit] is at least one, the search returns the results of the first
    [limit] conversations that have a match, in the order of the directory
    listing, and ranks those: a conversation that comes later in the
    listing is left out however many matches it has. *)
Theorem search_limit_precedes_ranking :
  forall (reading : string -> Env) (st : Store) (files : list string)
         (query : string) (limit : Z),
    (forall file, read_log_fails (reading file) = false) ->
    (1 <= limit)%Z ->
    searchConversations reading st (Ok files) query (Some limit)
    = Ok (sortByMatches
            (take (Z.to_nat limit)
                  (hits reading st query (conversationFiles files)))).
Proof.
  intros reading st files query limit Hread Hlimit.
  unfold searchConversations. simpl.
  rewrite searchLoop_takes by (done || simpl; lia). reflexivity.
Qed.

Lemma search_limit_precedes_ranking_witness :
  (fun r => (conversationId r, matches r))
    <$> hits (fun _ => Samples.env0) Scenarios.greetings "hello"
             (conversationFiles Scenarios.listing)
  = [("a", 1%nat); ("b", 1%nat); ("c", 3%nat)]
  /\ match searchConversations (fun _ => Samples.env0) Scenarios.greetings
             (Ok Scenarios.listing) "hello" (Some 2%Z) with
     | Ok rs => (fun r => (conversationId r, matches r)) <$> rs
     | Throw _ => []
     end
     = [("a", 1%nat); ("b", 1%nat)].
Proof.
  split; [reflexivity|].
  rewrite (search_limit_precedes_ranking (fun _ => Samples.env0) Scenarios.greetings
             Scenarios.listing "hello" 2 (fun _ => eq_refl) ltac:(lia)).
  reflexivity.
Defined.

Lemma includes_empty (hay : string) : includes EmptyString hay = true.
Proof. by destruct hay. Qed.

Lemma matching_empty_query (conversation : list Entry) :
  matching EmptyString conversation = conversation.
Proof.
  unfold matching. change (Server.toLowerCase EmptyString) with EmptyString.
  induction conversation as [|entry rest IH]; [reflexivity|].
  cbn [List.filter]. rewrite includes_empty. by rewrite IH.
Qed.

(** X12.  The empty query.  Every message contains the empty string: a
    search for it reports each conversation of the listing that has a log
    with at least one message, with [matches] equal to the length of the
    log and the first message as [preview]; a file of the listing without
    a log, or with an empty one, gives no result. *)
Theorem search_for_the_empty_query :
  forall (env : Env) (st : Store) (file : string),
    read_log_fails env = false ->
    examine env st EmptyString file
    = Ok match logOf st (removeFirst ".json" file) with
         | [] => None
         | first :: rest =>
             Some (mkSearchResult (removeFirst ".json" file) (S (length rest))
                     (substring_to 200 (msg_content (entry_message first)) ++ "..."))
         end.
Proof.
  intros env st file Hread. unfold examine.
  rewrite getConversation_reads by done. simpl.
  rewrite matching_empty_query. by destruct (logOf st (removeFirst ".json" file)).
Qed.

Lemma search_for_the_empty_query_witness :
  (fun r => (conversationId r, matches r))
    <$> hits (fun _ => Samples.env0) Scenarios.greetings EmptyString
             ["a.json"; "missing.json"; "b.json"; "c.json"]
  = [("a", 2%nat); ("b", 1%nat); ("c", 3%nat)]
  /\ examine Samples.env0 Scenarios.greetings EmptyString "missing.json" = Ok None.
Proof.
  split; [reflexivity|].
  exact (search_for_the_empty_query Samples.env0 Scenarios.greetings "missing.json"
           eq_refl).
Defined.

End SearchProperties.

(** ** Callback traces of the streaming adapters *)

Lemma disciplined_snoc (trace : list Callback) (final : Callback) :
  Forall (fun called => isChunk called = true) trace ->
  isChunk final = false ->
  disciplined (trace ++ [final]) = true.
Proof.
  intros Hchunks Hfinal.
  induction Hchunks as [|called rest Hcalled _ IH]; simpl.
  - by rewrite Hfinal.
  - rewrite Hcalled, IH. by destruct (rest ++ [final])%list.
Qed.

Lemma forAwait_chunks {S : Type} (body : S -> Value -> outcome (S * list Callback)) :
  (forall st chunk st' called,
     body st chunk = Ok (st', called) ->
     Forall (fun c => isChunk c = true) called) ->
  forall cs st, Forall (fun c => isChunk c = true) (fst (forAwait body st cs)).
Proof.
  intros Hbody. induction cs as [|chunk rest IH]; intros st; simpl; [constructor|].
  destruct (body st chunk) as [[st' called]|e] eqn:Hstep; [|constructor].
  specialize (IH st'). destruct (forAwait body st' rest) as [trace r]. simpl in *.
  apply Forall_app. split; [by eapply Hbody | exact IH].
Qed.

Lemma anthropic_onEvent_chunks st chunk st' called :
  AnthropicService.onEvent st chunk = Ok (st', called) ->
  Forall (fun c => isChunk c = true) called.
Proof.
  destruct st as [full u]. unfold AnthropicService.onEvent. intros H.
  run_outcome; injection H as <- <-; repeat constructor.
Qed.

Lemma openai_onEvent_chunks st chunk st' called :
  OpenAIService.onEvent st chunk = Ok (st', called) ->
  Forall (fun c => isChunk c = true) called.
Proof.
  destruct st as [full u]. unfold OpenAIService.onEvent. intros H.
  run_outcome; injection H as <- <-; repeat constructor.
Qed.

Lemma cohere_onEvent_chunks st chunk st' called :
  CohereStream.onEvent st chunk = Ok (st', called) ->
  Forall (fun c => isChunk c = true) called.
Proof.
  destruct st as [full u]. unfold CohereStream.onEvent. intros H.
  run_outcome; injection H as <- <-; repeat constructor.
Qed.

Lemma gemini_forAwaitText_chunks texts : forall full,
  Forall (fun c => isChunk c = true) (fst (GeminiStream.forAwaitText full texts)).
Proof.
  induction texts as [|[text|e] rest IH]; intros full; simpl; try constructor.
  specialize (IH (str_plus full text)).
  destruct (GeminiStream.forAwaitText (str_plus full text) rest) as [trace r].
  simpl in *. by constructor.
Qed.

Lemma anthropic_stream_disciplined (client : AnthropicService.Client) (req : Request) :
  disciplined (AnthropicService.streamResponse client req) = true.
Proof.
  unfold AnthropicService.streamResponse.
  destruct (AnthropicService.createStream client _) as [events|e]; [|reflexivity].
  pose proof (forAwait_chunks _ anthropic_onEvent_chunks (chunks events)
                (EmptyString, VNull)) as Hchunks.
  destruct (forAwait _ _ _) as [trace [[full u]|e]]; simpl in Hchunks;
    [destruct (failure events)|]; by apply disciplined_snoc.
Qed.

Lemma openai_stream_disciplined (client : OpenAIService.Client) (req : Request) :
  disciplined (OpenAIService.streamResponse client req) = true.
Proof.
  unfold OpenAIService.streamResponse.
  destruct (OpenAIService.createStream client _) as [events|e]; [|reflexivity].
  pose proof (forAwait_chunks _ openai_onEvent_chunks (chunks events)
                (EmptyString, VNull)) as Hchunks.
  destruct (forAwait _ _ _) as [trace [[full u]|e]]; simpl in Hchunks;
    [destruct (failure events)|]; by apply disciplined_snoc.
Qed.

Lemma cohere_stream_disciplined (client : CohereService.Client) (req : Request) :
  disciplined (CohereStream.streamResponse client req) = true.
Proof.
  unfold CohereStream.streamResponse.
  destruct (_ ≫= _) as [events|e]; [|reflexivity].
  pose proof (forAwait_chunks _ cohere_onEvent_chunks (chunks events)
                (EmptyString, VNull)) as Hchunks.
  destruct (forAwait _ _ _) as [trace [[full u]|e]]; simpl in Hchunks;
    [destruct (failure events)|]; by apply disciplined_snoc.
Qed.

Lemma gemini_stream_disciplined (client : GeminiStream.Client) (req : Request) :
  disciplined (GeminiStream.streamResponse client req) = true.
Proof.
  unfold GeminiStream.streamResponse.
  destruct (_ ≫= _) as [result|e]; [|reflexivity].
  pose proof (gemini_forAwaitText_chunks (GeminiStream.stream_texts result)
                EmptyString) as Hchunks.
  destruct (GeminiStream.forAwaitText _ _) as [trace [full|e]]; simpl in Hchunks;
    [destruct (GeminiStream.stream_failure result);
     [|destruct (GeminiStream.final_response result)]|];
    by apply disciplined_snoc.
Qed.

(** X13.  One terminal callback ends every stream of the four adapters
    that iterate over a vendor stream.  Whatever the vendor client does
    (refuses the call, yields events of any shape, fails in the middle),
    [streamResponse] of the Anthropic, OpenAI, Cohere and Gemini adapters
    calls [onChunk] any number of times and then calls exactly one of
    [onComplete] and [onError], once, as its last callback. *)
Theorem streams_end_with_one_terminal_callback :
  forall (anthropic : AnthropicService.Client) (openai : OpenAIService.Client)
         (cohere : CohereService.Client) (gemini : GeminiStream.Client)
         (req : Request),
    disciplined (AnthropicService.streamResponse anthropic req) = true
    /\ disciplined (OpenAIService.streamResponse openai req) = true
    /\ disciplined (CohereStream.streamResponse cohere req) = true
    /\ disciplined (GeminiStream.streamResponse gemini req) = true.
Proof.
  intros anthropic openai cohere gemini req.
  split; [apply anthropic_stream_disciplined|].
  split; [apply openai_stream_disciplined|].
  split; [apply cohere_stream_disciplined | apply gemini_stream_disciplined].
Qed.

Lemma completesWith_app (a b : list Callback) : forall full,
  completesWith full a ->
  completesWith (fold_left str_plus (deltas a) full) b ->
  completesWith full (a ++ b).
Proof.
  induction a as [|[v|c mdl u|e] a IH]; intros full Ha Hb; simpl in *.
  - exact Hb.
  - by apply IH.
  - destruct Ha as [-> Ha]. split; [reflexivity | by apply IH].
  - by apply IH.
Qed.

Lemma completesWith_chunks (trace : list Callback) : forall full,
  Forall (fun c => isChunk c = true) trace -> completesWith full trace.
Proof.
  induction trace as [|[v|c mdl u|e] rest IH]; intros full H; simpl;
    inversion H; subst; try discriminate; [exact I | by apply IH].
Qed.

Lemma cohere_accumulating : accumulating CohereStream.onEvent.
Proof.
  intros full u chunk full' u' called H. unfold CohereStream.onEvent in H.
  run_outcome; injection H as <- <- <-; by split.
Qed.

Lemma gemini_forAwaitText_accumulates texts : forall full trace full',
  GeminiStream.forAwaitText full texts = (trace, Ok full') ->
  full' = fold_left str_plus (deltas trace) full.
Proof.
  induction texts as [|[text|e] rest IH]; intros full trace full' H; simpl in H.
  - by injection H as <- <-.
  - destruct (GeminiStream.forAwaitText (str_plus full text) rest) as [trace' r] eqn:Hrest.
    injection H as <- ->. simpl. by eapply IH.
  - discriminate.
Qed.

(** The listener of the Mistral adapter keeps [fullContent] equal to what
    it has passed to [onChunk], across lines and across reads. *)
Lemma mistral_onPayload_accumulates st data st' called :
  MistralService.onPayload st data = Ok (st', called) ->
  Forall (fun c => isChunk c = true) called
  /\ fst st' = fold_left str_plus (deltas called) (fst st).
Proof.
  destruct st as [full u]. unfold MistralService.onPayload. intros H.
  run_outcome; injection H as <- <-; split; repeat constructor.
Qed.

Lemma mistral_onLines_accumulates mdl lines : forall st,
  completesWith (fst st) (snd (MistralService.onLines mdl st lines))
  /\ fst (fst (MistralService.onLines mdl st lines))
     = fold_left str_plus (deltas (snd (MistralService.onLines mdl st lines))) (fst st).
Proof.
  induction lines as [|line rest IH]; intros st; cbn [MistralService.onLines].
  - simpl. done.
  - destruct (startsWith "data: " line); [|apply IH].
    destruct (String.eqb (slice_from 6 line) "[DONE]"); [simpl; done|].
    destruct (MistralService.onPayload st (slice_from 6 line)) as [[st' called]|e]
      eqn:Hpayload; [|apply IH].
    apply mistral_onPayload_accumulates in Hpayload as [Hchunks Hfull].
    destruct (IH st') as [Hc Hf].
    destruct (MistralService.onLines mdl st' rest) as [st'' trace]. simpl in *.
    rewrite deltas_app, fold_left_app, <- Hfull. split; [|exact Hf].
    apply completesWith_app; [by apply completesWith_chunks|].
    by rewrite <- Hfull.
Qed.

Lemma mistral_onFeed_accumulates mdl feed : forall st,
  completesWith (fst st) (snd (MistralService.onFeed mdl st feed)).
Proof.
  induction feed as [|chunk rest IH]; intros st; simpl; [exact I|].
  unfold MistralService.onData.
  destruct (mistral_onLines_accumulates mdl
              (List.filter (fun line => negb (String.eqb (trim line) EmptyString))
                           (split (ascii_of_nat 10) chunk)) st) as [Hc Hf].
  destruct (MistralService.onLines mdl st _) as [st' called]. simpl in *.
  specialize (IH st').
  destruct (MistralService.onFeed mdl st' rest) as [st'' trace]. simpl in *.
  apply completesWith_app; [exact Hc|]. by rewrite <- Hf.
Qed.

(** X14.  What a completion carries is what was streamed.  In every stream
    of the Cohere, Gemini and Mistral adapters, each call of [onComplete]
    is given as [content] exactly the concatenation, in order of arrival,
    of the payloads passed to [onChunk] before it; this holds for each
    completion of a Mistral stream, which can complete more than once. *)
Theorem completion_is_what_was_streamed :
  forall (cohere : CohereService.Client) (gemini : GeminiStream.Client)
         (mistral : MistralService.Client) (req : Request),
    completesWith EmptyString (CohereStream.streamResponse cohere req)
    /\ completesWith EmptyString (GeminiStream.streamResponse gemini req)
    /\ completesWith EmptyString (MistralService.streamResponse mistral req).
Proof.
  intros cohere gemini mistral req. repeat split.
  - unfold CohereStream.streamResponse.
    destruct (_ ≫= _) as [events|e]; [|exact I].
    pose proof (forAwait_chunks _ cohere_onEvent_chunks (chunks events)
                  (EmptyString, VNull)) as Hchunks.
    destruct (forAwait _ _ _) as [trace [[full u]|e]] eqn:Hloop; simpl in Hchunks.
    + destruct (forAwait_accumulates _ cohere_accumulating _ _ _ _ _ Hloop)
        as [_ Hacc].
      destruct (failure events);
        (apply completesWith_app; [by apply completesWith_chunks|]);
        simpl; [exact I|].
      split; [by eapply Hacc | exact I].
    + apply completesWith_app; [by apply completesWith_chunks | exact I].
  - unfold GeminiStream.streamResponse.
    destruct (_ ≫= _) as [result|e]; [|exact I].
    pose proof (gemini_forAwaitText_chunks (GeminiStream.stream_texts result)
                  EmptyString) as Hchunks.
    destruct (GeminiStream.forAwaitText _ _) as [trace [full|e]] eqn:Hloop;
      simpl in Hchunks.
    + apply gemini_forAwaitText_accumulates in Hloop.
      destruct (GeminiStream.stream_failure result);
        [|destruct (GeminiStream.final_response result)];
        (apply completesWith_app; [by apply completesWith_chunks|]); simpl; try exact I.
      by split.
    + apply completesWith_app; [by apply completesWith_chunks | exact I].
  - unfold MistralService.streamResponse.
    destruct (MistralService.postStream mistral _) as [feed|e]; [|exact I].
    pose proof (mistral_onFeed_accumulates
                  (orDefault (req_model req) MistralService.defaultModel)
                  (MistralService.reads feed) (EmptyString, VNull)) as Hfeed.
    destruct (MistralService.onFeed _ _ _) as [st trace]. simpl in Hfeed.
    destruct (MistralService.feed_error feed); [|exact Hfeed].
    apply completesWith_app; [exact Hfeed | exact I].
Qed.

Lemma errors_app (a b : list Callback) : errors (a ++ b) = (errors a ++ errors b)%list.
Proof.
  induction a as [|[v|c mdl u|e] a IH]; simpl; [reflexivity | exact IH | exact IH |].
  by rewrite IH.
Qed.

Lemma chunks_are_not_terminal (trace : list Callback) :
  Forall (fun c => isChunk c = true) trace ->
  completions trace = [] /\ errors trace = [].
Proof.
  induction 1 as [|[v|c mdl u|e] rest Hc _ IH]; simpl; try discriminate; done.
Qed.

Lemma substring_slice_from (n : nat) : forall s : string,
  s = String.substring 0 n s ++ slice_from n s.
Proof.
  induction n as [|n IH]; intros [|c s]; simpl; try reflexivity.
  f_equal. apply IH.
Qed.

Lemma sentinel_line (line : string) :
  startsWith "data: " line = true ->
  String.eqb (slice_from 6 line) "[DONE]" = true ->
  line = "data: [DONE]".
Proof.
  unfold startsWith. intros Hprefix Hdone.
  apply String.eqb_eq in Hdone. apply prefix_correct in Hprefix.
  rewrite (substring_slice_from 6 line). simpl String.length in Hprefix.
  by rewrite Hprefix, Hdone.
Qed.

Lemma mistral_onLines_without_sentinel mdl lines : forall st,
  Forall (fun line => line <> "data: [DONE]") lines ->
  completions (snd (MistralService.onLines mdl st lines)) = []
  /\ errors (snd (MistralService.onLines mdl st lines)) = [].
Proof.
  induction lines as [|line rest IH]; intros st Hlines;
    cbn [MistralService.onLines]; [done|].
  inversion Hlines as [|? ? Hline Hrest]; subst.
  destruct (startsWith "data: " line) eqn:Hprefix; [|by apply IH].
  destruct (String.eqb (slice_from 6 line) "[DONE]") eqn:Hdone.
  { exfalso. apply Hline. by apply sentinel_line. }
  destruct (MistralService.onPayload st (slice_from 6 line)) as [[st' called]|e]
    eqn:Hpayload; [|by apply IH].
  apply mistral_onPayload_accumulates in Hpayload as [Hchunks _].
  apply chunks_are_not_terminal in Hchunks as [Hc He].
  destruct (IH st' Hrest) as [Hc' He'].
  destruct (MistralService.onLines mdl st' rest) as [st'' trace]. simpl in *.
  by rewrite completions_app, errors_app, Hc, He, Hc', He'.
Qed.

Lemma mistral_onFeed_without_sentinel mdl feed : forall st,
  Forall (fun chunk =>
            Forall (fun line => line <> "data: [DONE]") (split (ascii_of_nat 10) chunk))
         feed ->
  completions (snd (MistralService.onFeed mdl st feed)) = []
  /\ errors (snd (MistralService.onFeed mdl st feed)) = [].
Proof.
  induction feed as [|chunk rest IH]; intros st Hfeed; simpl; [done|].
  inversion Hfeed as [|? ? Hchunk Hrest]; subst.
  unfold MistralService.onData.
  assert (Hkept : Forall (fun line => line <> "data: [DONE]")
                    (List.filter (fun line => negb (String.eqb (trim line) EmptyString))
                                 (split (ascii_of_nat 10) chunk))).
  { clear -Hchunk. induction Hchunk as [|line lines Hline _ IH]; simpl; [constructor|].
    destruct (negb _); [by constructor | exact IH]. }
  destruct (mistral_onLines_without_sentinel mdl _ st Hkept) as [Hc He].
  destruct (MistralService.onLines mdl st _) as [st' called]. simpl in *.
  destruct (IH st' Hrest) as [Hc' He'].
  destruct (MistralService.onFeed mdl st' rest) as [st'' trace]. simpl in *.
  by rewrite completions_app, errors_app, Hc, He, Hc', He'.
Qed.

(** X15.  A Mistral stream completes on the sentinel line only.  When no
    line of any read of the feed is exactly [data: [DONE]] (the connection
    closed early, or the lines end in CR LF), [onComplete] is never called;
    and unless the feed reports an error, [onError] is not called either:
    the caller receives the deltas and is never told that the stream is
    over. *)
Theorem mistral_completes_only_on_the_sentinel :
  forall (client : MistralService.Client) (req : Request) (feed : MistralService.Feed),
    MistralService.postStream client (MistralService.streamParams req) = Ok feed ->
    Forall (fun chunk =>
              Forall (fun line => line <> "data: [DONE]")
                     (split (ascii_of_nat 10) chunk))
           (MistralService.reads feed) ->
    completions (MistralService.streamResponse client req) = []
    /\ (MistralService.feed_error feed = None ->
        errors (MistralService.streamResponse client req) = []
        /\ disciplined (MistralService.streamResponse client req) = false).
Proof.
  intros client req feed Hpost Hfeed.
  unfold MistralService.streamResponse. rewrite Hpost.
  destruct (mistral_onFeed_without_sentinel
              (orDefault (req_model req) MistralService.defaultModel)
              (MistralService.reads feed) (EmptyString, VNull) Hfeed) as [Hc He].
  destruct (MistralService.onFeed _ _ _) as [st trace]. simpl in *.
  split.
  - destruct (MistralService.feed_error feed); [|exact Hc].
    by rewrite completions_app, Hc.
  - intros ->. split; [exact He|].
    clear -Hc He. induction trace as [|[v|c mdl u|e] rest IH]; simpl in *;
      try discriminate; [reflexivity|].
    rewrite (IH Hc He). by destruct rest.
Qed.

Lemma mistral_completes_only_on_the_sentinel_witness :
  MistralService.streamResponse Scenarios.mistralCrLf Samples.plainRequest
  = [OnChunk (VStr "Hello")]
  /\ completions (MistralService.streamResponse Scenarios.mistralCrLf
                    Samples.plainRequest) = []
  /\ disciplined (MistralService.streamResponse Scenarios.mistralCrLf
                    Samples.plainRequest) = false.
Proof.
  destruct (mistral_completes_only_on_the_sentinel Scenarios.mistralCrLf
              Samples.plainRequest _ eq_refl
              ltac:(repeat constructor; discriminate)) as [Hnone Hrest].
  split; [reflexivity|]. split; [exact Hnone|].
  exact (proj2 (Hrest eq_refl)).
Defined.

(** ** What the adapters send *)

Lemma slice_init_snoc {A : Type} (xs : list A) (x : A) :
  CohereService.slice_init (xs ++ [x]) = xs.
Proof.
  unfold CohereService.slice_init. rewrite length_app. simpl.
  replace (length xs + 1 - 1)%nat with (length xs) by lia.
  by rewrite take_app_length.
Qed.

Lemma nonempty_snoc {A : Type} (xs : list A) :
  xs <> [] -> exists front final, xs = (front ++ [final])%list.
Proof.
  intros Hne. destruct (list.last xs) as [final|] eqn:Hlast.
  - apply last_Some in Hlast as [front ->]. by exists front, final.
  - apply last_None in Hlast. contradiction.
Qed.

Lemma gemini_formatMessages_snoc (front : list Message) (final : Message)
    (systemPrompt : option string) :
  GeminiService.formatMessages (front ++ [final]) systemPrompt
  = (GeminiService.formatMessages front systemPrompt
     ++ [mkTurn (if String.eqb (msg_role final) "assistant" then "model" else "user")
                (msg_content final)])%list.
Proof.
  unfold GeminiService.formatMessages. rewrite map_app. simpl.
  by destruct (hasSystemPrompt systemPrompt).
Qed.

(** X16.  Every adapter hands the whole conversation to its vendor, in
    order.  The texts of the turns sent by [generateResponse] are the
    contents of the messages, in their order: for OpenAI and Mistral after
    the system prompt, if it is not empty; for Anthropic without the
    messages of role [system], which are dropped, the turns having no other
    role than [user] and [assistant] and the [system] parameter being the
    prompt of the request alone; for Cohere and Gemini, on a conversation
    that is not empty, split between the history and the message sent,
    Gemini putting the system prompt and an acknowledgement of its own in
    front. *)
Theorem adapters_send_the_conversation_in_order :
  forall req : Request,
    let contents := List.map msg_content (req_messages req) in
    let prompt :=
      match hasSystemPrompt (req_systemPrompt req) with
      | Some s => [s]
      | None => []
      end in
    List.map turn_content (OpenAIService.messages (OpenAIService.generateParams req))
    = (prompt ++ contents)%list
    /\ List.map turn_content
         (MistralService.messages (MistralService.generateParams req))
       = (prompt ++ contents)%list
    /\ (List.map turn_content
          (AnthropicService.messages (AnthropicService.generateParams req))
        = List.map msg_content
            (List.filter (fun msg => negb (String.eqb (msg_role msg) "system"))
                         (req_messages req))
        /\ Forall (fun turn => turn_role turn = "user" \/ turn_role turn = "assistant")
                  (AnthropicService.messages (AnthropicService.generateParams req))
        /\ AnthropicService.system (AnthropicService.generateParams req)
           = req_systemPrompt req)
    /\ (req_messages req <> [] ->
        (exists p, CohereService.generateParams req = Ok p
           /\ (List.map CohereService.message_text (CohereService.chatHistory p)
               ++ [CohereService.message p])%list = contents
           /\ CohereService.preamble p = req_systemPrompt req)
        /\ (exists p, GeminiService.generateParams req = Ok p
           /\ (List.map turn_content (GeminiService.history p)
               ++ [GeminiService.text p])%list
              = (match hasSystemPrompt (req_systemPrompt req) with
                 | Some s => [s; "I understand."]
                 | None => []
                 end ++ contents)%list)).
Proof.
  intros req contents prompt. unfold contents, prompt.
  destruct req as [msgs mdl sp temp cap]. simpl.
  split.
  { unfold OpenAIService.formatMessages.
    destruct (hasSystemPrompt sp); simpl; by rewrite map_map. }
  split.
  { unfold MistralService.formatMessages.
    destruct (hasSystemPrompt sp); simpl; by rewrite map_map. }
  split.
  { unfold AnthropicService.formatMessages. split; [by rewrite map_map|].
    split; [|reflexivity].
    apply Forall_map. apply Forall_forall. intros msg _. simpl.
    destruct (String.eqb (msg_role msg) "assistant"); auto. }
  intros Hne. destruct (nonempty_snoc msgs Hne) as (front & final & ->).
  split.
  - unfold CohereService.generateParams, CohereService.paramsWith,
      CohereService.currentMessage. simpl.
    rewrite last_snoc. simpl. eexists. split; [reflexivity|]. simpl.
    rewrite slice_init_snoc. unfold CohereService.formatMessages.
    rewrite map_map, map_app. simpl. done.
  - unfold GeminiService.generateParams, GeminiService.lastText.
    cbn [req_messages req_systemPrompt req_model req_temperature req_maxTokens].
    rewrite gemini_formatMessages_snoc, last_snoc.
    eexists. split; [reflexivity|].
    cbn [GeminiService.history GeminiService.text].
    rewrite slice_init_snoc. unfold GeminiService.formatMessages.
    destruct (hasSystemPrompt sp) as [s|]; simpl; rewrite map_map, map_app; done.
Qed.

Lemma adapters_send_the_conversation_in_order_witness :
  (exists p, CohereService.generateParams Samples.plainRequest = Ok p
     /\ (List.map CohereService.message_text (CohereService.chatHistory p)
         ++ [CohereService.message p])%list = ["Hello there, friend"]
     /\ CohereService.preamble p = Some "Be brief.")
  /\ (exists p, GeminiService.generateParams Samples.plainRequest = Ok p
     /\ (List.map turn_content (GeminiService.history p) ++ [GeminiService.text p])%list
        = ["Be brief."; "I understand."; "Hello there, friend"]).
Proof.
  exact (proj2 (proj2 (proj2 (adapters_send_the_conversation_in_order
                                Samples.plainRequest)))
               ltac:(discriminate)).
Defined.

(** X17.  An empty conversation.  Cohere's [generateResponse] and
    [streamResponse] fail on it before any vendor call, whatever the
    client; so does Gemini's [generateResponse] when there is no system
    prompt.  With a system prompt, Gemini sends the acknowledgement it
    made up itself, [I understand.], as the message of the user, with the
    prompt as only history. *)
Theorem empty_conversation_at_cohere_and_gemini :
  forall (cohere : CohereService.Client) (gemini : GeminiService.Client)
         (req : Request),
    req_messages req = [] ->
    CohereService.generateResponse cohere req
    = Throw "Cohere API error: Cannot read properties of undefined (reading 'content')"
    /\ CohereStream.streamResponse cohere req
       = [OnError "Cannot read properties of undefined (reading 'content')"]
    /\ match hasSystemPrompt (req_systemPrompt req) with
       | None =>
           GeminiService.generateResponse gemini req
           = Throw "Gemini API error: Cannot read properties of undefined (reading 'parts')"
       | Some s =>
           exists p, GeminiService.generateParams req = Ok p
             /\ GeminiService.text p = "I understand."
             /\ GeminiService.history p = [mkTurn "user" s]
       end.
Proof.
  intros cohere gemini [msgs mdl sp temp cap] Hempty. simpl in Hempty. subst msgs.
  split; [reflexivity|]. split; [reflexivity|]. simpl.
  destruct (hasSystemPrompt sp) as [s|] eqn:Hsp.
  - unfold GeminiService.generateParams, GeminiService.formatMessages. simpl.
    rewrite Hsp. simpl. eexists. split; [reflexivity|]. by split.
  - unfold GeminiService.generateResponse, GeminiService.generateParams,
      GeminiService.formatMessages. simpl. by rewrite Hsp.
Qed.

Lemma empty_conversation_at_cohere_and_gemini_witness :
  exists p,
    GeminiService.generateParams (mkRequest [] None (Some "Be brief.") None None) = Ok p
    /\ GeminiService.text p = "I understand."
    /\ GeminiService.history p = [mkTurn "user" "Be brief."].
Proof.
  exact (proj2 (proj2 (empty_conversation_at_cohere_and_gemini
                         (CohereService.mkClient (fun _ => Throw "unused")
                                                 (fun _ => Throw "unused"))
                         (GeminiService.mkClient (fun _ => Throw "unused"))
                         (mkRequest [] None (Some "Be brief.") None None) eq_refl))).
Defined.

(** X18.  A vendor answer without choices.  [generateResponse] of the
    OpenAI and Mistral adapters fails on a response whose [choices] is
    empty, as Anthropic's does on one whose [content] is empty, with the
    [TypeError] of the property read wrapped in the adapter's error; the
    streaming loops of OpenAI and Mistral, which read the same field with
    optional chaining, pass over such an event without a callback and
    without a change of state. *)
Theorem answer_without_choices :
  forall (response : Value),
    (own response "content" = VArr [] ->
     forall (client : AnthropicService.Client) (req : Request),
       AnthropicService.create client (AnthropicService.generateParams req)
       = Ok response ->
       AnthropicService.generateResponse client req
       = Throw "Anthropic API error: Cannot read properties of undefined (reading 'text')")
    /\ (own response "choices" = VArr [] ->
        (forall (client : OpenAIService.Client) (req : Request),
           OpenAIService.create client (OpenAIService.generateParams req)
           = Ok response ->
           OpenAIService.generateResponse client req
           = Throw "OpenAI API error: Cannot read properties of undefined (reading 'message')")
        /\ (forall (client : MistralService.Client) (req : Request),
           MistralService.post client (MistralService.generateParams req)
           = Ok response ->
           MistralService.generateResponse client req
           = Throw "Mistral API error: Cannot read properties of undefined (reading 'message')")
        /\ (forall st, OpenAIService.onEvent st response = Ok (st, []))
        /\ (forall st data,
              JSON.parse data = Ok response ->
              own response "usage" = VUndefined ->
              MistralService.onPayload st data = Ok (st, []))).
Proof.
  intros response. split.
  - intros Hcontent client req Hcreate.
    unfold AnthropicService.generateResponse. rewrite Hcreate.
    unfold AnthropicService.translate. simpl.
    destruct response; simpl in *; try discriminate; by rewrite Hcontent.
  - intros Hchoices. repeat split.
    + intros client req Hcreate. unfold OpenAIService.generateResponse.
      rewrite Hcreate. unfold OpenAIService.translate. simpl.
      destruct response; simpl in *; try discriminate; by rewrite Hchoices.
    + intros client req Hpost. unfold MistralService.generateResponse.
      rewrite Hpost. unfold MistralService.translate. simpl.
      destruct response; simpl in *; try discriminate; by rewrite Hchoices.
    + intros [full u]. unfold OpenAIService.onEvent. simpl.
      destruct response; simpl in *; try discriminate; by rewrite Hchoices.
    + intros [full u] data Hparse Husage. unfold MistralService.onPayload.
      rewrite Hparse. simpl.
      destruct response; simpl in *; try discriminate;
        by rewrite Hchoices, ?Husage.
Qed.

Lemma answer_without_choices_witness :
  OpenAIService.generateResponse
    (OpenAIService.mkClient
       (fun _ => Ok (VObj [("model", VStr "gpt-4"); ("choices", VArr [])]))
       (fun _ => Throw "unused"))
    Samples.plainRequest
  = Throw "OpenAI API error: Cannot read properties of undefined (reading 'message')"
  /\ OpenAIService.onEvent
       ("Hel", VNull) (VObj [("model", VStr "gpt-4"); ("choices", VArr [])])
     = Ok (("Hel", VNull), []).
Proof.
  destruct (proj2 (answer_without_choices
                     (VObj [("model", VStr "gpt-4"); ("choices", VArr [])]))
                  eq_refl) as (Hgenerate & _ & Hstream & _).
  split.
  - exact (Hgenerate (OpenAIService.mkClient
                        (fun _ => Ok (VObj [("model", VStr "gpt-4");
                                            ("choices", VArr [])]))
                        (fun _ => Throw "unused"))
                     Samples.plainRequest eq_refl).
  - exact (Hstream ("Hel", VNull)).
Defined.

(** ** Validation of a chat request *)

Lemma rev_app_append (s acc : string) :
  String.rev_app s acc = String.rev s ++ acc.
Proof.
  unfold String.rev. revert acc.
  induction s as [|c s IH]; intros acc; simpl; [reflexivity|].
  rewrite IH, (IH (String c EmptyString)), string_app_assoc. reflexivity.
Qed.

Lemma rev_cons (c : ascii) (s : string) :
  String.rev (String c s) = String.rev s ++ String c EmptyString.
Proof. unfold String.rev at 1. simpl. apply rev_app_append. Qed.

Lemma rev_append (a b : string) :
  String.rev (a ++ b) = String.rev b ++ String.rev a.
Proof.
  induction a as [|c a IH]; simpl.
  - by rewrite string_app_empty_r.
  - by rewrite !rev_cons, IH, string_app_assoc.
Qed.

Lemma rev_involutive (s : string) : String.rev (String.rev s) = s.
Proof.
  induction s as [|c s IH]; [reflexivity|].
  by rewrite rev_cons, rev_append, IH.
Qed.

Lemma length_append (a b : string) :
  String.length (a ++ b) = (String.length a + String.length b)%nat.
Proof. induction a as [|c a IH]; simpl; [reflexivity | by rewrite IH]. Qed.

Lemma length_rev (s : string) : String.length (String.rev s) = String.length s.
Proof.
  induction s as [|c s IH]; [reflexivity|].
  rewrite rev_cons, length_append, IH. simpl. lia.
Qed.

Lemma length_trimStart (s : string) :
  (String.length (trimStart s) <= String.length s)%nat.
Proof.
  induction s as [|c s IH]; simpl; [lia|].
  destruct (is_space c); simpl; lia.
Qed.

Lemma length_trim (s : string) : (String.length (trim s) <= String.length s)%nat.
Proof.
  unfold trim, trimEnd. rewrite length_rev.
  etransitivity; [apply length_trimStart|].
  rewrite length_rev. apply length_trimStart.
Qed.

Lemma trimStart_idempotent (s : string) : trimStart (trimStart s) = trimStart s.
Proof.
  induction s as [|c s IH]; simpl; [reflexivity|].
  destruct (is_space c) eqn:Hc; [exact IH|]. simpl. by rewrite Hc.
Qed.

(** [trimStart] stops at the first character that is not white space. *)
Lemma trimStart_before (u v : string) (c : ascii) :
  is_space c = false ->
  trimStart (u ++ String c v) = trimStart u ++ String c v.
Proof.
  intros Hc. induction u as [|a u IH]; simpl.
  - by rewrite Hc.
  - destruct (is_space a); [exact IH | reflexivity].
Qed.

Lemma trimEnd_idempotent (s : string) : trimEnd (trimEnd s) = trimEnd s.
Proof. unfold trimEnd. by rewrite rev_involutive, trimStart_idempotent. Qed.

(** The end of a string is trimmed without touching its start, once the
    start is trimmed. *)
Lemma trimStart_trimEnd (s : string) :
  trimStart (trimEnd (trimStart s)) = trimEnd (trimStart s).
Proof.
  destruct (trimStart s) as [|c t] eqn:Ht; [reflexivity|].
  assert (Hc : is_space c = false).
  { clear -Ht. induction s as [|a s IH]; simpl in Ht; [discriminate|].
    destruct (is_space a) eqn:Ha; [by apply IH|]. by injection Ht as <- _. }
  unfold trimEnd. rewrite rev_cons, trimStart_before by done.
  rewrite rev_append. simpl. by rewrite Hc.
Qed.

Lemma trim_idempotent (s : string) : trim (trim s) = trim s.
Proof.
  unfold trim. by rewrite trimStart_trimEnd, trimEnd_idempotent.
Qed.

Section ValidationProperties.
Import Validation.
Variable parseFloat : Value -> option (Z * Z).
Variable parseInt : Value -> option Z.

Lemma andThen_Next v k body' :
  andThen v k = Next body' -> exists body, v = Next body /\ k body = Next body'.
Proof. destruct v as [body| |]; simpl; [eauto | discriminate | discriminate]. Qed.

Lemma checkMessage_Next body b :
  checkMessage body = Next b ->
  b = body
  /\ exists s, message body = VStr s /\ trim s <> EmptyString
       /\ (Z.of_nat (String.length s) <= 10000)%Z.
Proof.
  unfold checkMessage. intros H.
  destruct (message body) as [| | | | |s| |]; try discriminate.
  destruct (String.eqb s EmptyString); [discriminate|].
  destruct (Nat.eqb_spec (String.length (trim s)) 0) as [|Hlen]; [discriminate|].
  destruct (Z.ltb_spec 10000 (Z.of_nat (String.length s))); [discriminate|].
  injection H as <-. split; [reflexivity|]. exists s.
  split; [reflexivity|]. split; [|lia].
  intros Hempty. apply Hlen. by rewrite Hempty.
Qed.

Lemma checkProvider_Next body b :
  checkProvider body = Next b ->
  b = body
  /\ (truthy (provider body) = true ->
      exists name, provider body = VStr name
        /\ listed providerNames (Server.toLowerCase name) = true).
Proof.
  unfold checkProvider. intros H.
  destruct (truthy (provider body)) eqn:Ht.
  - destruct (provider body) as [| | | | |name| |]; try discriminate.
    destruct (listed providerNames (Server.toLowerCase name)) eqn:Hl; [|discriminate].
    injection H as <-. split; [reflexivity|]. intros _. by exists name.
  - injection H as <-. split; [reflexivity | discriminate].
Qed.

Lemma checkTemperature_Next body b :
  checkTemperature parseFloat body = Next b ->
  message b = message body /\ provider b = provider body
  /\ maxTokens b = maxTokens body /\ conversationId b = conversationId body
  /\ systemPrompt b = systemPrompt body
  /\ (temperature body = VUndefined /\ temperature b = VUndefined
      \/ temperature body <> VUndefined
         /\ exists m e, parseFloat (temperature body) = Some (m, e)
              /\ temperature b = mkNum m e
              /\ num_ltb m e 0 0 = false /\ num_ltb 2 0 m e = false).
Proof.
  unfold checkTemperature. intros H.
  destruct (temperature body) as [| |flag|m0 e0| |s|items|fields] eqn:Ht;
    try (injection H as <-; repeat split; left; by split);
    (destruct (parseFloat _) as [[m e]|] eqn:Hp; [|discriminate];
     destruct (num_ltb m e 0 0) eqn:H0; [discriminate|];
     destruct (num_ltb 2 0 m e) eqn:H2; [discriminate|];
     injection H as <-; simpl; repeat split; right;
     (split; [discriminate|]);
     exists m, e; by repeat split).
Qed.

Lemma checkMaxTokens_Next body b :
  checkMaxTokens parseInt body = Next b ->
  message b = message body /\ provider b = provider body
  /\ temperature b = temperature body /\ conversationId b = conversationId body
  /\ systemPrompt b = systemPrompt body
  /\ (maxTokens body = VUndefined /\ maxTokens b = VUndefined
      \/ maxTokens body <> VUndefined
         /\ exists tokens, parseInt (maxTokens body) = Some tokens
              /\ maxTokens b = VInt tokens /\ (1 <= tokens <= 4000)%Z).
Proof.
  unfold checkMaxTokens. intros H.
  destruct (maxTokens body) as [| |flag|m0 e0| |s|items|fields] eqn:Ht;
    try (injection H as <-; repeat split; left; by split);
    (destruct (parseInt _) as [tokens|] eqn:Hp; [|discriminate];
     destruct (Z.ltb_spec tokens 1); [discriminate|];
     destruct (Z.ltb_spec 4000 tokens); [discriminate|];
     injection H as <-; simpl; repeat split; right;
     (split; [discriminate|]);
     exists tokens; repeat split; (done || lia)).
Qed.

Lemma checkConversationId_Next body b :
  checkConversationId body = Next b ->
  b = body
  /\ (truthy (conversationId body) = true -> exists id, conversationId body = VStr id).
Proof.
  unfold checkConversationId. intros H.
  destruct (conversationId body) as [| |flag|m e| |id|items|fields] eqn:Hc;
    simpl in H; try discriminate;
    try (injection H as <-; split; [reflexivity|]; simpl; try discriminate; eauto).
  - destruct flag; [discriminate|]. injection H as <-. split; [reflexivity|]. discriminate.
  - destruct (negb (m =? 0)%Z) eqn:Hm; [discriminate|].
    injection H as <-. split; [reflexivity|]. simpl. by rewrite Hm.
Qed.

Lemma sanitize_Next body b :
  sanitize body = Next b ->
  provider b = provider body /\ temperature b = temperature body
  /\ maxTokens b = maxTokens body /\ conversationId b = conversationId body
  /\ (forall s, message body = VStr s -> message b = VStr (trim s))
  /\ (truthy (systemPrompt body) = false -> systemPrompt b = systemPrompt body)
  /\ (truthy (systemPrompt body) = true ->
      exists s, systemPrompt body = VStr s /\ systemPrompt b = VStr (trim s)).
Proof.
  unfold sanitize. intros H.
  destruct (truthy (systemPrompt body)) eqn:Ht.
  - destruct (systemPrompt body) as [| | | | |s| |]; try discriminate.
    injection H as <-. simpl. repeat split; try discriminate.
    + intros s0 ->. reflexivity.
    + intros _. by exists s.
  - injection H as <-. simpl. repeat split; try discriminate.
    intros s0 ->. reflexivity.
Qed.

(** The chain of checks a request that is handed on went through. *)
Lemma validate_steps body body' :
  validateChatRequest parseFloat parseInt body = Next body' ->
  exists b1 b2,
    checkMessage body = Next body
    /\ checkProvider body = Next body
    /\ checkTemperature parseFloat body = Next b1
    /\ checkMaxTokens parseInt b1 = Next b2
    /\ checkConversationId b2 = Next b2
    /\ sanitize b2 = Next body'.
Proof.
  unfold validateChatRequest. intros H.
  apply andThen_Next in H as (b0 & Hm & H).
  destruct (checkMessage_Next _ _ Hm) as [-> _].
  apply andThen_Next in H as (b0 & Hp & H).
  destruct (checkProvider_Next _ _ Hp) as [-> _].
  apply andThen_Next in H as (b1 & Ht & H).
  apply andThen_Next in H as (b2 & Hk & H).
  apply andThen_Next in H as (b3 & Hc & H).
  destruct (checkConversationId_Next _ _ Hc) as [-> _].
  exists b1, b2. done.
Qed.

(** X19.  The message of a request that passes [validateChatRequest].  It
    was a string of at most 10000 characters; the handler receives it
    trimmed: a text that is not empty, has no white space left at either
    end (trimming it again changes nothing) and is no longer than the
    original. *)
Theorem validated_message_is_trimmed_text :
  forall (body body' : RawBody),
    validateChatRequest parseFloat parseInt body = Next body' ->
    exists s,
      message body = VStr s
      /\ message body' = VStr (trim s)
      /\ trim s <> EmptyString
      /\ trim (trim s) = trim s
      /\ (String.length (trim s) <= String.length s)%nat
      /\ (Z.of_nat (String.length s) <= 10000)%Z.
Proof.
  intros body body' H.
  destruct (validate_steps _ _ H) as (b1 & b2 & Hm & _ & Ht & Hk & _ & Hs).
  destruct (checkMessage_Next _ _ Hm) as (_ & s & Hs0 & Hne & Hlen).
  destruct (checkTemperature_Next _ _ Ht) as (Hm1 & _).
  destruct (checkMaxTokens_Next _ _ Hk) as (Hm2 & _).
  destruct (sanitize_Next _ _ Hs) as (_ & _ & _ & _ & Htrim & _).
  exists s. split; [exact Hs0|].
  split; [apply Htrim; congruence|].
  split; [exact Hne|]. split; [apply trim_idempotent|].
  split; [apply length_trim | exact Hlen].
Qed.

(** X20.  The numbers of a request that passes [validateChatRequest].  A
    [temperature] that was given is replaced by the number [parseFloat]
    read from it, which lies between 0 and 2; a [maxTokens] that was given
    is replaced by the integer [parseInt] read from it, which lies between
    1 and 4000; a field that was left out stays left out. *)
Theorem validated_numbers_are_in_range :
  forall (body body' : RawBody),
    validateChatRequest parseFloat parseInt body = Next body' ->
    (temperature body = VUndefined /\ temperature body' = VUndefined
     \/ temperature body <> VUndefined
        /\ exists m e, parseFloat (temperature body) = Some (m, e)
             /\ temperature body' = mkNum m e
             /\ (0 <= m)%Z
             /\ (m * 10 ^ (e - Z.min e 0) <= 2 * 10 ^ (- Z.min e 0))%Z)
    /\ (maxTokens body = VUndefined /\ maxTokens body' = VUndefined
        \/ maxTokens body <> VUndefined
           /\ exists tokens, parseInt (maxTokens body) = Some tokens
                /\ maxTokens body' = VInt tokens /\ (1 <= tokens <= 4000)%Z).
Proof.
  intros body body' H.
  destruct (validate_steps _ _ H) as (b1 & b2 & _ & _ & Ht & Hk & _ & Hs).
  destruct (checkTemperature_Next _ _ Ht) as (_ & _ & Hk1 & _ & _ & Htemp).
  destruct (checkMaxTokens_Next _ _ Hk) as (_ & _ & Ht2 & _ & _ & Htok).
  destruct (sanitize_Next _ _ Hs) as (_ & Ht3 & Hk3 & _).
  rewrite Ht3, Ht2, Hk3. rewrite Hk1 in Htok.
  split; [|exact Htok].
  destruct Htemp as [Hnone | (Hsome & m & e & Hp & Hv & H0 & H2)]; [by left|].
  right. split; [exact Hsome|]. exists m, e.
  split; [exact Hp|]. split; [exact Hv|].
  unfold num_ltb in H0, H2.
  apply Z.ltb_ge in H0, H2.
  replace (0 - Z.min e 0)%Z with (- Z.min e 0)%Z in * by lia.
  rewrite Z.min_comm in H2.
  split; [|exact H2].
  assert (0 < 10 ^ (e - Z.min e 0))%Z by (apply Z.pow_pos_nonneg; lia).
  rewrite Z.mul_0_l in H0. nia.
Qed.

(** X21.  The provider of a request, between the middleware and the chat
    handler.  A provider that passes [validateChatRequest] and is not
    falsy is a string which the [switch] of the chat handler has a case
    for, whatever its letter case.  A provider that is not falsy and not a
    string (a number, [true], an array, an object) is not answered with
    status 400: the middleware throws on [provider.toLowerCase]. *)
Theorem validated_provider_is_served :
  forall (body : RawBody),
    (forall body',
       validateChatRequest parseFloat parseInt body = Next body' ->
       truthy (provider body) = true ->
       exists name service,
         provider body' = VStr name /\ Server.selectService name = Some service)
    /\ (checkMessage body = Next body ->
        truthy (provider body) = true ->
        (forall name, provider body <> VStr name) ->
        validateChatRequest parseFloat parseInt body
        = Raised "provider.toLowerCase is not a function").
Proof.
  intros body. split.
  - intros body' H Htruthy.
    destruct (validate_steps _ _ H) as (b1 & b2 & _ & Hp & Ht & Hk & _ & Hs).
    destruct (checkProvider_Next _ _ Hp) as (_ & Hname).
    destruct (Hname Htruthy) as (name & Hprovider & Hlisted).
    destruct (checkTemperature_Next _ _ Ht) as (_ & Hp1 & _).
    destruct (checkMaxTokens_Next _ _ Hk) as (_ & Hp2 & _).
    destruct (sanitize_Next _ _ Hs) as (Hp3 & _).
    exists name.
    assert (Hsel : exists service, Server.selectService name = Some service).
    { unfold Server.selectService. unfold listed, providerNames in Hlisted.
      simpl in Hlisted.
      repeat match goal with
             | |- context [String.eqb ?a ?b] => destruct (String.eqb a b); eauto
             end.
      discriminate. }
    destruct Hsel as [service Hsel]. exists service.
    split; [congruence | exact Hsel].
  - intros Hm Htruthy Hnot. unfold validateChatRequest. rewrite Hm. simpl.
    unfold checkProvider. rewrite Htruthy.
    destruct (provider body) as [| | | | |name| |]; try reflexivity.
    by destruct (Hnot name).
Qed.

End ValidationProperties.

Lemma validated_message_is_trimmed_text_witness :
  exists s,
    Validation.message Scenarios.rawBody = VStr s
    /\ Validation.message Scenarios.validatedBody = VStr (trim s)
    /\ trim s <> EmptyString
    /\ trim (trim s) = trim s
    /\ (String.length (trim s) <= String.length s)%nat
    /\ (Z.of_nat (String.length s) <= 10000)%Z.
Proof.
  exact (validated_message_is_trimmed_text Scenarios.readFloat Scenarios.readInt
           Scenarios.rawBody Scenarios.validatedBody eq_refl).
Defined.

Lemma validated_numbers_are_in_range_witness :
  Validation.temperature Scenarios.validatedBody = VNum 5 (-1)
  /\ Validation.maxTokens Scenarios.validatedBody = VInt 256.
Proof.
  pose proof (validated_numbers_are_in_range Scenarios.readFloat Scenarios.readInt
                Scenarios.rawBody Scenarios.validatedBody eq_refl) as [Htemp Htok].
  destruct Htemp as [[Hnone _] | (_ & m & e & Hread & Htemp & _)]; [discriminate|].
  destruct Htok as [[Hnone _] | (_ & tokens & Hint & Htok & _)]; [discriminate|].
  injection Hread as <- <-. injection Hint as <-.
  split; [exact Htemp | exact Htok].
Defined.

Lemma validated_provider_is_served_witness :
  exists name service,
    Validation.provider Scenarios.validatedBody = VStr name
    /\ Server.selectService name = Some service.
Proof.
  exact (proj1 (validated_provider_is_served Scenarios.readFloat Scenarios.readInt
                  Scenarios.rawBody)
               Scenarios.validatedBody eq_refl eq_refl).
Defined.

(** ** The other routes of the server *)

Section RouteProperties.
Import ConversationManager Server Routes.

Lemma disciplined_shape (trace : list Callback) :
  disciplined trace = true ->
  exists vs final,
    trace = (List.map OnChunk vs ++ [final])%list /\ isChunk final = false.
Proof.
  induction trace as [|called rest IH]; [discriminate|].
  destruct rest as [|next rest'].
  - simpl. intros H. exists [], called. split; [reflexivity|].
    by destruct (isChunk called).
  - intros H. change (isChunk called && disciplined (next :: rest') = true) in H.
    apply andb_true_iff in H as [Hchunk Hrest].
    destruct (IH Hrest) as (vs & final & Heq & Hfinal).
    destruct called as [v| |]; try discriminate.
    exists (v :: vs), final. split; [|exact Hfinal].
    rewrite Heq. reflexivity.
Qed.

Lemma payloads_contents (vs : list Value) (rest : list Frame) :
  payloads (List.map ContentFrame vs ++ rest) = (vs ++ payloads rest)%list.
Proof. induction vs as [|v vs IH]; simpl; [reflexivity | by rewrite IH]. Qed.

Lemma deltas_chunks (vs : list Value) (rest : list Callback) :
  deltas (List.map OnChunk vs ++ rest) = (vs ++ deltas rest)%list.
Proof. induction vs as [|v vs IH]; simpl; [reflexivity | by rewrite IH]. Qed.

Lemma completions_chunks (vs : list Value) (rest : list Callback) :
  completions (List.map OnChunk vs ++ rest) = completions rest.
Proof. induction vs as [|v vs IH]; simpl; [reflexivity | exact IH]. Qed.

(** The chunks of a stream are written as they come. *)
Lemma onCallback_chunks env body st (vs : list Value) : forall written,
  fold_left (onCallback env body) (List.map OnChunk vs) (st, mkSse written false)
  = (st, mkSse (written ++ List.map ContentFrame vs) false).
Proof.
  induction vs as [|v vs IH]; intros written; simpl.
  - by rewrite app_nil_r.
  - unfold write at 1. simpl. rewrite IH. by rewrite <- app_assoc.
Qed.

(** The two services of the route: their traces end with their only
    terminal callback, and a completion carries what was streamed. *)
Lemma streamingService_trace clients name streamResponse req :
  streamingService clients name = Some streamResponse ->
  exists vs final,
    streamResponse req = (List.map OnChunk vs ++ [final])%list
    /\ isChunk final = false
    /\ forall content mdl usage,
         final = OnComplete content mdl usage ->
         content = fold_left str_plus vs EmptyString.
Proof.
  unfold streamingService. intros H.
  assert (Hboth : disciplined (streamResponse req) = true
                  /\ (completions (streamResponse req) = []
                      \/ completions (streamResponse req)
                         = [concatDeltas (streamResponse req)])).
  { destruct (selectService name) as [[| | | |]|]; try discriminate;
      injection H as <-.
    - split; [apply anthropic_stream_disciplined | apply anthropic_completion].
    - split; [apply openai_stream_disciplined | apply openai_completion]. }
  destruct Hboth as [Hd Hc].
  destruct (disciplined_shape _ Hd) as (vs & final & Htrace & Hfinal).
  exists vs, final. split; [exact Htrace|]. split; [exact Hfinal|].
  intros content mdl usage ->. unfold concatDeltas in Hc.
  rewrite Htrace, completions_chunks, deltas_chunks in Hc. simpl in Hc.
  rewrite app_nil_r in Hc. destruct Hc as [Hc | Hc]; [discriminate|].
  by injection Hc.
Qed.

Lemma last_map_content (vs : list Value) :
  match last (List.map ContentFrame vs) with
  | Some (ContentFrame _) | None => True
  | _ => False
  end.
Proof.
  induction vs as [|v vs IH] using rev_ind; [exact I|].
  rewrite map_app. simpl. by rewrite last_snoc.
Qed.

(** X22.  What the streaming route stores and what it tells the client.
    Whatever the vendor client does, a reply that ends with an error event
    has left the store untouched: nothing is persisted for a stream that
    failed, for a provider the route does not stream from, or when the
    history could not be read.  A reply that ends with the [done] event
    has stored the user turn and then the assistant turn under the id of
    that event, and the content of the stored assistant turn is the
    concatenation of the contents of the events sent before.  The only
    other replies are those whose stream completed while a [saveMessage]
    failed: no [done] and no error event is written, [res.end()] is not
    called, and the store holds nothing new or the user turn alone. *)
Theorem stream_route_persists_on_completion_only :
  forall (clients : StreamClients) (env : HandlerEnv) (st : Store) (body : Body),
    let convId := resolveId env body in
    let st' := fst (chatStream clients env st body) in
    let res := snd (chatStream clients env st body) in
    match last (frames res) with
    | Some (ErrorFrame _) => st' = st /\ ended res = true
    | Some (DoneFrame id _) =>
        id = convId /\ ended res = true
        /\ snd (saveMessage (env_user env) st convId (userTurn env body)) = Ok tt
        /\ exists mdl,
             st' = fst (saveMessage (env_assistant env)
                          (fst (saveMessage (env_user env) st convId
                                            (userTurn env body)))
                          convId
                          (streamedTurn env
                             (fold_left str_plus (payloads (frames res)) EmptyString)
                             mdl))
    | Some (ContentFrame _) | None =>
        ended res = false
        /\ (st' = st /\ write_log_fails (env_user env) = true
            \/ st' = fst (saveMessage (env_user env) st convId (userTurn env body))
               /\ write_log_fails (env_assistant env) = true)
    end.
Proof.
  intros clients env st body convId st' res. unfold st', res, chatStream.
  fold convId.
  destruct (getConversation (env_history env) st convId) as [history|e];
    [|simpl; by split].
  destruct (streamingService clients (orDefault (provider body) "anthropic"))
    as [streamResponse|] eqn:Hservice; [|simpl; by split].
  destruct (streamingService_trace clients _ streamResponse
              (streamRequest env body history) Hservice)
    as (vs & final & Htrace & Hfinal & Hcontent).
  rewrite Htrace, fold_left_app, onCallback_chunks. simpl.
  destruct final as [v|content mdl usage|e]; [discriminate| |].
  - fold convId.
    destruct (saveMessage (env_user env) st convId (userTurn env body))
      as [st1 [[]|e1]] eqn:Huser.
    + destruct (saveMessage (env_assistant env) st1 convId
                            (streamedTurn env content mdl))
        as [st2 [[]|e2]] eqn:Hassistant; simpl.
      * unfold write. simpl. rewrite last_snoc.
        split; [reflexivity|]. split; [reflexivity|]. split; [reflexivity|].
        exists mdl. rewrite payloads_contents. simpl. rewrite app_nil_r.
        rewrite <- (Hcontent content mdl usage eq_refl). by rewrite Hassistant.
      * apply saveMessage_throws in Hassistant as [-> Hfails].
        pose proof (last_map_content vs) as Hlast.
        destruct (last (List.map ContentFrame vs)) as [[| |]|]; try contradiction;
          (split; [reflexivity|]; right; by split).
    + apply saveMessage_throws in Huser as [-> Hfails]. simpl.
      pose proof (last_map_content vs) as Hlast.
      destruct (last (List.map ContentFrame vs)) as [[| |]|]; try contradiction;
        (split; [reflexivity|]; left; by split).
  - unfold write. simpl. rewrite last_snoc. by split.
Qed.

(** X23.  The comparison route answers for each provider on its own.  Its
    [results] name the requested providers, one by one and in their order
    (the two defaults when none is given); each result is [fulfilled] with
    the answer of that provider or [rejected] with its error, and is what
    it would be were that provider asked alone: the failure of one, or a
    name the server has no service for, leaves the others as they are. *)
Theorem compare_settles_each_provider_alone :
  forall (services : Services) (message : string)
         (providers : option (list string)) (models : option (gmap string string)),
    let asked := orDefault providers ["anthropic"; "openai"] in
    let results := compare services message providers models in
    List.map settled_provider results = asked
    /\ (forall i name, asked !! i = Some name ->
          results !! i = (compare services message (Some [name]) models) !! 0%nat)
    /\ Forall (fun result =>
                 (status result = "fulfilled"
                  /\ error result = None
                  /\ exists value, response result = Some value
                       /\ compared_provider value = settled_provider result
                       /\ exists service,
                            getAIService (settled_provider result) = Service service)
                 \/ (status result = "rejected"
                     /\ response result = None
                     /\ exists reason, error result = Some reason))
              results.
Proof.
  intros services message providers models asked results.
  unfold results, compare. fold asked. clearbody asked. clear results.
  split.
  { rewrite map_map. induction asked as [|name rest IH]; simpl; [reflexivity|].
    f_equal; [|exact IH]. by destruct (compareOne services message models name). }
  split.
  { intros i name Hi. simpl. rewrite list_lookup_fmap, Hi. reflexivity. }
  apply Forall_map. apply Forall_forall. intros name _.
  unfold compareOne.
  destruct (getAIService name) as [service| |] eqn:Hservice; simpl.
  - destruct (services service _) as [answer|reason]; simpl.
    + left. split; [reflexivity|]. split; [reflexivity|].
      eexists. split; [reflexivity|]. simpl. split; [reflexivity|].
      exists service. exact Hservice.
    + right. split; [reflexivity|]. split; [reflexivity|]. by eexists.
  - right. split; [reflexivity|]. split; [reflexivity|]. by eexists.
  - right. split; [reflexivity|]. split; [reflexivity|]. by eexists.
Qed.

(** X24.  The two routes do not read a provider name alike.  A name that
    the chat route serves only thanks to its [toLowerCase] (such as
    [OpenAI]) finds no service on the comparison route, which looks the
    name up as it is given: its result is [rejected] with the [TypeError]
    of a call on [undefined]. *)
Theorem compare_is_case_sensitive_where_chat_is_not :
  forall (name : string) (service : Provider),
    selectService name = Some service ->
    toLowerCase name <> name ->
    getAIService name = Missing
    /\ forall (services : Services) (message : string)
              (models : option (gmap string string)),
         compare services message (Some [name]) models
         = [mkSettled name "rejected" None
              (Some "Cannot read properties of undefined (reading 'generateResponse')")].
Proof.
  intros name service Hselect Hcase.
  assert (Hmissing : getAIService name = Missing).
  { unfold getAIService, Validation.listed, inheritedNames. simpl.
    repeat match goal with
           | |- context [String.eqb name ?literal] =>
               destruct (String.eqb_spec name literal) as [Heq|_];
               [exfalso; subst name;
                first [by apply Hcase | vm_compute in Hselect; discriminate]|]
           end.
    reflexivity. }
  split; [exact Hmissing|].
  intros services message models. unfold compare, compareOne. simpl.
  by rewrite Hmissing.
Qed.

Lemma compare_is_case_sensitive_where_chat_is_not_witness :
  getAIService "OpenAI" = Missing
  /\ forall (services : Services) (message : string)
            (models : option (gmap string string)),
       compare services message (Some ["OpenAI"]) models
       = [mkSettled "OpenAI" "rejected" None
            (Some "Cannot read properties of undefined (reading 'generateResponse')")].
Proof.
  exact (compare_is_case_sensitive_where_chat_is_not "OpenAI" OpenAI eq_refl
           ltac:(discriminate)).
Defined.

End RouteProperties.

(** ** The chat route, when everything succeeds *)

Section ChatRouteProperties.
Import ConversationManager Server.






(** X26.  The default model of the chat route reaches every adapter.  A
    chat request that names no model is sent to the vendor of whichever
    provider it selects with the model [claude-3-sonnet]: the handler
    always passes a model, so that the default model of each adapter is
    never used on this route.  The comparison route differs: the model it
    picks by default for a service other than Anthropic's is not that
    one. *)
Theorem chat_default_model_reaches_every_adapter :
  forall (env : HandlerEnv) (body : Body) (history : list Entry),
    model body = None ->
    let req := buildRequest env body history in
    AnthropicService.model (AnthropicService.generateParams req) = "claude-3-sonnet"
    /\ OpenAIService.model (OpenAIService.generateParams req) = "claude-3-sonnet"
    /\ MistralService.model (MistralService.generateParams req) = "claude-3-sonnet"
    /\ (exists p, CohereService.generateParams req = Ok p
          /\ CohereService.model p = "claude-3-sonnet")
    /\ (exists p, GeminiService.generateParams req = Ok p
          /\ GeminiService.model p = "claude-3-sonnet")
    /\ (forall name service,
          Routes.getAIService name = Routes.Service service ->
          service <> Anthropic ->
          Routes.modelFor None name <> "claude-3-sonnet").
Proof.
  intros env body history Hmodel req. unfold req, buildRequest. rewrite Hmodel.
  split; [reflexivity|]. split; [reflexivity|]. split; [reflexivity|].
  split.
  { unfold CohereService.generateParams, CohereService.paramsWith,
      CohereService.currentMessage.
    cbn [req_messages]. rewrite last_snoc. simpl. eexists. by split. }
  split.
  { unfold GeminiService.generateParams, GeminiService.lastText.
    cbn [req_messages req_systemPrompt].
    rewrite gemini_formatMessages_snoc, last_snoc. simpl. eexists. by split. }
  intros name service Hservice Hnot. unfold Routes.getAIService in Hservice.
  unfold Routes.modelFor, Routes.getDefaultModel.
  repeat match type of Hservice with
         | context [String.eqb name ?literal] =>
             destruct (String.eqb name literal);
             [injection Hservice as <-; first [by destruct Hnot | discriminate]|]
         end.
  by destruct (Validation.listed Routes.inheritedNames name).
Qed.

Lemma chat_default_model_reaches_every_adapter_witness :
  OpenAIService.model
    (OpenAIService.generateParams
       (buildRequest Samples.handlerEnv Samples.chatBody []))
  = "claude-3-sonnet"
  /\ Routes.modelFor None "openai" <> "claude-3-sonnet".
Proof.
  destruct (chat_default_model_reaches_every_adapter Samples.handlerEnv
              Samples.chatBody [] eq_refl) as (_ & Hopenai & _ & _ & _ & Hcompare).
  split; [exact Hopenai|]. exact (Hcompare "openai" OpenAI eq_refl ltac:(discriminate)).
Defined.



End ChatRouteProperties.

(** ** What the server says of itself *)

Section ConfigurationProperties.
Import ConversationManager Server Configuration.

(** X28.  [GET /api/config] describes the routes.  The providers it lists
    are, letter case apart, exactly the names the chat route has a service
    for, and its default provider is the one the chat route takes when the
    request names none; the providers it lists as streaming are exactly
    those the streaming route streams from; its [maxTokens] is the largest
    value [validateChatRequest] lets through; its [maxConversationLength]
    bounds every log [saveMessage] has written; and every default model of
    the comparison route is one [GET /api/models] lists for a provider that
    route has a service for. *)
Theorem config_describes_the_routes :
  (forall name,
     Validation.listed (availableProviders config) (toLowerCase name) = true
     <-> exists service, selectService name = Some service)
  /\ (forall body,
        provider body = None ->
        selectService (orDefault (provider body) "anthropic")
        = selectService (defaultProvider config))
  /\ (forall clients name,
        Validation.listed (streaming (supportedFeatures config)) (toLowerCase name)
        = true
        <-> exists streamResponse,
              Routes.streamingService clients name = Some streamResponse)
  /\ (forall parseInt body tokens,
        Validation.maxTokens body <> VUndefined ->
        parseInt (Validation.maxTokens body) = Some tokens ->
        (exists handed, Validation.checkMaxTokens parseInt body = Validation.Next handed)
        <-> (1 <= tokens <= maxTokens config)%Z)
  /\ (forall env st id m st',
        saveMessage env st id m = (st', Ok tt) ->
        (Z.of_nat (length (logOf st' id)) <= maxConversationLength config)%Z)
  /\ (forall name listed,
        In (name, listed) models ->
        In (Routes.getDefaultModel name) listed
        /\ exists service, Routes.getAIService name = Routes.Service service).
Proof.
  split.
  { intros name. unfold selectService, Validation.listed. simpl.
    repeat match goal with
           | |- context [String.eqb ?a ?b] => destruct (String.eqb a b)
           end; simpl; split; intros H; try done; try (by eexists);
      by destruct H. }
  split.
  { intros body ->. reflexivity. }
  split.
  { intros clients name. unfold Routes.streamingService, selectService,
      Validation.listed. simpl.
    repeat match goal with
           | |- context [String.eqb ?a ?b] => destruct (String.eqb a b)
           end; simpl; split; intros H; try done; try (by eexists);
      by destruct H. }
  split.
  { intros parseInt body tokens Hgiven Hread. unfold Validation.checkMaxTokens.
    simpl.
    destruct (Validation.maxTokens body) eqn:Hvalue; try contradiction;
      rewrite Hread;
      (destruct (Z.ltb_spec tokens 1) as [Hlow|Hlow]; simpl;
       [|destruct (Z.ltb_spec 4000 tokens) as [Hhigh|Hhigh]; simpl]);
      split; intros Hyp; try lia; try (by eexists); by destruct Hyp. }
  split.
  { intros env st id m st' Hsave. apply saveMessage_log in Hsave.
    unfold logOf. rewrite Hsave, lookup_insert_eq.
    rewrite length_app, slice_last_length. simpl. lia. }
  intros name listed Hin. simpl in Hin.
  repeat (destruct Hin as [Hin | Hin];
          [injection Hin as <- <-; split; [simpl; tauto | by eexists]|]).
  contradiction.
Qed.

End ConfigurationProperties.
